(** * Everyday Tasks Hub backend (src/server.js): a shallow embedding

    The server keeps four module-level stores (hub states, the Alexa
    identifier mapping with its counter, registered profiles) and serves
    eight HTTP endpoints over them.  This file embeds the store logic and
    the handlers as Rocq functions and proves properties of them.

    Modelling conventions, used throughout:

    - A JavaScript object used as a dictionary or as a JSON record is the
      finite map [gmap string _] of its own properties.  The source reads
      and writes properties through the prototype chain; the finite map
      and the object agree as long as no lookup or assignment uses the
      name of a property of [Object.prototype] ([constructor],
      [__proto__], ...) on an object that does not own it, and no
      prototype has been changed.  [ordinary_request] describes the
      requests for which this is so.  Statements about the handlers are
      made for such requests, on the states that the server reaches
      through such requests, unless they hold of the source for every
      request.  [Prototype.deepMerge] is the merge with the prototype
      chain taken into account.
    - Strings are byte strings (the UTF-8 form of the text).
      [toLowerCase] and [substring] are the JavaScript functions on
      ASCII text only; statements that depend on them ask for ASCII text.
    - JSON numbers are payload only (no arithmetic is done on them); they
      are carried as integers.
    - Request bodies have the shape documented above each handler in the
      source ([userId], [displayName], [name] are strings when present,
      [state] is an object when present).
    - [new Date().toISOString()] reads an external clock.  The clock is an
      oracle [clock : nat -> string] giving the string returned by the
      n-th read; the server state counts the reads made so far.
    - What [console.log] prints is not modelled; the conversion of its
      arguments to strings is, where it can throw (line 215). *)

From stdpp Require Import gmap strings list fin_maps pretty.

#[local] Set Warnings "-register-all".

(** ** JavaScript strings *)

Module JsString.

(** [s.startsWith(p)] *)
Definition startsWith (s p : string) : bool := String.prefix p s.

(** [s.includes(k)]: [k] occurs in [s] at some offset. *)
Fixpoint includes (s k : string) : bool :=
  String.prefix k s ||
  match s with
  | EmptyString => false
  | String _ s' => includes s' k
  end.

Definition lower_ascii (c : Ascii.ascii) : Ascii.ascii :=
  let n := Ascii.nat_of_ascii c in
  if (65 <=? n)%nat && (n <=? 90)%nat then Ascii.ascii_of_nat (n + 32) else c.

(** [s.toLowerCase()] on ASCII text; bytes above 127 are kept, where
    JavaScript lower-cases the characters they encode. *)
Fixpoint toLowerCase (s : string) : string :=
  match s with
  | EmptyString => EmptyString
  | String c s' => String (lower_ascii c) (toLowerCase s')
  end.

(** [s.substring(0, n)] on ASCII text, where a byte is a UTF-16 code
    unit. *)
Definition substring0 (n : nat) (s : string) : string := String.substring 0 n s.

(** Truthiness of a string: only the empty string is falsy. *)
Definition truthy (s : string) : bool :=
  match s with EmptyString => false | String _ _ => true end.

(** Text made of ASCII characters only: every byte is below 128. *)
Fixpoint is_ascii (s : string) : bool :=
  match s with
  | EmptyString => true
  | String c s' => (Ascii.nat_of_ascii c <? 128)%nat && is_ascii s'
  end.




End JsString.

Import JsString.

(** ** JSON-like values *)

(** The values that flow through the server: parsed JSON plus
    [undefined], which [deepMerge] tests for explicitly. *)
Inductive value : Type :=
  | VUndefined
  | VNull
  | VBool (b : bool)
  | VNum (n : Z)
  | VStr (s : string)
  | VArr (elems : list value)
  | VObj (props : gmap string value).

Abbreviation obj := (gmap string value).

(** [o[key]]: a missing property reads as [undefined]. *)
Definition get (o : obj) (key : string) : value :=
  match o !! key with
  | Some v => v
  | None => VUndefined
  end.

(** [v !== null && typeof v === 'object' && !Array.isArray(v)] *)
Definition is_plain_object (v : value) : bool :=
  match v with
  | VObj _ => true
  | _ => false
  end.

Definition is_undefined (v : value) : bool :=
  match v with
  | VUndefined => true
  | _ => false
  end.

(** [`${v}`], the conversion of [v] to a string in a template literal,
    throws a [TypeError] for an object that owns a property [toString]:
    a property read from JSON is not callable, and the inherited
    [valueOf] returns the object itself.  An array is converted by
    joining its converted elements (null and undefined give the empty
    string).  Everything else converts. *)
Fixpoint converts_to_string (v : value) : bool :=
  match v with
  | VObj props => bool_decide (props !! "toString" = None)
  | VArr elems => forallb converts_to_string elems
  | _ => true
  end.

(** JavaScript truthiness of a value. *)
Definition truthy_value (v : value) : bool :=
  match v with
  | VUndefined | VNull => false
  | VBool b => b
  | VNum n => negb (n =? 0)%Z
  | VStr s => truthy s
  | VArr _ | VObj _ => true
  end.

(** ** Recursive merge (server.js, lines 129-150)

    [result] starts as a copy of [target]; the loop visits every property
    of [source] and assigns into [result].  This is the merge on own
    properties: [target] and [source] are records whose prototype is an
    [Object.prototype] without enumerable properties, and no record of
    [source] has a key [__proto__] ([Prototype.deepMerge] below lifts
    both restrictions).  The function recurses on [source], which is a
    record at every call site ([state || {}] in the handler for a
    request body of the documented shape, a value that passed the
    plain-object test in the recursive call); the last branch is there
    for totality only. *)
Fixpoint deepMerge (target : obj) (source : value) {struct source} : obj :=
  match source with
  | VObj src =>
      map_fold
        (fun key sv result =>
           if is_undefined sv then result
           else
             match sv, get target key with
             | VObj _, VObj t => <[key := VObj (deepMerge t sv)]> result
             | _, _ => <[key := sv]> result
             end)
        target src
  | _ => target
  end.

(** The body of the [for ... in] loop, for one property of [source]. *)
Definition merge_step (target : obj) (key : string) (sv : value) (result : obj) : obj :=
  if is_undefined sv then result
  else
    match sv, get target key with
    | VObj _, VObj t => <[key := VObj (deepMerge t sv)]> result
    | _, _ => <[key := sv]> result
    end.

(** What the spec's merge rule prescribes for one key, given what the
    existing state and the update hold there. *)
Definition merge_rule (existing incoming : option value) : option value :=
  match incoming with
  | None | Some VUndefined => existing
  | Some (VObj s) =>
      match existing with
      | Some (VObj t) => Some (VObj (deepMerge t (VObj s)))
      | _ => Some (VObj s)
      end
  | Some v => Some v
  end.

(** ** The merge and the prototype chain

    The loop of [deepMerge] is [for (const key in source)] without an
    own-property test, and it reads [target[key]] and assigns
    [result[key]].  For records created by [JSON.parse] or by an object
    literal (their prototype is [Object.prototype]) this differs from the
    merge on own properties in two ways. *)

(** The names of the properties that [Object.prototype] has when the
    module is loaded.  None of them is enumerable; [__proto__] is an
    accessor, the others are functions. *)
Definition Object_prototype_names : list string :=
  ["__proto__"; "constructor"; "hasOwnProperty"; "isPrototypeOf";
   "propertyIsEnumerable"; "toLocaleString"; "toString"; "valueOf";
   "__defineGetter__"; "__defineSetter__"; "__lookupGetter__"; "__lookupSetter__"].

Definition inherited_name (key : string) : bool :=
  bool_decide (key ∈ Object_prototype_names).

Module Prototype.

(** [result[key] = x] sets the prototype of [result] (or does nothing)
    and creates no property when [key] is [__proto__] and [result], a
    copy of [target], does not own a property of that name: the
    assignment then reaches the accessor of [Object.prototype].  A
    record that owns a property [__proto__] (as [JSON.parse] creates it
    for a key of that name) is assigned like any other. *)
Definition sets_prototype (target : obj) (key : string) : bool :=
  bool_decide (key = "__proto__") && bool_decide (target !! key = None).

(** [deepMerge(target, source)] for two records, as the JSON value of
    its result (its own properties).  [inherited] holds the enumerable
    properties of [Object.prototype]: there is none when the module is
    loaded, and what the server can put there are strings under names
    that are not built in (the assignments of lines 211, 319 and 320,
    when the object they reach is the prototype itself).  As for
    [deepMerge] above, the last branch is there for totality only.

    - The loop visits the own properties of [source], then the inherited
      enumerable ones that [source] does not own; for these
      [source[key]] is the inherited string.
    - [target[key]] is a plain object only when [target] owns it, except
      for [__proto__], which reads as [Object.prototype]: the inherited
      strings and the built-in functions fail the [typeof] test.  In
      that exceptional case the assignment creates no property,
      whatever is assigned. *)
Fixpoint deepMerge (inherited : gmap string string) (target : obj) (source : value)
    {struct source} : obj :=
  match source with
  | VObj src =>
      let own :=
        map_fold
          (fun key sv result =>
             if is_undefined sv then result
             else if sets_prototype target key then result
             else
               match sv, get target key with
               | VObj _, VObj t => <[key := VObj (deepMerge inherited t sv)]> result
               | _, _ => <[key := sv]> result
               end)
          target src in
      map_fold
        (fun key (s : string) result =>
           if bool_decide (is_Some (src !! key)) || inherited_name key then result
           else <[key := VStr s]> result)
        own inherited
  | _ => target
  end.

(** What [source] holds at [key] for the loop: its own property, or
    the inherited enumerable one. *)
Definition incoming (inherited : gmap string string) (src : obj) (key : string)
    : option value :=
  match src !! key with
  | Some sv => Some sv
  | None => if inherited_name key then None else VStr <$> inherited !! key
  end.

(** The merge rule for one key, with the nested merge made in the same
    environment. *)
Definition merge_rule (inherited : gmap string string) (existing incoming : option value)
    : option value :=
  match incoming with
  | None | Some VUndefined => existing
  | Some (VObj s) =>
      match existing with
      | Some (VObj t) => Some (VObj (deepMerge inherited t (VObj s)))
      | _ => Some (VObj s)
      end
  | Some v => Some v
  end.

End Prototype.

Module Examples.
Definition o (l : list (string * value)) : value := VObj (list_to_map l).
Definition r (l : list (string * value)) : obj := list_to_map l.

Definition ab_old : obj := r [("a", VNum 1); ("b", VArr [VNum 1; VNum 2])].
Definition ab_new : value := o [("a", VNum 2); ("b", VArr [VNum 3])].
Definition ab_out : obj := r [("a", VNum 2); ("b", VArr [VNum 3])].

Definition privacy_old : obj :=
  r [("privacy", o [("microphoneEnabled", VBool true); ("allowVoiceHistory", VBool true)])].
Definition privacy_new : value :=
  o [("privacy", o [("microphoneEnabled", VBool false)])].
Definition privacy_out : obj :=
  r [("privacy", o [("microphoneEnabled", VBool false); ("allowVoiceHistory", VBool true)])].
End Examples.

(** ** The in-memory stores (server.js, lines 25-58) *)

(** An entry of [registeredProfiles]: [{ name, avatar, createdAt, lastSeen }]. *)
Record Profile : Type := mkProfile {
  name : string;
  avatar : string;
  createdAt : string;
  lastSeen : string
}.

(** The module-level stores, together with the number of clock reads made
    so far. *)
Record Server : Type := mkServer {
  hubStateByVisitorId : gmap string obj;
  alexaUserToVisitor : gmap string string;
  visitorCounter : nat;
  registeredProfiles : gmap string Profile;
  clockReads : nat
}.

(** The stores when the module has just been loaded. *)
Definition initial : Server :=
  {| hubStateByVisitorId := ∅;
     alexaUserToVisitor := ∅;
     visitorCounter := 0;
     registeredProfiles := ∅;
     clockReads := 0 |}.

Definition with_hubStates (h : gmap string obj) (st : Server) : Server :=
  {| hubStateByVisitorId := h;
     alexaUserToVisitor := alexaUserToVisitor st;
     visitorCounter := visitorCounter st;
     registeredProfiles := registeredProfiles st;
     clockReads := clockReads st |}.

Definition with_mapping (m : gmap string string) (c : nat) (st : Server) : Server :=
  {| hubStateByVisitorId := hubStateByVisitorId st;
     alexaUserToVisitor := m;
     visitorCounter := c;
     registeredProfiles := registeredProfiles st;
     clockReads := clockReads st |}.

Definition with_profiles (p : gmap string Profile) (st : Server) : Server :=
  {| hubStateByVisitorId := hubStateByVisitorId st;
     alexaUserToVisitor := alexaUserToVisitor st;
     visitorCounter := visitorCounter st;
     registeredProfiles := p;
     clockReads := clockReads st |}.

(** Handlers run in a state monad over the stores. *)
Definition M (A : Type) : Type := Server -> A * Server.

#[global] Instance M_ret : MRet M := fun A (a : A) st => (a, st).
#[global] Instance M_bind : MBind M :=
  fun A B (f : A -> M B) (m : M A) st => let '(a, st') := m st in f a st'.

Definition gets {A : Type} (f : Server -> A) : M A := fun st => (f st, st).
Definition modify (f : Server -> Server) : M unit := fun st => (tt, f st).

(** [DEFAULT_TASKS] *)
Definition task (id title icon description category voiceCommand : string) : value :=
  VObj (list_to_map
          [("id", VStr id); ("title", VStr title); ("icon", VStr icon);
           ("description", VStr description); ("category", VStr category);
           ("voiceCommand", VStr voiceCommand)]).

Definition DEFAULT_TASKS : list value :=
  [ task "t1" "Morning Routine" "â˜€ï¸" "Start your day right" "routine" "start my morning routine";
    task "t2" "Grocery List" "ðŸ›’" "Manage shopping items" "list" "open my grocery list";
    task "t3" "Medication Reminder" "ðŸ’Š" "Never miss a dose" "health" "set medication reminder";
    task "t4" "Control Lights" "ðŸ’¡" "Smart home controls" "home" "turn off the lights";
    task "t5" "Privacy Dashboard" "ðŸ›¡ï¸" "Manage your data" "privacy" "show privacy settings";
    task "t6" "Evening Routine" "ðŸŒ™" "Wind down for the night" "routine" "start evening routine" ].

Section WithClock.

(** The string returned by the n-th evaluation of
    [new Date().toISOString()]. *)
Variable clock : nat -> string.

Definition newDateISO : M string :=
  fun st =>
    (clock (clockReads st),
     {| hubStateByVisitorId := hubStateByVisitorId st;
        alexaUserToVisitor := alexaUserToVisitor st;
        visitorCounter := visitorCounter st;
        registeredProfiles := registeredProfiles st;
        clockReads := S (clockReads st) |}).

(** *** Identifier resolution (lines 65-77)

    The stored visitor identifiers are tested for truthiness as the
    source does ([!alexaUserToVisitor[alexaUserId]]); both a missing and
    a falsy entry lead to an allocation. *)
Definition alexaVisitorId (n : nat) : string := "alexa-user-" +:+ pretty n.

Definition allocateVisitorId (alexaUserId : string) : M string :=
  c ← gets visitorCounter;
  let visitorId := alexaVisitorId (S c) in
  m ← gets alexaUserToVisitor;
  modify (with_mapping (<[alexaUserId := visitorId]> m) (S c));;
  mret visitorId.

Definition getVisitorId (alexaUserId : string) : M string :=
  if negb (startsWith alexaUserId "amzn1.") then mret alexaUserId
  else
    m ← gets alexaUserToVisitor;
    match m !! alexaUserId with
    | Some visitorId =>
        if truthy visitorId then mret visitorId else allocateVisitorId alexaUserId
    | None => allocateVisitorId alexaUserId
    end.

(** *** Default hub state (lines 84-111) *)

(** The object literal returned by [createDefaultHubState], with the
    clock reading that goes into [debugInfo.lastUpdated]. *)
Definition defaultHubState (visitorId lastUpdated : string) : obj :=
  list_to_map
    [ ("visitorId", VStr visitorId);
      ("odisplayName", VNull);
      ("activeTile", VStr "home");
      ("lastAction", VStr "NONE");
      ("profile", VStr "default");
      ("routineResult",
        VObj (list_to_map [("lights", VNull); ("thermostat", VNull); ("reminder", VNull)]));
      ("groceryList", VArr []);
      ("pendingItem", VNull);
      ("privacy",
        VObj (list_to_map
                [("microphoneEnabled", VBool true);
                 ("allowVoiceHistory", VBool true);
                 ("lastHistoryDelete", VNull)]));
      ("tasks", VArr DEFAULT_TASKS);
      ("customTasks", VArr []);
      ("debugInfo",
        VObj (list_to_map
                [("lastUpdated", VStr lastUpdated);
                 ("lastAlexaRequest", VNull);
                 ("isAlexaUser", VBool (startsWith visitorId "alexa-user-"))])) ].

Definition createDefaultHubState (visitorId : string) : M obj :=
  lastUpdated ← newDateISO;
  mret (defaultHubState visitorId lastUpdated).

(** [hubStateByVisitorId[visitorId] = hubState], for an ordinary
    [visitorId]: the assignment creates or replaces an own property. *)
Definition storeHubState (visitorId : string) (hubState : obj) : M unit :=
  modify (fun st =>
    with_hubStates (<[visitorId := hubState]> (hubStateByVisitorId st)) st).

(** *** Hub state accessor (lines 118-124), for an ordinary [visitorId]:
    [hubStateByVisitorId[visitorId]] finds an own property or nothing.
    A stored hub state is an object, hence truthy. *)
Definition getOrCreateHubState (visitorId : string) : M obj :=
  states ← gets hubStateByVisitorId;
  match states !! visitorId with
  | Some hubState => mret hubState
  | None =>
      hubState ← createDefaultHubState visitorId;
      storeHubState visitorId hubState;;
      mret hubState
  end.

(** *** Avatar (lines 402-412); the literals are the bytes of the
    source file. *)
Definition avatar_mother : string := "ðŸ‘©".
Definition avatar_father : string := "ðŸ‘¨".
Definition avatar_child : string := "ðŸ‘¦".
Definition avatar_girl : string := "ðŸ‘§".
Definition avatar_grandmother : string := "ðŸ‘µ".
Definition avatar_grandfather : string := "ðŸ‘´".
Definition avatar_student : string := "ðŸ§‘â€ðŸŽ“".
Definition avatar_generic : string := "ðŸ‘¤".

Definition getAvatarForName (name : string) : string :=
  let nameLower := toLowerCase name in
  if includes nameLower "mom" || includes nameLower "mother" || includes nameLower "mama"
  then avatar_mother
  else if includes nameLower "dad" || includes nameLower "father" || includes nameLower "papa"
  then avatar_father
  else if includes nameLower "kid" || includes nameLower "child" || includes nameLower "son"
  then avatar_child
  else if includes nameLower "daughter" || includes nameLower "girl"
  then avatar_girl
  else if includes nameLower "grandma" || includes nameLower "grandmother"
  then avatar_grandmother
  else if includes nameLower "grandpa" || includes nameLower "grandfather"
  then avatar_grandfather
  else if includes nameLower "student"
  then avatar_student
  else avatar_generic.



(** *** Requests and responses *)

(** [res.status(code).json(body)]; [res.json(body)] has status 200. *)
Record Response : Type := mkResponse {
  status : nat;
  body : value
}.

Definition error_body (msg : string) : value :=
  VObj (list_to_map [("ok", VBool false); ("error", VStr msg)]).

(** A request field that is documented as a string is [None] when it
    is missing; [!field] holds for a missing and for an empty one. *)

Definition profile_json (p : Profile) : value :=
  VObj (list_to_map
          [("name", VStr (name p)); ("avatar", VStr (avatar p));
           ("createdAt", VStr (createdAt p)); ("lastSeen", VStr (lastSeen p))]).

(** [obj.key = x] on a value held in a variable: it sets the property
    of an object; on a primitive it has no effect (the module is not in
    strict mode), and a named property put on an array is not part of
    its JSON value. *)
Definition set_prop (v : value) (key : string) (x : value) : value :=
  match v with
  | VObj o => VObj (<[key := x]> o)
  | _ => v
  end.

(** The profile record built at lines 192-197 and 310-315:
    [createdAt] keeps the stored value when it is truthy and reads the
    clock otherwise; [lastSeen] always reads the clock.  The lookup and
    the assignment are those of an own property ([visitorId] is
    ordinary). *)
Definition writeProfile (visitorId displayName : string) : M unit :=
  profiles ← gets registeredProfiles;
  created ←
    match profiles !! visitorId with
    | Some p => if truthy (createdAt p) then mret (createdAt p) else newDateISO
    | None => newDateISO
    end;
  seen ← newDateISO;
  modify (fun st =>
    with_profiles
      (<[visitorId := {| name := displayName;
                         avatar := getAvatarForName displayName;
                         createdAt := created;
                         lastSeen := seen |}]> (registeredProfiles st)) st).

(** *** POST /hub/state (lines 167-230)

    The three fields are those of the request body itself: the body
    inherits none of them as long as [Object.prototype] has no
    enumerable property, which ordinary requests never give it.  For
    an ordinary request the only statement of the [try] block that can
    throw is the second log line (line 215), which
    converts [activeTile] and [lastAction] to strings after the stores
    have been written; the handler then answers 500 from its [catch]
    branch. *)
Record StateRequest : Type := mkStateRequest {
  sr_userId : option string;
  sr_state : option obj;
  sr_displayName : option string
}.

(** Lines 187-198: a truthy [displayName] is put on the merged state
    and registers or updates the profile. *)
Definition applyDisplayName (visitorId : string) (displayName : option string)
    (updatedState : obj) : M obj :=
  match displayName with
  | Some displayName =>
      if truthy displayName
      then writeProfile visitorId displayName;;
           mret (<["displayName" := VStr displayName]> updatedState)
      else mret updatedState
  | None => mret updatedState
  end.

(** Lines 200-204: [debugInfo] is kept when truthy and replaced by a
    new object otherwise, then stamped. *)
Definition stampDebugInfo (userId lastUpdated : string) (updatedState : obj) : obj :=
  let isAlexa := startsWith userId "amzn1." in
  let debugInfo0 :=
    if truthy_value (get updatedState "debugInfo")
    then get updatedState "debugInfo" else VObj ∅ in
  let debugInfo :=
    set_prop
      (set_prop
         (set_prop debugInfo0 "lastUpdated" (VStr lastUpdated))
         "isAlexaUser" (VBool isAlexa))
      "originalAlexaId"
      (if isAlexa then VStr (substring0 30 userId +:+ "...") else VNull) in
  <["debugInfo" := debugInfo]> updatedState.

(** Lines 209-212: the last-seen time of an existing profile is
    refreshed ([registeredProfiles[visitorId]] finds an own property or
    nothing, [visitorId] being ordinary). *)
Definition touchLastSeen (visitorId : string) : M unit :=
  profiles ← gets registeredProfiles;
  match profiles !! visitorId with
  | Some p =>
      seen ← newDateISO;
      modify (fun st =>
        with_profiles
          (<[visitorId := {| name := name p; avatar := avatar p;
                             createdAt := createdAt p; lastSeen := seen |}]>
             (registeredProfiles st)) st)
  | None => mret tt
  end.

(** Lines 214-229: the second log line converts [activeTile] and
    [lastAction] to strings; when that throws the [catch] branch
    answers 500, otherwise the handler answers with the stored state. *)
Definition stateResponse (visitorId : string) (updatedState : obj) : Response :=
  if converts_to_string (get updatedState "activeTile")
     && converts_to_string (get updatedState "lastAction")
  then {| status := 200;
          body := VObj (list_to_map
                          [("ok", VBool true); ("state", VObj updatedState);
                           ("visitorId", VStr visitorId)]) |}
  else {| status := 500; body := error_body "Internal server error" |}.

Definition post_hub_state (req : StateRequest) : M Response :=
  match sr_userId req with
  | None => mret {| status := 400; body := error_body "userId is required" |}
  | Some userId =>
    if negb (truthy userId)
    then mret {| status := 400; body := error_body "userId is required" |}
    else
      visitorId ← getVisitorId userId;
      existingState ← getOrCreateHubState visitorId;
      let merged := deepMerge existingState (VObj (default ∅ (sr_state req))) in
      named ← applyDisplayName visitorId (sr_displayName req) merged;
      lastUpdated ← newDateISO;
      let updatedState := stampDebugInfo userId lastUpdated named in
      storeHubState visitorId updatedState;;
      touchLastSeen visitorId;;
      mret (stateResponse visitorId updatedState)
  end.

(** *** GET /hub/state/:userId (lines 236-261) *)
Definition get_hub_state (userId : string) : M Response :=
  if negb (truthy userId)
  then mret {| status := 400; body := error_body "userId is required" |}
  else
    visitorId ← getVisitorId userId;
    hubState ← getOrCreateHubState visitorId;
    mret {| status := 200; body := VObj hubState |}.

(** *** POST /hub/profile/register (lines 297-338); the hub state that
    is written is the visitor's own ([visitorId] is ordinary). *)
Definition post_hub_profile_register (userId name : option string) : M Response :=
  match userId, name with
  | Some userId, Some name =>
    if negb (truthy userId) || negb (truthy name)
    then mret {| status := 400; body := error_body "userId and name are required" |}
    else
      visitorId ← getVisitorId userId;
      writeProfile visitorId name;;
      hubState ← getOrCreateHubState visitorId;
      let hubState :=
        <["profile" := VStr (toLowerCase name)]> (<["displayName" := VStr name]> hubState) in
      storeHubState visitorId hubState;;
      profiles ← gets registeredProfiles;
      mret {| status := 200;
              body := VObj (list_to_map
                              [("ok", VBool true);
                               ("profile", from_option profile_json VUndefined
                                             (profiles !! visitorId));
                               ("visitorId", VStr visitorId)]) |}
  | _, _ => mret {| status := 400; body := error_body "userId and name are required" |}
  end.

(** *** GET /hub/tasks (lines 344-348) *)
Definition get_hub_tasks : M Response :=
  mret {| status := 200; body := VObj (list_to_map [("tasks", VArr DEFAULT_TASKS)]) |}.

(** *** POST /hub/reset (lines 354-383) *)
Definition post_hub_reset (userId : option string) : M Response :=
  match userId with
  | None => mret {| status := 400; body := error_body "userId is required" |}
  | Some userId =>
    if negb (truthy userId)
    then mret {| status := 400; body := error_body "userId is required" |}
    else
      visitorId ← getVisitorId userId;
      freshState ← createDefaultHubState visitorId;
      storeHubState visitorId freshState;;
      mret {| status := 200;
              body := VObj (list_to_map [("ok", VBool true); ("state", VObj freshState)]) |}
  end.

(** *** GET /health (lines 417-425) *)
Definition get_health : M Response :=
  timestamp ← newDateISO;
  states ← gets hubStateByVisitorId;
  profiles ← gets registeredProfiles;
  mret {| status := 200;
          body := VObj (list_to_map
                          [("status", VStr "ok"); ("timestamp", VStr timestamp);
                           ("service", VStr "Everyday Tasks Hub API");
                           ("activeVisitors", VNum (Z.of_nat (size states)));
                           ("registeredProfiles", VNum (Z.of_nat (size profiles)))]) |}.

(** *** The server as a transition system

    GET /hub/profiles (lines 268-291) and GET /hub/users (lines 389-397)
    only read the stores to build their response; they write none of
    them and do not read the clock, so they are steps that leave the
    server as it is. *)
Inductive Request : Type :=
  | PostHubState (req : StateRequest)
  | GetHubState (userId : string)
  | GetHubProfiles
  | PostHubProfileRegister (userId name : option string)
  | GetHubTasks
  | PostHubReset (userId : option string)
  | GetHubUsers
  | GetHealth.

Definition step (r : Request) (st : Server) : Server :=
  match r with
  | PostHubState req => snd (post_hub_state req st)
  | GetHubState userId => snd (get_hub_state userId st)
  | GetHubProfiles => st
  | PostHubProfileRegister userId name => snd (post_hub_profile_register userId name st)
  | GetHubTasks => snd (get_hub_tasks st)
  | PostHubReset userId => snd (post_hub_reset userId st)
  | GetHubUsers => st
  | GetHealth => snd (get_health st)
  end.

(** The server after a sequence of requests, oldest first. *)
Definition run (rs : list Request) (st : Server) : Server :=
  foldl (fun st r => step r st) st rs.

(** Resolving a sequence of external identifiers, oldest first. *)
Fixpoint resolveAll (ids : list string) : M (list string) :=
  match ids with
  | [] => mret []
  | id :: ids' =>
      v ← getVisitorId id;
      vs ← resolveAll ids';
      mret (v :: vs)
  end.

End WithClock.

(** ** Object identity: the task catalog on a heap

    In the value model above a hub state is the JSON value a client sees.
    Whether two hub states share an object is not visible there, so the
    creation of a default state is modelled a second time on a heap of
    objects and arrays with references between them.  Locations are
    indices into the list of allocated cells. *)
Module Heap.

Abbreviation loc := nat.

(** A property or array element: a primitive, or a reference to an
    object or array. *)
Inductive hvalue : Type :=
  | HPrim (v : value)
  | HRef (l : loc).

Inductive cell : Type :=
  | CObj (props : gmap string hvalue)
  | CArr (elems : list hvalue).

Abbreviation heap := (list cell).

Definition H (A : Type) : Type := heap -> A * heap.

#[global] Instance H_ret : MRet H := fun A (a : A) h => (a, h).
#[global] Instance H_bind : MBind H :=
  fun A B (f : A -> H B) (m : H A) h => let '(a, h') := m h in f a h'.

(** An object or array literal allocates a fresh cell. *)
Definition alloc (c : cell) : H loc := fun h => (length h, h ++ [c]).

(** A record whose properties are all primitives. *)
Definition flat (o : obj) : cell := CObj (HPrim <$> o).

Definition task_cell (t : value) : cell :=
  match t with
  | VObj o => flat o
  | _ => CObj ∅
  end.

(** The heap when the module has been loaded: the six task records,
    then the [DEFAULT_TASKS] array that refers to them. *)
Definition module_heap : heap :=
  (task_cell <$> DEFAULT_TASKS) ++ [CArr (HRef <$> seq 0 (length DEFAULT_TASKS))].

Definition DEFAULT_TASKS_loc : loc := length DEFAULT_TASKS.

(** [[...a]]: a new array with the elements of [a]; an element that is
    a reference is copied as a reference. *)
Definition spread (a : loc) : H loc :=
  fun h =>
    match h !! a with
    | Some (CArr elems) => alloc (CArr elems) h
    | _ => alloc (CArr []) h
    end.

(** [createDefaultHubState] (lines 84-111), allocating in the order in
    which the literal is evaluated; returns the location of the new
    hub state. *)
Definition createDefaultHubState (visitorId lastUpdated : string) : H loc :=
  routineResult ← alloc (flat (list_to_map
                     [("lights", VNull); ("thermostat", VNull); ("reminder", VNull)]));
  groceryList ← alloc (CArr []);
  privacy ← alloc (flat (list_to_map
                     [("microphoneEnabled", VBool true);
                      ("allowVoiceHistory", VBool true);
                      ("lastHistoryDelete", VNull)]));
  tasks ← spread DEFAULT_TASKS_loc;
  customTasks ← alloc (CArr []);
  debugInfo ← alloc (flat (list_to_map
                     [("lastUpdated", VStr lastUpdated);
                      ("lastAlexaRequest", VNull);
                      ("isAlexaUser", VBool (startsWith visitorId "alexa-user-"))]));
  alloc (CObj (list_to_map
           [ ("visitorId", HPrim (VStr visitorId));
             ("odisplayName", HPrim VNull);
             ("activeTile", HPrim (VStr "home"));
             ("lastAction", HPrim (VStr "NONE"));
             ("profile", HPrim (VStr "default"));
             ("routineResult", HRef routineResult);
             ("groceryList", HRef groceryList);
             ("pendingItem", HPrim VNull);
             ("privacy", HRef privacy);
             ("tasks", HRef tasks);
             ("customTasks", HRef customTasks);
             ("debugInfo", HRef debugInfo) ])).

(** [state.tasks] *)
Definition tasks_of (h : heap) (state : loc) : option loc :=
  match h !! state with
  | Some (CObj props) =>
      match props !! "tasks" with
      | Some (HRef l) => Some l
      | _ => None
      end
  | _ => None
  end.

(** The JSON value of a heap value, followed to the given depth (what
    [res.json] sends for it). *)
Fixpoint toJSON (depth : nat) (h : heap) (x : hvalue) : value :=
  match x with
  | HPrim v => v
  | HRef l =>
      match depth with
      | 0 => VUndefined
      | S d =>
          match h !! l with
          | Some (CObj props) => VObj (toJSON d h <$> props)
          | Some (CArr elems) => VArr (toJSON d h <$> elems)
          | None => VUndefined
          end
      end
  end.

(** In-place mutations of a task list held in the array at [tasks]:
    - [MutArray f] changes the array itself (assignment to an index or
      to [length], [push], [pop], [splice], [sort], ...): its elements
      become [f] of the old ones;
    - [MutRecord i f] changes the record that element [i] refers to
      ([tasks[i].title = ...], [delete tasks[i].icon], ...). *)
Inductive mutation : Type :=
  | MutArray (f : list hvalue -> list hvalue)
  | MutRecord (i : nat) (f : gmap string hvalue -> gmap string hvalue).

Definition mutate (tasks : loc) (m : mutation) (h : heap) : heap :=
  match h !! tasks with
  | Some (CArr elems) =>
      match m with
      | MutArray f => <[tasks := CArr (f elems)]> h
      | MutRecord i f =>
          match elems !! i with
          | Some (HRef r) =>
              match h !! r with
              | Some (CObj props) => <[r := CObj (f props)]> h
              | _ => h
              end
          | _ => h
          end
      end
  | _ => h
  end.

Definition is_array_mutation (m : mutation) : bool :=
  match m with
  | MutArray _ => true
  | MutRecord _ _ => false
  end.

Definition mutate_all (tasks : loc) (ms : list mutation) (h : heap) : heap :=
  foldl (fun h m => mutate tasks m h) h ms.

(** The task list of a hub state and the catalog, as JSON. *)
Definition tasks_json (h : heap) (tasks : loc) : value := toJSON 2 h (HRef tasks).
Definition catalog_json (h : heap) : value := tasks_json h DEFAULT_TASKS_loc.

End Heap.

(** ** Notions used in the statements *)

(** Every visitor identifier in the mapping is a non-empty string. *)
Definition mapping_truthy (st : Server) : Prop :=
  forall u v, alexaUserToVisitor st !! u = Some v -> truthy v = true.

(** The record that [writeProfile] stores for visitor [v] and name [n]
    when it starts in [st]. *)
Definition writtenProfile (clock : nat -> string) (v n : string) (st : Server) : Profile :=
  match registeredProfiles st !! v with
  | Some p =>
      if truthy (createdAt p)
      then {| name := n; avatar := getAvatarForName n;
              createdAt := createdAt p; lastSeen := clock (clockReads st) |}
      else {| name := n; avatar := getAvatarForName n;
              createdAt := clock (clockReads st);
              lastSeen := clock (S (clockReads st)) |}
  | None => {| name := n; avatar := getAvatarForName n;
               createdAt := clock (clockReads st);
               lastSeen := clock (S (clockReads st)) |}
  end.

(** Every registered profile belongs to a visitor that has a hub state. *)
Definition profiles_have_state (st : Server) : Prop :=
  forall v, is_Some (registeredProfiles st !! v) -> is_Some (hubStateByVisitorId st !! v).

(** The request handled between [st] and [st'] wrote, in the hub states
    and in the profiles, the entries of visitor [v] only. *)
Definition touches_only (v : string) (st st' : Server) : Prop :=
  (forall v', v' <> v -> hubStateByVisitorId st' !! v' = hubStateByVisitorId st !! v')
  /\ (forall v', v' <> v -> registeredProfiles st' !! v' = registeredProfiles st !! v').

(** A clock that advances by one millisecond at each read. *)
Definition sample_clock (k : nat) : string :=
  "2025-01-01T00:00:00." +:+ pretty (100 + k) +:+ "Z".

(** The catalog and its six records are, in [h], as the module created
    them. *)
Definition catalog_intact (h : Heap.heap) : Prop :=
  forall i, i <= Heap.DEFAULT_TASKS_loc -> h !! i = Heap.module_heap !! i.

(** Unfolding the monad operations. *)
Ltac unfold_M :=
  unfold mbind, M_bind, mret, M_ret, gets, modify in *; simpl in *.

Ltac open_M := unfold mbind, M_bind, mret, M_ret, gets, modify; cbv beta iota.

(** ** Further notions

    Definitions used by the properties proved beyond the merge, the
    resolver, the registrar and the reset. *)

(** A measure on values that decreases from a record to its fields. *)
Fixpoint vsize (v : value) : nat :=
  match v with
  | VObj props => S (map_fold (fun _ x acc => vsize x + acc) 0 props)
  | _ => 1
  end.

(** The user identifier a request carries, if it carries one. *)
Definition userId_of (r : Request) : option string :=
  match r with
  | PostHubState req => sr_userId req
  | GetHubState userId => Some userId
  | PostHubProfileRegister userId _ => userId
  | PostHubReset userId => userId
  | GetHubProfiles | GetHubTasks | GetHubUsers | GetHealth => None
  end.

(** Between [st] and [st'] a hub state was stored for visitor [v], the
    profile of [v] was written or no profile was, and nothing else
    changed in the two stores. *)
Definition writes_visitor (v : string) (st st' : Server) : Prop :=
  (exists s, hubStateByVisitorId st' = <[v := s]> (hubStateByVisitorId st))
  /\ (registeredProfiles st' = registeredProfiles st
      \/ exists p, registeredProfiles st' = <[v := p]> (registeredProfiles st)).

(** The four stores are the same in [st] and [st']. *)
Definition same_stores (st st' : Server) : Prop :=
  hubStateByVisitorId st' = hubStateByVisitorId st
  /\ alexaUserToVisitor st' = alexaUserToVisitor st
  /\ visitorCounter st' = visitorCounter st
  /\ registeredProfiles st' = registeredProfiles st.

(** The identifier mapping is well formed: it maps Alexa identifiers
    only, to visitor identifiers numbered between 1 and the counter, no
    two to the same one, and it has as many entries as the counter
    says. *)
Definition mapping_wf (st : Server) : Prop :=
  (forall u v, alexaUserToVisitor st !! u = Some v ->
               startsWith u "amzn1." = true
               /\ exists k, 1 <= k <= visitorCounter st /\ v = alexaVisitorId k)
  /\ (forall u1 u2 v, alexaUserToVisitor st !! u1 = Some v ->
                      alexaUserToVisitor st !! u2 = Some v -> u1 = u2)
  /\ size (alexaUserToVisitor st) = visitorCounter st.

(** No hub state and no profile is stored under a raw Alexa identifier. *)
Definition keys_resolved (st : Server) : Prop :=
  forall v, is_Some (hubStateByVisitorId st !! v) \/ is_Some (registeredProfiles st !! v) ->
            startsWith v "amzn1." = false.

(** From [st] to [st'] nothing was forgotten: the visitors with a hub
    state and those with a profile are still there, the counter and the
    number of clock reads did not decrease, and every entry of the
    mapping that holds a non-empty visitor identifier is still the
    same. *)
Definition never_forgets (st st' : Server) : Prop :=
  dom (hubStateByVisitorId st) ⊆ dom (hubStateByVisitorId st')
  /\ dom (registeredProfiles st) ⊆ dom (registeredProfiles st')
  /\ visitorCounter st <= visitorCounter st'
  /\ clockReads st <= clockReads st'
  /\ (forall u v, alexaUserToVisitor st !! u = Some v -> truthy v = true ->
                  alexaUserToVisitor st' !! u = Some v).

(** From [st] to [st'] every profile with a non-empty creation time is
    still registered, with the same creation time. *)
Definition keeps_createdAt (st st' : Server) : Prop :=
  forall v p, registeredProfiles st !! v = Some p -> truthy (createdAt p) = true ->
              exists p', registeredProfiles st' !! v = Some p'
                         /\ createdAt p' = createdAt p.

(** The entry that GET /hub/profiles builds for one registered profile
    (lines 270-274): [{visitorId, ...profile, state:
    hubStateByVisitorId[visitorId] || null}]. *)
Definition profilesEntry (st : Server) (visitorId : string) (profile : Profile) : value :=
  VObj (list_to_map
          [("visitorId", VStr visitorId);
           ("name", VStr (name profile)); ("avatar", VStr (avatar profile));
           ("createdAt", VStr (createdAt profile)); ("lastSeen", VStr (lastSeen profile));
           ("state", match hubStateByVisitorId st !! visitorId with
                     | Some hubState => VObj hubState
                     | None => VNull
                     end)]).

(** [v[key]] for a record [v]; reading a field of anything else gives
    [undefined] here. *)
Definition getv (v : value) (key : string) : value :=
  match v with
  | VObj o => get o key
  | _ => VUndefined
  end.

(** A heap cell that holds primitives only. *)
Definition holds_no_reference (c : Heap.cell) : Prop :=
  match c with
  | Heap.CObj props => forall key l, props !! key <> Some (Heap.HRef l)
  | Heap.CArr elems => forall l, Heap.HRef l ∉ elems
  end.

(** The property names of the object literal that
    [createDefaultHubState] returns. *)
Definition default_field_names : list string :=
  ["visitorId"; "odisplayName"; "activeTile"; "lastAction"; "profile"; "routineResult";
   "groceryList"; "pendingItem"; "privacy"; "tasks"; "customTasks"; "debugInfo"].

(** A hub state that still has every field of a default state. *)
Definition has_default_fields (s : obj) : Prop :=
  forall key, key ∈ default_field_names -> is_Some (s !! key).

(** Every stored hub state has the fields of a default state. *)
Definition states_have_default_fields (st : Server) : Prop :=
  forall v s, hubStateByVisitorId st !! v = Some s -> has_default_fields s.

(** ** Ordinary requests

    The requests on which the stores as finite maps and the handlers as
    defined above are the objects and the handlers of the source. *)

(** No record in [v] (its fields, their fields, and so on; the merge
    does not enter arrays) has a key [__proto__]. *)
Fixpoint no_proto_key (v : value) : bool :=
  match v with
  | VObj props =>
      bool_decide (props !! "__proto__" = None)
      && map_fold (fun _ x acc => no_proto_key x && acc) true props
  | _ => true
  end.

(** A user identifier that is not the name of a property of
    [Object.prototype]: looking it up in a store finds an own property
    or nothing. *)
Definition ordinary_id (userId : option string) : bool :=
  match userId with
  | Some u => negb (inherited_name u)
  | None => true
  end.

Definition ascii_text (text : option string) : bool :=
  match text with
  | Some t => is_ascii t
  | None => true
  end.

(** - the user identifier is ordinary, and is ASCII text when it is an
      Alexa identifier and the handler cuts it with [substring];
    - no record of a posted state has a key [__proto__];
    - a name that the handler lower-cases is ASCII text. *)
Definition ordinary_request (r : Request) : bool :=
  match r with
  | PostHubState req =>
      ordinary_id (sr_userId req)
      && match sr_userId req with
         | Some u => negb (startsWith u "amzn1.") || is_ascii u
         | None => true
         end
      && no_proto_key (VObj (default ∅ (sr_state req)))
      && ascii_text (sr_displayName req)
  | GetHubState userId => ordinary_id (Some userId)
  | PostHubProfileRegister userId name => ordinary_id userId && ascii_text name
  | PostHubReset userId => ordinary_id userId
  | GetHubProfiles | GetHubTasks | GetHubUsers | GetHealth => true
  end.

(** The server after ordinary requests only. *)
Definition ordinary_requests (rs : list Request) : bool := forallb ordinary_request rs.

(** No hub state and no profile is stored under the name of a property
    of [Object.prototype]. *)
Definition keys_ordinary (st : Server) : Prop :=
  forall v, is_Some (hubStateByVisitorId st !! v) \/ is_Some (registeredProfiles st !! v) ->
            inherited_name v = false.

(** * Properties

    ** JavaScript strings *)

Lemma prefix_app (p s : string) :
  String.prefix p s = true <-> exists r, s = p +:+ r.
Proof.
  revert s. induction p as [|c p IH]; intros s.
  - destruct s; simpl; split; eauto.
  - destruct s as [|d s]; simpl.
    + split; [discriminate | intros [r Hr]; discriminate].
    + destruct (Ascii.ascii_dec c d) as [->|Hne].
      * rewrite IH. split; intros [r Hr]; exists r;
          change (String d p +:+ r) with (String d (p +:+ r)) in *; congruence.
      * split; [discriminate | intros [r Hr]].
        change (String c p +:+ r) with (String c (p +:+ r)) in Hr. congruence.
Qed.

(** [includes] is substring containment. *)
Lemma includes_spec (s k : string) :
  includes s k = true <-> exists l r, s = l +:+ k +:+ r.
Proof.
  induction s as [|c s IH]; cbn [includes].
  - rewrite orb_false_r, prefix_app. split.
    + intros [r Hr]. exists "", r. exact Hr.
    + intros [l [r Hr]]. destruct l; [eauto | discriminate].
  - rewrite orb_true_iff, prefix_app, IH. split.
    + intros [[r Hr] | [l [r Hr]]].
      * exists "", r. exact Hr.
      * exists (String c l), r.
        change (String c l +:+ k +:+ r) with (String c (l +:+ k +:+ r)). congruence.
    + intros [l [r Hr]]. destruct l as [|d l].
      * left. eauto.
      * right. exists l, r.
        change (String d l +:+ k +:+ r) with (String d (l +:+ k +:+ r)) in Hr. congruence.
Qed.

Lemma truthy_ne (s : string) : truthy s = true <-> s <> "".
Proof. destruct s; simpl; split; congruence. Qed.

(** ** Recursive merge *)

Lemma deepMerge_unfold (target src : obj) :
  deepMerge target (VObj src) = map_fold (merge_step target) target src.
Proof. reflexivity. Qed.

(** Loop invariant of [deepMerge]: after the properties in [done] have
    been visited, [result] holds the merge rule's value at every key. *)
Lemma deepMerge_lookup (target src : obj) (k : string) :
  deepMerge target (VObj src) !! k = merge_rule (target !! k) (src !! k).
Proof.
  rewrite deepMerge_unfold. revert k.
  apply (map_fold_weak_ind
           (fun result done => forall k, result !! k = merge_rule (target !! k) (done !! k))).
  - intros k. rewrite lookup_empty. reflexivity.
  - intros i x m res Hfresh IH k. unfold merge_step, get.
    destruct (decide (i = k)) as [->|Hne].
    + rewrite lookup_insert_eq.
      destruct x; simpl; rewrite ?lookup_insert_eq; try reflexivity.
      * rewrite IH, Hfresh. reflexivity.
      * destruct (target !! k) as [[]|]; rewrite lookup_insert_eq; reflexivity.
    + rewrite (lookup_insert_ne m) by exact Hne.
      rewrite <- IH.
      destruct x; simpl; rewrite ?lookup_insert_ne by exact Hne; try reflexivity.
      destruct (target !! i) as [[]|]; rewrite lookup_insert_ne by exact Hne; reflexivity.
Qed.


(** Loop invariant of [Prototype.deepMerge]. *)
Lemma Prototype_deepMerge_lookup (inherited : gmap string string) (target src : obj)
    (k : string) :
  Prototype.deepMerge inherited target (VObj src) !! k =
  if Prototype.sets_prototype target k then None
  else Prototype.merge_rule inherited (target !! k) (Prototype.incoming inherited src k).
Proof.
  cbn [Prototype.deepMerge].
  set (own := map_fold _ target src).
  assert (Hown : forall k, own !! k =
            if Prototype.sets_prototype target k then None
            else Prototype.merge_rule inherited (target !! k) (src !! k)).
  { subst own.
    apply (map_fold_weak_ind
             (fun result done => forall k, result !! k =
                if Prototype.sets_prototype target k then None
                else Prototype.merge_rule inherited (target !! k) (done !! k))).
    - intros j. rewrite lookup_empty. cbn. unfold Prototype.sets_prototype.
      destruct (bool_decide (j = "__proto__")); cbn [andb]; [|reflexivity].
      case_bool_decide as Hn; [by rewrite Hn | reflexivity].
    - intros i x m res Hfresh IH j.
      destruct (decide (i = j)) as [->|Hne].
      + rewrite lookup_insert_eq.
        destruct (Prototype.sets_prototype target j) eqn:Hs.
        * specialize (IH j). rewrite Hs in IH. by destruct (is_undefined x).
        * specialize (IH j). rewrite Hs, Hfresh in IH. unfold get.
          destruct x; cbn; rewrite ?lookup_insert_eq; try done.
          destruct (target !! j) as [[]|]; rewrite lookup_insert_eq; reflexivity.
      + rewrite (lookup_insert_ne m) by exact Hne. rewrite <- IH.
        destruct (is_undefined x); [reflexivity|].
        destruct (Prototype.sets_prototype target i); [reflexivity|]. unfold get.
        destruct x; rewrite ?lookup_insert_ne by exact Hne; try reflexivity.
        destruct (target !! i) as [[]|]; rewrite lookup_insert_ne by exact Hne; reflexivity. }
  clearbody own.
  apply (map_fold_weak_ind
           (fun result done => result !! k =
              if Prototype.sets_prototype target k then None
              else Prototype.merge_rule inherited (target !! k)
                     (Prototype.incoming done src k))).
  - rewrite Hown. unfold Prototype.incoming. rewrite lookup_empty. cbn.
    destruct (Prototype.sets_prototype target k); [reflexivity|].
    destruct (src !! k); [reflexivity|]. by destruct (inherited_name k).
  - intros i s m res Hfresh IH. unfold Prototype.incoming in *.
    destruct (decide (i = k)) as [->|Hne].
    + rewrite lookup_insert_eq, Hfresh in *. cbn [fmap option_fmap option_map] in *.
      destruct (src !! k) as [sv|] eqn:Hsrc.
      * rewrite bool_decide_true by eauto. exact IH.
      * rewrite bool_decide_false by (by intros [? ?]). cbn [orb].
        destruct (inherited_name k) eqn:Hk; [exact IH|].
        rewrite lookup_insert_eq.
        assert (Hp : Prototype.sets_prototype target k = false).
        { unfold Prototype.sets_prototype. case_bool_decide as Hkp; [|reflexivity].
          subst k. discriminate Hk. }
        rewrite Hp. reflexivity.
    + rewrite (lookup_insert_ne m) by exact Hne.
      destruct (bool_decide (is_Some (src !! i)) || inherited_name i); [exact IH|].
      rewrite lookup_insert_ne by exact Hne. exact IH.
Qed.

(** C1.  The merge, with the prototype chain taken into account.  With
    the prototype as it is when the module is loaded, the merge rule
    holds at every key of every pair of records, except at the key
    [__proto__] of an existing record that does not own such a property:
    a key that is absent from the update (or undefined there) keeps the
    existing value; where the existing and the incoming value are both
    plain records the result is their recursive merge; in every other
    case the incoming value replaces the existing one.  Arrays are
    replaced as a whole and nested records are merged (the two examples
    of the spec).  The rule fails in two ways.  A key [__proto__] of the
    update never reaches a record that does not own one: the assignment
    sets the prototype of the result instead.  And the loop copies the
    enumerable properties that the update inherits, so that a key absent
    from the update is overwritten once [Object.prototype] carries a
    property of that name. *)
Theorem deepMerge_follows_merge_rule :
  (forall (target src : obj) (key : string),
      key <> "__proto__" \/ is_Some (target !! key) ->
      (src !! key = None \/ src !! key = Some VUndefined ->
       Prototype.deepMerge ∅ target (VObj src) !! key = target !! key)
      /\ (forall s t : obj,
            src !! key = Some (VObj s) -> target !! key = Some (VObj t) ->
            Prototype.deepMerge ∅ target (VObj src) !! key
            = Some (VObj (Prototype.deepMerge ∅ t (VObj s))))
      /\ (forall sv : value,
            src !! key = Some sv -> is_undefined sv = false ->
            is_plain_object sv && is_plain_object (get target key) = false ->
            Prototype.deepMerge ∅ target (VObj src) !! key = Some sv))
  /\ Prototype.deepMerge ∅ Examples.ab_old Examples.ab_new = Examples.ab_out
  /\ Prototype.deepMerge ∅ Examples.privacy_old Examples.privacy_new = Examples.privacy_out
  /\ (forall (inherited : gmap string string) (target src : obj),
        target !! "__proto__" = None ->
        Prototype.deepMerge inherited target (VObj src) !! "__proto__" = None)
  /\ (forall (inherited : gmap string string) (target src : obj) (key s : string),
        inherited_name key = false -> src !! key = None -> inherited !! key = Some s ->
        Prototype.deepMerge inherited target (VObj src) !! key = Some (VStr s)).
Proof.
  split; [|split; [reflexivity | split; [reflexivity | split]]].
  - intros target src key Hkey. rewrite Prototype_deepMerge_lookup.
    assert (Hp : Prototype.sets_prototype target key = false).
    { unfold Prototype.sets_prototype. destruct Hkey as [Hne | [x Hx]].
      - by rewrite bool_decide_false.
      - rewrite Hx. rewrite (bool_decide_false (Some x = None)) by discriminate.
        apply andb_false_r. }
    rewrite Hp. unfold Prototype.incoming. repeat split.
    + intros [-> | ->]; [|reflexivity].
      rewrite lookup_empty. by destruct (inherited_name key).
    + intros s t -> ->. reflexivity.
    + intros sv -> Hdef Hrec. unfold get in Hrec.
      destruct sv; simpl in *; try reflexivity; try discriminate.
      destruct (target !! key) as [[]|]; simpl in *; try reflexivity; discriminate.
  - intros inherited target src Hnone. rewrite Prototype_deepMerge_lookup.
    unfold Prototype.sets_prototype. rewrite Hnone.
    by rewrite !bool_decide_true.
  - intros inherited target src key s Hk Hsrc Hinh. rewrite Prototype_deepMerge_lookup.
    assert (Hp : Prototype.sets_prototype target key = false).
    { unfold Prototype.sets_prototype. case_bool_decide as Hkp; [|reflexivity].
      subst key. discriminate Hk. }
    rewrite Hp. unfold Prototype.incoming. rewrite Hsrc, Hk, Hinh. reflexivity.
Qed.

Lemma deepMerge_follows_merge_rule_witness :
  let mic_off : obj := list_to_map [("microphoneEnabled", VBool false)] in
  let all_on : obj :=
    list_to_map [("microphoneEnabled", VBool true); ("allowVoiceHistory", VBool true)] in
  let src : obj := list_to_map [("privacy", VObj mic_off)] in
  let existing : obj := list_to_map [("activeTile", VStr "home")] in
  let update : obj := list_to_map [("__proto__", VObj (list_to_map [("x", VNum 1)]))] in
  ("privacy" <> "__proto__" \/ is_Some (Examples.privacy_old !! "privacy"))
  /\ src !! "privacy" = Some (VObj mic_off)
  /\ Examples.privacy_old !! "privacy" = Some (VObj all_on)
  /\ Prototype.deepMerge ∅ Examples.privacy_old (VObj src) !! "privacy"
     = Some (VObj (Prototype.deepMerge ∅ all_on (VObj mic_off)))
  /\ existing !! "__proto__" = None
  /\ Prototype.deepMerge ∅ existing (VObj update) !! "__proto__" = None.
Proof.
  intros mic_off all_on src existing update.
  assert (Hkey : "privacy" <> "__proto__" \/ is_Some (Examples.privacy_old !! "privacy"))
    by (left; discriminate).
  split; [exact Hkey|].
  split; [reflexivity | split; [reflexivity | split]].
  - apply (proj1 (proj2 (proj1 deepMerge_follows_merge_rule Examples.privacy_old src
                            "privacy" Hkey))); reflexivity.
  - split; [reflexivity|].
    apply (proj1 (proj2 (proj2 (proj2 deepMerge_follows_merge_rule))) ∅ existing update).
    reflexivity.
Defined.

(** ** Identifier resolution *)

Lemma alexaVisitorId_truthy (n : nat) : truthy (alexaVisitorId n) = true.
Proof. reflexivity. Qed.

Lemma alexaVisitorId_inj : Inj (=) (=) alexaVisitorId.
Proof.
  intros m n Heq. unfold alexaVisitorId in Heq.
  apply String.app_inj in Heq. by apply (inj pretty) in Heq.
Qed.

Lemma getVisitorId_web (u : string) (st : Server) :
  startsWith u "amzn1." = false -> getVisitorId u st = (u, st).
Proof. intros H. unfold getVisitorId. rewrite H. reflexivity. Qed.

Lemma getVisitorId_known (u v : string) (st : Server) :
  startsWith u "amzn1." = true ->
  alexaUserToVisitor st !! u = Some v -> truthy v = true ->
  getVisitorId u st = (v, st).
Proof.
  intros Hp Hu Hv. unfold getVisitorId. rewrite Hp. unfold_M.
  rewrite Hu, Hv. reflexivity.
Qed.

Lemma getVisitorId_fresh (u : string) (st : Server) :
  startsWith u "amzn1." = true ->
  alexaUserToVisitor st !! u = None ->
  getVisitorId u st =
  (alexaVisitorId (S (visitorCounter st)),
   with_mapping (<[u := alexaVisitorId (S (visitorCounter st))]> (alexaUserToVisitor st))
     (S (visitorCounter st)) st).
Proof.
  intros Hp Hu. unfold getVisitorId. rewrite Hp. unfold_M.
  rewrite Hu. reflexivity.
Qed.

Lemma allocateVisitorId_eq (u : string) (st : Server) :
  allocateVisitorId u st =
  (alexaVisitorId (S (visitorCounter st)),
   with_mapping (<[u := alexaVisitorId (S (visitorCounter st))]> (alexaUserToVisitor st))
     (S (visitorCounter st)) st).
Proof. reflexivity. Qed.

(** What one resolution does to the stores. *)
Lemma getVisitorId_post (u v : string) (st st' : Server) :
  getVisitorId u st = (v, st') ->
  hubStateByVisitorId st' = hubStateByVisitorId st
  /\ registeredProfiles st' = registeredProfiles st
  /\ clockReads st' = clockReads st
  /\ (forall u' v', alexaUserToVisitor st !! u' = Some v' -> truthy v' = true ->
                    alexaUserToVisitor st' !! u' = Some v')
  /\ (startsWith u "amzn1." = true ->
      alexaUserToVisitor st' !! u = Some v /\ truthy v = true)
  /\ (startsWith u "amzn1." = false -> v = u /\ st' = st).
Proof.
  assert (Hins : forall u' v', alexaUserToVisitor st !! u' = Some v' -> truthy v' = true ->
            (alexaUserToVisitor st !! u = None \/
             exists w, alexaUserToVisitor st !! u = Some w /\ truthy w = false) ->
            <[u := alexaVisitorId (S (visitorCounter st))]> (alexaUserToVisitor st) !! u'
            = Some v').
  { intros u' v' Hu' Hv' Hold. destruct (decide (u = u')) as [<-|Hne].
    - destruct Hold as [Hn | (w & Hw & Hf)]; congruence.
    - by rewrite lookup_insert_ne. }
  unfold getVisitorId.
  destruct (startsWith u "amzn1.") eqn:Hp; simpl.
  - unfold_M.
    destruct (alexaUserToVisitor st !! u) as [w|] eqn:Hu;
      [destruct (truthy w) eqn:Hw|]; rewrite ?allocateVisitorId_eq.
    + intros [= <- <-]. repeat split; auto. discriminate.
    + intros [= <- <-]. simpl. repeat split; try discriminate.
      * intros u' v' Hu' Hv'. apply Hins; eauto.
      * by rewrite lookup_insert_eq.
    + intros [= <- <-]. simpl. repeat split; try discriminate.
      * intros u' v' Hu' Hv'. apply Hins; eauto.
      * by rewrite lookup_insert_eq.
  - intros [= <- <-]. repeat split; auto; discriminate.
Qed.

(** Resolving again, in the stores the first resolution left, gives the
    same identifier and changes nothing. *)
Lemma getVisitorId_again (u v : string) (st st' : Server) :
  getVisitorId u st = (v, st') -> getVisitorId u st' = (v, st').
Proof.
  intros H. destruct (getVisitorId_post _ _ _ _ H) as (_ & _ & _ & _ & Hp & Hw).
  destruct (startsWith u "amzn1.") eqn:E.
  - destruct (Hp eq_refl) as [Hu Hv]. by apply getVisitorId_known.
  - destruct (Hw eq_refl) as [-> ->]. by apply getVisitorId_web.
Qed.

Lemma resolveAll_cons (u : string) (us : list string) (st : Server) :
  resolveAll (u :: us) st =
  (fst (getVisitorId u st) :: fst (resolveAll us (snd (getVisitorId u st))),
   snd (resolveAll us (snd (getVisitorId u st)))).
Proof.
  simpl. unfold_M. destruct (getVisitorId u st) as [v st1]. simpl.
  destruct (resolveAll us st1) as [vs st2]. reflexivity.
Qed.

Lemma resolveAll_app (us more : list string) (st : Server) :
  snd (resolveAll (us ++ more) st) = snd (resolveAll more (snd (resolveAll us st))).
Proof.
  revert st. induction us as [|u us IH]; intros st; [reflexivity|].
  rewrite <- app_comm_cons, !resolveAll_cons. simpl. apply IH.
Qed.

(** A truthy entry of the mapping survives any further resolutions. *)
Lemma resolveAll_keeps (us : list string) (st : Server) (u v : string) :
  alexaUserToVisitor st !! u = Some v -> truthy v = true ->
  alexaUserToVisitor (snd (resolveAll us st)) !! u = Some v.
Proof.
  revert st. induction us as [|u0 us IH]; intros st Hu Hv; [exact Hu|].
  rewrite resolveAll_cons. simpl. apply IH; [|exact Hv].
  destruct (getVisitorId u0 st) as [v0 st1] eqn:E.
  destruct (getVisitorId_post _ _ _ _ E) as (_ & _ & _ & Hkeep & _). simpl. auto.
Qed.

Lemma getVisitorId_mapping_truthy (u : string) (st : Server) :
  mapping_truthy st -> mapping_truthy (snd (getVisitorId u st)).
Proof.
  intros Hst. destruct (startsWith u "amzn1.") eqn:Hp.
  - destruct (alexaUserToVisitor st !! u) as [w|] eqn:Hu.
    + rewrite (getVisitorId_known u w st Hp Hu (Hst _ _ Hu)). exact Hst.
    + rewrite (getVisitorId_fresh u st Hp Hu). intros u' v'. simpl.
      destruct (decide (u = u')) as [<-|Hne].
      * rewrite lookup_insert_eq. by intros [= <-].
      * rewrite lookup_insert_ne by done. apply Hst.
  - by rewrite getVisitorId_web.
Qed.

Lemma resolveAll_mapping_truthy (us : list string) (st : Server) :
  mapping_truthy st -> mapping_truthy (snd (resolveAll us st)).
Proof.
  revert st. induction us as [|u us IH]; intros st Hst; [exact Hst|].
  rewrite resolveAll_cons. simpl. by apply IH, getVisitorId_mapping_truthy.
Qed.

Lemma initial_mapping_truthy : mapping_truthy initial.
Proof. intros u v. simpl. by rewrite lookup_empty. Qed.

(** Identifiers that are not mapped yet are numbered from the counter
    on, in the order in which they arrive. *)
Lemma resolveAll_fresh (us : list string) (st : Server) :
  NoDup us ->
  Forall (fun u => startsWith u "amzn1." = true) us ->
  Forall (fun u => alexaUserToVisitor st !! u = None) us ->
  fst (resolveAll us st) = alexaVisitorId <$> seq (S (visitorCounter st)) (length us).
Proof.
  revert st. induction us as [|u us IH]; intros st Hnd Hp Hnew; [reflexivity|].
  apply NoDup_cons in Hnd as [Hu Hnd].
  apply Forall_cons in Hp as [Hpu Hp]. apply Forall_cons in Hnew as [Hnu Hnew].
  rewrite resolveAll_cons, (getVisitorId_fresh u st Hpu Hnu). simpl. f_equal.
  rewrite IH; [reflexivity | done | done |].
  simpl. rewrite Forall_forall in Hnew |- *. intros u' Hin.
  rewrite lookup_insert_ne; [by apply Hnew | by intros ->].
Qed.

(** C5.  Identifier resolution: an identifier without the [amzn1.]
    prefix is returned as it is and changes no store; resolving the same
    identifier again, whatever was resolved in between, returns the same
    visitor identifier; N distinct prefixed identifiers that are not
    mapped yet receive N distinct identifiers numbered consecutively from
    the counter (from 1 when the stores are new), in the order in which
    they are first seen; and an entry of the mapping, once made, is never
    changed by later resolutions. *)
Theorem getVisitorId_resolution :
  (forall (u : string) (st : Server),
      startsWith u "amzn1." = false -> getVisitorId u st = (u, st))
  /\ (forall (u : string) (between : list string) (st : Server),
        let st1 := snd (getVisitorId u st) in
        let st2 := snd (resolveAll between st1) in
        getVisitorId u st2 = (fst (getVisitorId u st), st2))
  /\ (forall (us : list string) (st : Server),
        NoDup us ->
        Forall (fun u => startsWith u "amzn1." = true) us ->
        Forall (fun u => alexaUserToVisitor st !! u = None) us ->
        fst (resolveAll us st) = alexaVisitorId <$> seq (S (visitorCounter st)) (length us)
        /\ NoDup (fst (resolveAll us st)))
  /\ (forall us : list string,
        NoDup us ->
        Forall (fun u => startsWith u "amzn1." = true) us ->
        fst (resolveAll us initial) = alexaVisitorId <$> seq 1 (length us))
  /\ (forall (us more : list string) (u v : string),
        alexaUserToVisitor (snd (resolveAll us initial)) !! u = Some v ->
        alexaUserToVisitor (snd (resolveAll (us ++ more) initial)) !! u = Some v).
Proof.
  split; [exact getVisitorId_web|].
  split.
  { intros u between st st1 st2. subst st1 st2.
    destruct (getVisitorId u st) as [v st1] eqn:E. simpl.
    destruct (getVisitorId_post _ _ _ _ E) as (_ & _ & _ & _ & Hp & Hw).
    destruct (startsWith u "amzn1.") eqn:Hpre.
    - destruct (Hp eq_refl) as [Hu Hv].
      apply getVisitorId_known; [done | by apply resolveAll_keeps | done].
    - destruct (Hw eq_refl) as [-> _]. by apply getVisitorId_web. }
  split.
  { intros us st Hnd Hp Hnew. rewrite resolveAll_fresh by done. split; [done|].
    apply (NoDup_fmap_2 _ (Inj0 := alexaVisitorId_inj)), NoDup_seq. }
  split.
  { intros us Hnd Hp. apply (resolveAll_fresh us initial); [done..|].
    apply Forall_forall. intros u _. apply lookup_empty. }
  intros us more u v Hu. rewrite resolveAll_app.
  apply resolveAll_keeps; [done|].
  by apply (resolveAll_mapping_truthy us initial initial_mapping_truthy u v).
Qed.

Lemma getVisitorId_resolution_witness :
  NoDup ["amzn1.ask.account.A"; "amzn1.ask.account.B"]
  /\ Forall (fun u => startsWith u "amzn1." = true)
       ["amzn1.ask.account.A"; "amzn1.ask.account.B"]
  /\ fst (resolveAll ["amzn1.ask.account.A"; "amzn1.ask.account.B"] initial)
     = ["alexa-user-1"; "alexa-user-2"].
Proof.
  assert (Hnd : NoDup ["amzn1.ask.account.A"; "amzn1.ask.account.B"])
    by (apply (bool_decide_unpack _); vm_compute; exact I).
  assert (Hp : Forall (fun u => startsWith u "amzn1." = true)
                 ["amzn1.ask.account.A"; "amzn1.ask.account.B"])
    by (repeat constructor).
  split; [exact Hnd | split; [exact Hp |]].
  exact (proj1 (proj2 (proj2 (proj2 getVisitorId_resolution))) _ Hnd Hp).
Defined.

(** ** Effects of the store operations *)

Section StoreEffects.

Variable clock : nat -> string.

Lemma newDateISO_eq (st : Server) :
  newDateISO clock st =
  (clock (clockReads st),
   {| hubStateByVisitorId := hubStateByVisitorId st;
      alexaUserToVisitor := alexaUserToVisitor st;
      visitorCounter := visitorCounter st;
      registeredProfiles := registeredProfiles st;
      clockReads := S (clockReads st) |}).
Proof. reflexivity. Qed.

Lemma createDefaultHubState_eq (v : string) (st : Server) :
  createDefaultHubState clock v st =
  (defaultHubState v (clock (clockReads st)), snd (newDateISO clock st)).
Proof. reflexivity. Qed.

Lemma getOrCreateHubState_post (v : string) (st st' : Server) (s : obj) :
  getOrCreateHubState clock v st = (s, st') ->
  hubStateByVisitorId st' = <[v := s]> (hubStateByVisitorId st)
  /\ alexaUserToVisitor st' = alexaUserToVisitor st
  /\ visitorCounter st' = visitorCounter st
  /\ registeredProfiles st' = registeredProfiles st
  /\ match hubStateByVisitorId st !! v with
     | Some s0 => s = s0 /\ st' = st
     | None => s = defaultHubState v (clock (clockReads st))
               /\ clockReads st' = S (clockReads st)
     end.
Proof.
  unfold getOrCreateHubState, createDefaultHubState, storeHubState, newDateISO. open_M.
  destruct (hubStateByVisitorId st !! v) as [s0|] eqn:E; intros [= <- <-]; simpl.
  - rewrite insert_id by done. done.
  - done.
Qed.

Lemma writeProfile_post (v n : string) (st st' : Server) (u : unit) :
  writeProfile clock v n st = (u, st') ->
  hubStateByVisitorId st' = hubStateByVisitorId st
  /\ alexaUserToVisitor st' = alexaUserToVisitor st
  /\ visitorCounter st' = visitorCounter st
  /\ registeredProfiles st' = <[v := writtenProfile clock v n st]> (registeredProfiles st)
  /\ clockReads st < clockReads st'.
Proof.
  unfold writeProfile, writtenProfile, newDateISO. open_M.
  destruct (registeredProfiles st !! v) as [p|]; [destruct (truthy (createdAt p))|];
    intros [= <- <-]; simpl; repeat split; lia.
Qed.

Lemma applyDisplayName_post (v : string) (d : option string) (s s' : obj) (st st' : Server) :
  applyDisplayName clock v d s st = (s', st') ->
  hubStateByVisitorId st' = hubStateByVisitorId st
  /\ alexaUserToVisitor st' = alexaUserToVisitor st
  /\ visitorCounter st' = visitorCounter st
  /\ match d with
     | Some n =>
         if truthy n
         then s' = <["displayName" := VStr n]> s
              /\ registeredProfiles st' = <[v := writtenProfile clock v n st]> (registeredProfiles st)
         else s' = s /\ st' = st
     | None => s' = s /\ st' = st
     end.
Proof.
  unfold applyDisplayName. destruct d as [n|]; [destruct (truthy n)|].
  - open_M. destruct (writeProfile clock v n st) as [u st1] eqn:E.
    intros [= <- <-]. destruct (writeProfile_post _ _ _ _ _ E) as (? & ? & ? & ? & ?).
    done.
  - intros [= <- <-]. done.
  - intros [= <- <-]. done.
Qed.

Lemma touchLastSeen_post (v : string) (st st' : Server) (u : unit) :
  touchLastSeen clock v st = (u, st') ->
  hubStateByVisitorId st' = hubStateByVisitorId st
  /\ alexaUserToVisitor st' = alexaUserToVisitor st
  /\ visitorCounter st' = visitorCounter st
  /\ match registeredProfiles st !! v with
     | Some p =>
         registeredProfiles st' =
         <[v := {| name := name p; avatar := avatar p; createdAt := createdAt p;
                   lastSeen := clock (clockReads st) |}]> (registeredProfiles st)
         /\ clockReads st' = S (clockReads st)
     | None => st' = st
     end.
Proof.
  unfold touchLastSeen, newDateISO. open_M.
  destruct (registeredProfiles st !! v) as [p|]; intros [= <- <-]; done.
Qed.

End StoreEffects.

(** ** Effects of the handlers on the stores *)

Section HandlerEffects.

Variable clock : nat -> string.

Lemma touches_only_insert (v : string) (st st' : Server) (s : obj) :
  hubStateByVisitorId st' = <[v := s]> (hubStateByVisitorId st) ->
  (registeredProfiles st' = registeredProfiles st
   \/ exists p, registeredProfiles st' = <[v := p]> (registeredProfiles st)) ->
  touches_only v st st' /\ hubStateByVisitorId st' !! v = Some s.
Proof.
  intros Hh Hp. split; [split|].
  - intros v' Hne. rewrite Hh. by rewrite lookup_insert_ne.
  - intros v' Hne. destruct Hp as [-> | [p ->]]; [done|]. by rewrite lookup_insert_ne.
  - rewrite Hh. apply lookup_insert_eq.
Qed.

Lemma post_hub_state_effect (req : StateRequest) (st : Server) :
  let st' := snd (post_hub_state clock req st) in
  st' = st
  \/ exists v, touches_only v st st' /\ is_Some (hubStateByVisitorId st' !! v).
Proof.
  unfold post_hub_state.
  destruct (sr_userId req) as [userId|]; [|by left].
  destruct (truthy userId); [|by left]. cbn [negb]. right.
  open_M.
  destruct (getVisitorId userId st) as [v st1] eqn:E1.
  destruct (getOrCreateHubState clock v st1) as [s st2] eqn:E2.
  destruct (applyDisplayName clock v (sr_displayName req) _ st2) as [named st3] eqn:E3.
  rewrite newDateISO_eq. unfold storeHubState. open_M.
  match goal with |- context [touchLastSeen clock v ?x] =>
    destruct (touchLastSeen clock v x) as [u st5] eqn:E5 end.
  exists v. cbn [fst snd].
  destruct (getVisitorId_post _ _ _ _ E1) as (H1h & H1p & _).
  destruct (getOrCreateHubState_post _ _ _ _ _ E2) as (H2h & _ & _ & H2p & _).
  destruct (applyDisplayName_post _ _ _ _ _ _ _ E3) as (H3h & _ & _ & H3p).
  destruct (touchLastSeen_post _ _ _ _ _ E5) as (H5h & _ & _ & H5p).
  cbn in H5h, H5p.
  assert (Hp3 : registeredProfiles st3 = registeredProfiles st
                \/ exists p, registeredProfiles st3 = <[v := p]> (registeredProfiles st)).
  { destruct (sr_displayName req) as [n|]; [destruct (truthy n)|].
    - right. destruct H3p as [_ ->]. rewrite H2p, H1p. eauto.
    - left. destruct H3p as [_ ->]. congruence.
    - left. destruct H3p as [_ ->]. congruence. }
  edestruct (touches_only_insert v st st5) as [Ht Hs]; [| |split; [exact Ht | eauto]].
  - rewrite H5h, H3h, H2h, H1h. apply insert_insert_eq.
  - destruct (registeredProfiles st3 !! v) as [p|].
    + destruct H5p as [-> _]. right.
      destruct Hp3 as [-> | [p' ->]]; [eauto|]. rewrite insert_insert_eq. eauto.
    + subst st5. exact Hp3.
Qed.

(** What POST /hub/state stores for the visitor: the existing (or
    default) state merged with the update, with the display name when
    one is given, then stamped. *)
Lemma post_hub_state_stored (req : StateRequest) (userId v : string) (st st1 : Server) :
  sr_userId req = Some userId -> truthy userId = true ->
  getVisitorId userId st = (v, st1) ->
  let existing :=
    match hubStateByVisitorId st !! v with
    | Some s => s
    | None => defaultHubState v (clock (clockReads st))
    end in
  let merged := deepMerge existing (VObj (default ∅ (sr_state req))) in
  let named :=
    match sr_displayName req with
    | Some d => if truthy d then <["displayName" := VStr d]> merged else merged
    | None => merged
    end in
  exists t, hubStateByVisitorId (snd (post_hub_state clock req st)) !! v
            = Some (stampDebugInfo userId t named).
Proof.
  intros Hreq Hu E1 existing merged named. unfold post_hub_state. rewrite Hreq, Hu.
  cbn [negb]. open_M. rewrite E1.
  destruct (getOrCreateHubState clock v st1) as [s st2] eqn:E2.
  destruct (applyDisplayName clock v (sr_displayName req) _ st2) as [named' st3] eqn:E3.
  rewrite newDateISO_eq. unfold storeHubState. open_M.
  match goal with |- context [touchLastSeen clock v ?x] =>
    destruct (touchLastSeen clock v x) as [u st5] eqn:E5 end.
  cbn [fst snd].
  destruct (getVisitorId_post _ _ _ _ E1) as (H1h & _ & H1c & _).
  destruct (getOrCreateHubState_post _ _ _ _ _ E2) as (_ & _ & _ & _ & H2s).
  destruct (applyDisplayName_post _ _ _ _ _ _ _ E3) as (_ & _ & _ & H3p).
  destruct (touchLastSeen_post _ _ _ _ _ E5) as (H5h & _).
  cbn in H5h.
  assert (Hs : s = existing).
  { subst existing. rewrite H1h, H1c in H2s.
    destruct (hubStateByVisitorId st !! v); by destruct H2s as [-> _]. }
  assert (Hn : named' = named).
  { subst named merged. rewrite <- Hs.
    destruct (sr_displayName req) as [d|]; [destruct (truthy d)|]; by destruct H3p as [-> _]. }
  eexists. rewrite H5h, Hn. apply lookup_insert_eq.
Qed.

Lemma stampDebugInfo_lookup_ne (userId t key : string) (s : obj) :
  key <> "debugInfo" -> stampDebugInfo userId t s !! key = s !! key.
Proof. intros Hne. unfold stampDebugInfo. by rewrite lookup_insert_ne. Qed.

Lemma get_hub_state_effect (userId : string) (st : Server) :
  let st' := snd (get_hub_state clock userId st) in
  st' = st
  \/ exists v, touches_only v st st' /\ is_Some (hubStateByVisitorId st' !! v).
Proof.
  unfold get_hub_state. destruct (truthy userId); [|by left]. cbn [negb]. right.
  open_M.
  destruct (getVisitorId userId st) as [v st1] eqn:E1.
  destruct (getOrCreateHubState clock v st1) as [s st2] eqn:E2.
  exists v. cbn [fst snd].
  destruct (getVisitorId_post _ _ _ _ E1) as (H1h & H1p & _).
  destruct (getOrCreateHubState_post _ _ _ _ _ E2) as (H2h & _ & _ & H2p & _).
  edestruct (touches_only_insert v st st2) as [Ht Hs]; [| |split; [exact Ht | eauto]].
  - rewrite H2h, H1h. reflexivity.
  - left. congruence.
Qed.

Lemma post_hub_profile_register_effect (userId name : option string) (st : Server) :
  let st' := snd (post_hub_profile_register clock userId name st) in
  st' = st
  \/ exists v, touches_only v st st' /\ is_Some (hubStateByVisitorId st' !! v).
Proof.
  unfold post_hub_profile_register.
  destruct userId as [userId|]; [|by left]. destruct name as [n|]; [|by left].
  destruct (truthy userId); [|by left]. destruct (truthy n); [|by left].
  cbn [negb orb]. right.
  open_M.
  destruct (getVisitorId userId st) as [v st1] eqn:E1.
  destruct (writeProfile clock v n st1) as [u st2] eqn:E2.
  destruct (getOrCreateHubState clock v st2) as [s st3] eqn:E3.
  unfold storeHubState. open_M.
  exists v. cbn [fst snd].
  destruct (getVisitorId_post _ _ _ _ E1) as (H1h & H1p & _).
  destruct (writeProfile_post _ _ _ _ _ _ E2) as (H2h & _ & _ & H2p & _).
  destruct (getOrCreateHubState_post _ _ _ _ _ E3) as (H3h & _ & _ & H3p & _).
  edestruct (touches_only_insert v st) as [Ht Hs]; [| |split; [exact Ht | eauto]].
  - cbn [hubStateByVisitorId with_hubStates]. rewrite H3h, H2h, H1h.
    apply insert_insert_eq.
  - right. cbn [registeredProfiles with_profiles with_hubStates].
    rewrite H3p, H2p, H1p. eauto.
Qed.

Lemma post_hub_reset_effect (userId : option string) (st : Server) :
  let st' := snd (post_hub_reset clock userId st) in
  st' = st
  \/ exists v, touches_only v st st' /\ is_Some (hubStateByVisitorId st' !! v).
Proof.
  unfold post_hub_reset.
  destruct userId as [userId|]; [|by left].
  destruct (truthy userId); [|by left]. cbn [negb]. right.
  open_M.
  destruct (getVisitorId userId st) as [v st1] eqn:E1.
  rewrite createDefaultHubState_eq, newDateISO_eq. unfold storeHubState. open_M.
  exists v. cbn [fst snd].
  destruct (getVisitorId_post _ _ _ _ E1) as (H1h & H1p & _).
  edestruct (touches_only_insert v st) as [Ht Hs]; [| |split; [exact Ht | eauto]].
  - cbn [hubStateByVisitorId with_hubStates]. rewrite H1h. reflexivity.
  - left. cbn. exact H1p.
Qed.

Lemma touches_only_preserves (v : string) (st st' : Server) :
  touches_only v st st' -> is_Some (hubStateByVisitorId st' !! v) ->
  profiles_have_state st -> profiles_have_state st'.
Proof.
  intros [Hh Hp] Hv Hinv v' Hv'. destruct (decide (v' = v)) as [->|Hne]; [done|].
  rewrite Hh by done. apply Hinv. by rewrite <- Hp.
Qed.

Lemma step_preserves (r : Request) (st : Server) :
  profiles_have_state st -> profiles_have_state (step clock r st).
Proof.
  intros Hinv. destruct r as [req|userId| |userId n| |userId| |]; cbn [step];
    try exact Hinv.
  - destruct (post_hub_state_effect req st) as [-> | (v & Ht & Hv)];
      eauto using touches_only_preserves.
  - destruct (get_hub_state_effect userId st) as [-> | (v & Ht & Hv)];
      eauto using touches_only_preserves.
  - destruct (post_hub_profile_register_effect userId n st) as [-> | (v & Ht & Hv)];
      eauto using touches_only_preserves.
  - destruct (post_hub_reset_effect userId st) as [-> | (v & Ht & Hv)];
      eauto using touches_only_preserves.
Qed.

Lemma run_preserves (rs : list Request) (st : Server) :
  profiles_have_state st -> profiles_have_state (run clock rs st).
Proof.
  revert st. induction rs as [|r rs IH]; intros st Hinv; [exact Hinv|].
  cbn [run foldl]. apply IH, step_preserves, Hinv.
Qed.

End HandlerEffects.

(** C8.  POST /hub/state without a [userId] (the field is missing or is
    the empty string) answers 400 with [{ok: false, error: ...}] and
    leaves the server exactly as it was: no hub state, no mapping entry
    and no profile is created or changed. *)
Theorem post_hub_state_without_userId :
  forall (clock : nat -> string) (st : Server)
         (state : option obj) (displayName : option string),
    let bad_request :=
      {| status := 400;
         body := VObj (<["ok" := VBool false]>
                         (<["error" := VStr "userId is required"]> ∅)) |} in
    post_hub_state clock
      {| sr_userId := None; sr_state := state; sr_displayName := displayName |} st
    = (bad_request, st)
    /\ post_hub_state clock
         {| sr_userId := Some ""; sr_state := state; sr_displayName := displayName |} st
       = (bad_request, st).
Proof. intros clock st state displayName. split; reflexivity. Qed.

(** C9.  In every state the server reaches from its initial stores by a
    sequence of ordinary requests, a visitor with a registered profile
    also has a hub state, which is a record.  The converse is not
    required: after a first GET /hub/state/web-1 the visitor [web-1] has
    a hub state and no profile.  Requests that are not ordinary are left
    out: a registration under the identifier [constructor] stores a
    profile and, as hub state, the function that the store inherits
    under that name. *)
Theorem registered_profile_implies_hub_state :
  forall (clock : nat -> string) (rs : list Request) (v : string),
    ordinary_requests rs = true ->
    is_Some (registeredProfiles (run clock rs initial) !! v) ->
    is_Some (hubStateByVisitorId (run clock rs initial) !! v).
Proof.
  intros clock rs v _. revert v. apply run_preserves.
  intros v. simpl. rewrite lookup_empty. by intros [? ?].
Qed.

Lemma registered_profile_implies_hub_state_witness :
  let rs := [PostHubProfileRegister (Some "web-1") (Some "Mom"); PostHubReset (Some "web-1")] in
  ordinary_requests rs = true
  /\ is_Some (registeredProfiles (run sample_clock rs initial) !! "web-1")
  /\ is_Some (hubStateByVisitorId (run sample_clock rs initial) !! "web-1").
Proof.
  intros rs.
  assert (Hrs : ordinary_requests rs = true) by (vm_compute; reflexivity).
  assert (H : is_Some (registeredProfiles (run sample_clock rs initial) !! "web-1"))
    by (apply (bool_decide_unpack _); vm_compute; exact I).
  split; [exact Hrs | split; [exact H|]].
  exact (registered_profile_implies_hub_state sample_clock rs "web-1" Hrs H).
Defined.

Example state_without_profile :
  let st := run sample_clock [GetHubState "web-1"] initial in
  is_Some (hubStateByVisitorId st !! "web-1") /\ registeredProfiles st !! "web-1" = None.
Proof.
  intros st. split.
  - apply (bool_decide_unpack _). vm_compute. exact I.
  - vm_compute. reflexivity.
Qed.

(** ** Profile registration *)



Lemma getVisitorId_stable (u v : string) (st st1 st' : Server) :
  getVisitorId u st = (v, st1) ->
  alexaUserToVisitor st' = alexaUserToVisitor st1 ->
  getVisitorId u st' = (v, st').
Proof.
  intros H Heq. destruct (getVisitorId_post _ _ _ _ H) as (_ & _ & _ & _ & Hp & Hw).
  destruct (startsWith u "amzn1.") eqn:E.
  - destruct (Hp eq_refl) as [Hu Hv]. apply getVisitorId_known; [done | congruence | done].
  - destruct (Hw eq_refl) as [-> _]. by apply getVisitorId_web.
Qed.

Section Registration.

Variable clock : nat -> string.

Lemma writeProfile_clock (v n : string) (st : Server) :
  exists k, lastSeen (writtenProfile clock v n st) = clock k
            /\ clockReads st <= k
            /\ clockReads (snd (writeProfile clock v n st)) = S k.
Proof.
  unfold writeProfile, writtenProfile, newDateISO. open_M.
  destruct (registeredProfiles st !! v) as [p|]; [destruct (truthy (createdAt p))|];
    cbn; eexists; (split; [reflexivity|]); split; (lia || reflexivity).
Qed.

Lemma writtenProfile_ext (v n : string) (st st' : Server) :
  registeredProfiles st' = registeredProfiles st -> clockReads st' = clockReads st ->
  writtenProfile clock v n st' = writtenProfile clock v n st.
Proof. intros Hp Hc. unfold writtenProfile. rewrite Hp, Hc. reflexivity. Qed.

(** The stores after a registration that passes validation. *)
Lemma post_hub_profile_register_post (userId n v : string) (st st1 : Server) :
  truthy userId = true -> truthy n = true ->
  getVisitorId userId st = (v, st1) ->
  let st' := snd (post_hub_profile_register clock (Some userId) (Some n) st) in
  alexaUserToVisitor st' = alexaUserToVisitor st1
  /\ visitorCounter st' = visitorCounter st1
  /\ registeredProfiles st' = <[v := writtenProfile clock v n st]> (registeredProfiles st)
  /\ (exists s, hubStateByVisitorId st' =
                <[v := <["profile" := VStr (toLowerCase n)]>
                         (<["displayName" := VStr n]> s)]> (hubStateByVisitorId st))
  /\ (exists k, lastSeen (writtenProfile clock v n st) = clock k
                /\ clockReads st <= k < clockReads st').
Proof.
  intros Hu Hn E1. unfold post_hub_profile_register. rewrite Hu, Hn. cbn [negb orb].
  open_M. rewrite E1.
  destruct (writeProfile clock v n st1) as [u st2] eqn:E2.
  destruct (getOrCreateHubState clock v st2) as [s st3] eqn:E3.
  unfold storeHubState. open_M. cbn [snd].
  destruct (getVisitorId_post _ _ _ _ E1) as (H1h & H1p & H1c & _).
  destruct (writeProfile_post _ _ _ _ _ _ E2) as (H2h & H2a & H2n & H2p & _).
  destruct (getOrCreateHubState_post _ _ _ _ _ E3) as (H3h & H3a & H3n & H3p & H3s).
  destruct (writeProfile_clock v n st1) as (k & Hk & Hle & Hck).
  rewrite E2 in Hck. cbn [snd] in Hck.
  rewrite (writtenProfile_ext v n st st1 H1p H1c) in *.
  cbn [alexaUserToVisitor visitorCounter registeredProfiles hubStateByVisitorId
       clockReads with_hubStates].
  repeat split.
  - congruence.
  - congruence.
  - rewrite H3p, H2p, H1p. reflexivity.
  - exists s. rewrite H3h, H2h, H1h. apply insert_insert_eq.
  - exists k. split; [exact Hk|]. split; [lia|].
    destruct (hubStateByVisitorId st2 !! v); destruct H3s as [_ H3s]; [subst st3|]; lia.
Qed.

End Registration.

(** ** Letter case *)







(** ** Avatar keywords *)




(** ** Reset *)

Section Reset.

Variable clock : nat -> string.

(** The response and the stores after a reset that passes validation. *)
Lemma post_hub_reset_eq (userId v : string) (st st1 : Server) :
  truthy userId = true ->
  getVisitorId userId st = (v, st1) ->
  post_hub_reset clock (Some userId) st =
  ({| status := 200;
      body := VObj (list_to_map
                      [("ok", VBool true);
                       ("state", VObj (defaultHubState v (clock (clockReads st))))]) |},
   {| hubStateByVisitorId :=
        <[v := defaultHubState v (clock (clockReads st))]> (hubStateByVisitorId st);
      alexaUserToVisitor := alexaUserToVisitor st1;
      visitorCounter := visitorCounter st1;
      registeredProfiles := registeredProfiles st;
      clockReads := S (clockReads st) |}).
Proof.
  intros Hu E1. unfold post_hub_reset. rewrite Hu. cbn [negb].
  open_M. rewrite E1, createDefaultHubState_eq, newDateISO_eq.
  unfold storeHubState. open_M. cbn [snd with_hubStates hubStateByVisitorId
    alexaUserToVisitor visitorCounter registeredProfiles clockReads].
  destruct (getVisitorId_post _ _ _ _ E1) as (-> & -> & -> & _). reflexivity.
Qed.

(** Two default states of one visitor differ in
    [debugInfo.lastUpdated] only. *)
Lemma defaultHubState_lastUpdated (v t t' : string) :
  defaultHubState v t' =
  <["debugInfo" := set_prop (get (defaultHubState v t) "debugInfo")
                     "lastUpdated" (VStr t')]> (defaultHubState v t).
Proof. reflexivity. Qed.

End Reset.




(** ** First access and display name *)

(** C3.  After ordinary requests, the first access to a visitor that
    has no hub state, under an ordinary identifier, stores and returns
    the default state, with the visitor identifier, the fixed interface
    fields, null routine results, empty grocery and custom task lists,
    no pending item, the privacy toggles enabled, the default task
    catalog and the debug record.  The default state has no
    [displayName] property: the property that is null at creation is
    spelled [odisplayName], so [displayName] reads as undefined until a
    handler writes it. *)
Theorem first_access_creates_default :
  forall (clock : nat -> string) (rs : list Request) (userId : string),
    ordinary_requests rs = true ->
    ordinary_request (GetHubState userId) = true ->
    truthy userId = true ->
    let st := run clock rs initial in
    let v := fst (getVisitorId userId st) in
    hubStateByVisitorId st !! v = None ->
    let created := defaultHubState v (clock (clockReads st)) in
    fst (get_hub_state clock userId st) = {| status := 200; body := VObj created |}
    /\ hubStateByVisitorId (snd (get_hub_state clock userId st)) !! v = Some created
    /\ created !! "displayName" = None
    /\ created !! "odisplayName" = Some VNull
    /\ created !! "visitorId" = Some (VStr v)
    /\ created !! "activeTile" = Some (VStr "home")
    /\ created !! "lastAction" = Some (VStr "NONE")
    /\ created !! "profile" = Some (VStr "default")
    /\ created !! "routineResult"
       = Some (VObj (list_to_map
                       [("lights", VNull); ("thermostat", VNull); ("reminder", VNull)]))
    /\ created !! "groceryList" = Some (VArr [])
    /\ created !! "pendingItem" = Some VNull
    /\ created !! "privacy"
       = Some (VObj (list_to_map
                       [("microphoneEnabled", VBool true); ("allowVoiceHistory", VBool true);
                        ("lastHistoryDelete", VNull)]))
    /\ created !! "tasks" = Some (VArr DEFAULT_TASKS)
    /\ created !! "customTasks" = Some (VArr [])
    /\ created !! "debugInfo"
       = Some (VObj (list_to_map
                       [("lastUpdated", VStr (clock (clockReads st)));
                        ("lastAlexaRequest", VNull);
                        ("isAlexaUser", VBool (startsWith v "alexa-user-"))])).
Proof.
  intros clock rs userId _ _ Hu st. clearbody st. intros v Hnew created.
  destruct (getVisitorId userId st) as [v' st1] eqn:E1. cbn [fst] in v. subst v.
  destruct (getVisitorId_post _ _ _ _ E1) as (H1h & _ & H1c & _).
  assert (E2 : getOrCreateHubState clock v' st1 =
               (created, snd (storeHubState v' created (snd (newDateISO clock st1))))).
  { unfold getOrCreateHubState. open_M. rewrite H1h, Hnew, createDefaultHubState_eq.
    unfold storeHubState. open_M. rewrite newDateISO_eq. cbn [snd].
    subst created. rewrite H1c. reflexivity. }
  unfold get_hub_state. rewrite Hu. cbn [negb]. open_M. rewrite E1, E2.
  cbn [fst snd]. split; [reflexivity|].
  split; [unfold storeHubState; open_M; cbn; apply lookup_insert_eq|].
  repeat split.
Qed.

Lemma first_access_creates_default_witness :
  ordinary_requests [] = true
  /\ ordinary_request (GetHubState "web-1") = true
  /\ truthy "web-1" = true
  /\ hubStateByVisitorId initial !! "web-1" = None
  /\ fst (get_hub_state sample_clock "web-1" initial)
     = {| status := 200; body := VObj (defaultHubState "web-1" (sample_clock 0)) |}
  /\ defaultHubState "web-1" (sample_clock 0) !! "displayName" = None.
Proof.
  assert (Hr : ordinary_request (GetHubState "web-1") = true) by (vm_compute; reflexivity).
  destruct (first_access_creates_default sample_clock [] "web-1" eq_refl Hr eq_refl eq_refl)
    as (H1 & _ & H2 & _).
  split; [reflexivity | split; [exact Hr |]].
  split; [reflexivity | split; [reflexivity | split; [exact H1 | exact H2]]].
Defined.

(** C4.  After ordinary requests, an ordinary state update that carries
    a display name writes [displayName] into the stored hub state and
    leaves the [profile] field as the merge of the existing state and
    the update has it: the lower-cased name is not written.  Only the
    registration handler writes it.  On a new server, for visitor
    [web-1] and the name "Mom", the state update leaves [profile] at
    "default" where the registration sets "mom". *)
Theorem state_update_does_not_set_profile :
  (forall (clock : nat -> string) (rs : list Request) (userId d : string)
          (state : option obj),
      ordinary_requests rs = true ->
      ordinary_request
        (PostHubState {| sr_userId := Some userId; sr_state := state;
                         sr_displayName := Some d |}) = true ->
      truthy userId = true -> truthy d = true ->
      let st := run clock rs initial in
      let v := fst (getVisitorId userId st) in
      let existing :=
        match hubStateByVisitorId st !! v with
        | Some s => s
        | None => defaultHubState v (clock (clockReads st))
        end in
      let stored :=
        hubStateByVisitorId
          (snd (post_hub_state clock
                  {| sr_userId := Some userId; sr_state := state; sr_displayName := Some d |}
                  st)) !! v in
      (stored ≫= (.!! "displayName")) = Some (VStr d)
      /\ (stored ≫= (.!! "profile"))
         = deepMerge existing (VObj (default ∅ state)) !! "profile")
  /\ (forall clock : nat -> string,
        let via_state :=
          snd (post_hub_state clock
                 {| sr_userId := Some "web-1"; sr_state := None;
                    sr_displayName := Some "Mom" |} initial) in
        let via_register :=
          snd (post_hub_profile_register clock (Some "web-1") (Some "Mom") initial) in
        (hubStateByVisitorId via_state !! "web-1" ≫= (.!! "displayName"))
        = Some (VStr "Mom")
        /\ (hubStateByVisitorId via_state !! "web-1" ≫= (.!! "profile"))
           = Some (VStr "default")
        /\ (hubStateByVisitorId via_register !! "web-1" ≫= (.!! "displayName"))
           = Some (VStr "Mom")
        /\ (hubStateByVisitorId via_register !! "web-1" ≫= (.!! "profile"))
           = Some (VStr "mom")).
Proof.
  split; [|intros clock; repeat split].
  intros clock rs userId d state _ _ Hu Hd st. clearbody st. intros v existing stored.
  destruct (getVisitorId userId st) as [v' st1] eqn:E1. cbn [fst] in v. subst v.
  destruct (post_hub_state_stored clock
              {| sr_userId := Some userId; sr_state := state; sr_displayName := Some d |}
              userId v' st st1 eq_refl Hu E1) as [t Ht].
  cbn [sr_state sr_displayName] in Ht. rewrite Hd in Ht. fold existing in Ht.
  subst stored. rewrite Ht. cbn [mbind option_bind].
  rewrite !stampDebugInfo_lookup_ne by discriminate.
  rewrite lookup_insert_eq, lookup_insert_ne by discriminate. done.
Qed.

Lemma state_update_does_not_set_profile_witness :
  let stored :=
    hubStateByVisitorId
      (snd (post_hub_state sample_clock
              {| sr_userId := Some "amzn1.ask.account.A";
                 sr_state := Some (list_to_map [("activeTile", VStr "grocery")]);
                 sr_displayName := Some "Dad" |} initial)) !! "alexa-user-1" in
  ordinary_requests [] = true
  /\ ordinary_request
       (PostHubState {| sr_userId := Some "amzn1.ask.account.A";
                        sr_state := Some (list_to_map [("activeTile", VStr "grocery")]);
                        sr_displayName := Some "Dad" |}) = true
  /\ truthy "amzn1.ask.account.A" = true /\ truthy "Dad" = true
  /\ (stored ≫= (.!! "displayName")) = Some (VStr "Dad")
  /\ (stored ≫= (.!! "profile")) = Some (VStr "default").
Proof.
  intros stored.
  assert (Hr : ordinary_request
                 (PostHubState {| sr_userId := Some "amzn1.ask.account.A";
                                  sr_state := Some (list_to_map [("activeTile", VStr "grocery")]);
                                  sr_displayName := Some "Dad" |}) = true)
    by (vm_compute; reflexivity).
  destruct (proj1 state_update_does_not_set_profile sample_clock []
              "amzn1.ask.account.A" "Dad"
              (Some (list_to_map [("activeTile", VStr "grocery")])) eq_refl Hr eq_refl eq_refl)
    as [H1 H2].
  split; [reflexivity | split; [exact Hr |]].
  split; [reflexivity | split; [reflexivity | split; [exact H1 | exact H2]]].
Defined.

(** ** The task catalog on the heap *)

Module HeapFacts.
Import Heap.

Lemma toJSON_flat (d : nat) (h : heap) (o : obj) :
  toJSON d h <$> (HPrim <$> o) = o.
Proof.
  rewrite <- map_fmap_compose. rewrite <- (map_fmap_id o) at 2.
  apply map_fmap_ext. intros k v _. by destruct d.
Qed.

(** One level of [toJSON] at a reference reads one cell. *)
Lemma toJSON_1_ext (h h' : heap) (r : loc) :
  h' !! r = h !! r -> toJSON 1 h' (HRef r) = toJSON 1 h (HRef r).
Proof.
  intros H. cbn [toJSON]. rewrite H.
  destruct (h !! r) as [[props|elems]|]; reflexivity.
Qed.

(** The JSON value of an array of references depends on the array
    cell and on the cells it refers to. *)
Lemma tasks_json_ext (h h' : heap) (l : loc) (refs : list loc) :
  h !! l = Some (CArr (HRef <$> refs)) ->
  h' !! l = h !! l ->
  (forall r, r ∈ refs -> h' !! r = h !! r) ->
  tasks_json h' l = tasks_json h l.
Proof.
  intros Hl Hsame Hrefs. unfold tasks_json.
  change (toJSON 2 h' (HRef l)) with
    (match h' !! l with
     | Some (CObj props) => VObj (toJSON 1 h' <$> props)
     | Some (CArr elems) => VArr (toJSON 1 h' <$> elems)
     | None => VUndefined
     end).
  change (toJSON 2 h (HRef l)) with
    (match h !! l with
     | Some (CObj props) => VObj (toJSON 1 h <$> props)
     | Some (CArr elems) => VArr (toJSON 1 h <$> elems)
     | None => VUndefined
     end).
  rewrite Hsame, Hl. f_equal. rewrite <- !list_fmap_compose.
  apply list_fmap_ext. intros i r Hr. cbn [compose].
  apply toJSON_1_ext, Hrefs. by eapply list_elem_of_lookup_2.
Qed.

Lemma catalog_refs_bound (r : loc) :
  r ∈ seq 0 (length DEFAULT_TASKS) -> r < DEFAULT_TASKS_loc.
Proof. intros H%elem_of_seq. unfold DEFAULT_TASKS_loc. lia. Qed.

Lemma catalog_intact_length (h : heap) :
  catalog_intact h -> DEFAULT_TASKS_loc < length h.
Proof.
  intros H. apply (lookup_lt_is_Some_1 h DEFAULT_TASKS_loc).
  rewrite (H DEFAULT_TASKS_loc) by lia. vm_compute. eauto.
Qed.

Lemma catalog_intact_array (h : heap) :
  catalog_intact h ->
  h !! DEFAULT_TASKS_loc = Some (CArr (HRef <$> seq 0 (length DEFAULT_TASKS))).
Proof. intros H. rewrite (H DEFAULT_TASKS_loc) by lia. reflexivity. Qed.

(** An array of references to the catalog's records reads as the
    catalog. *)
Lemma tasks_json_catalog (h : heap) (l : loc) :
  catalog_intact h ->
  h !! l = Some (CArr (HRef <$> seq 0 (length DEFAULT_TASKS))) ->
  tasks_json h l = VArr DEFAULT_TASKS.
Proof.
  intros Hint Hl.
  transitivity (tasks_json (module_heap ++ [CArr (HRef <$> seq 0 (length DEFAULT_TASKS))])
                  (S DEFAULT_TASKS_loc)); [|reflexivity].
  unfold tasks_json.
  change (toJSON 2 h (HRef l)) with
    (match h !! l with
     | Some (CObj props) => VObj (toJSON 1 h <$> props)
     | Some (CArr elems) => VArr (toJSON 1 h <$> elems)
     | None => VUndefined
     end).
  rewrite Hl.
  change (toJSON 2 ?h' (HRef (S DEFAULT_TASKS_loc))) with
    (VArr (toJSON 1 h' <$> (HRef <$> seq 0 (length DEFAULT_TASKS)))).
  f_equal. rewrite <- !list_fmap_compose.
  apply list_fmap_ext. intros i r Hr. cbn [compose].
  apply toJSON_1_ext.
  assert (Hlt : r < DEFAULT_TASKS_loc)
    by (eapply catalog_refs_bound, list_elem_of_lookup_2, Hr).
  rewrite (Hint r) by lia.
  symmetry. apply lookup_app_l. apply lookup_lt_is_Some_1.
  revert Hlt. unfold DEFAULT_TASKS_loc. cbn [length DEFAULT_TASKS]. intros Hlt.
  do 6 (destruct r as [|r]; [vm_compute; eauto|]). lia.
Qed.

(** Creating a default hub state appends seven cells; the fourth is
    the copy of the catalog array. *)
Lemma createDefaultHubState_cells (v t : string) (h : heap) :
  catalog_intact h ->
  exists c0 c1 c2 c4 c5 c6,
    createDefaultHubState v t h =
    (length h + 6,
     h ++ [c0; c1; c2; CArr (HRef <$> seq 0 (length DEFAULT_TASKS)); c4; c5; c6])
    /\ tasks_of (h ++ [c0; c1; c2; CArr (HRef <$> seq 0 (length DEFAULT_TASKS)); c4; c5; c6])
         (length h + 6) = Some (length h + 3).
Proof.
  intros Hint. pose proof (catalog_intact_length h Hint) as Hlen.
  pose proof (catalog_intact_array h Hint) as Harr.
  do 6 eexists. split.
  - unfold createDefaultHubState, spread, alloc.
    unfold mbind, H_bind, mret, H_ret. cbv beta iota.
    rewrite !lookup_app_l by (rewrite ?length_app; cbn [length]; lia).
    rewrite Harr. cbv beta iota.
    rewrite !length_app. cbn [length]. rewrite <- !(assoc_L (++)). cbn [app].
    replace (length h + 1 + 1 + 1 + 1 + 1 + 1) with (length h + 6) by lia.
    replace (length h + 1 + 1 + 1 + 1 + 1) with (length h + 5) by lia.
    replace (length h + 1 + 1 + 1 + 1) with (length h + 4) by lia.
    replace (length h + 1 + 1 + 1) with (length h + 3) by lia.
    replace (length h + 1 + 1) with (length h + 2) by lia.
    reflexivity.
  - unfold tasks_of. rewrite lookup_app_r by lia.
    replace (length h + 6 - length h) with 6 by lia. reflexivity.
Qed.

End HeapFacts.

Module CatalogSharing.
Import Heap HeapFacts.

Lemma catalog_intact_app (h more : heap) :
  catalog_intact h -> catalog_intact (h ++ more).
Proof.
  intros Hint i Hi. rewrite <- (Hint i Hi). apply lookup_app_l.
  pose proof (catalog_intact_length h Hint). lia.
Qed.

Lemma tasks_of_app (h more : heap) (s a : loc) :
  tasks_of h s = Some a -> tasks_of (h ++ more) s = Some a.
Proof.
  unfold tasks_of. intros H.
  destruct (h !! s) as [c|] eqn:E; [|discriminate].
  by rewrite (lookup_app_l_Some _ _ _ _ E).
Qed.

(** A mutation of the array at [a] writes the cell at [a] only. *)
Lemma mutate_array_frame (a : loc) (m : mutation) (h : heap) (l : loc) :
  is_array_mutation m = true -> l <> a -> mutate a m h !! l = h !! l.
Proof.
  intros Hm Hne. unfold mutate.
  destruct (h !! a) as [[props|elems]|]; destruct m; try done.
  apply list_lookup_insert_ne. congruence.
Qed.

Lemma mutate_all_array_frame (a : loc) (ms : list mutation) (h : heap) (l : loc) :
  Forall (fun m => is_array_mutation m = true) ms -> l <> a ->
  mutate_all a ms h !! l = h !! l.
Proof.
  intros Hms Hne. revert h. induction Hms as [|m ms Hm _ IH]; intros h; [reflexivity|].
  cbn [mutate_all foldl]. fold (mutate_all a ms (mutate a m h)).
  rewrite IH. by apply mutate_array_frame.
Qed.

Lemma mutate_all_catalog_intact (a : loc) (ms : list mutation) (h : heap) :
  Forall (fun m => is_array_mutation m = true) ms -> DEFAULT_TASKS_loc < a ->
  catalog_intact h -> catalog_intact (mutate_all a ms h).
Proof.
  intros Hms Ha Hint i Hi. rewrite mutate_all_array_frame by (done || lia). by apply Hint.
Qed.

(** The task list of a hub state created on [h]: a new array cell
    that holds the references of the catalog array. *)
Lemma created_tasks (v t : string) (h : heap) :
  catalog_intact h ->
  let s := fst (createDefaultHubState v t h) in
  let h' := snd (createDefaultHubState v t h) in
  tasks_of h' s = Some (length h + 3)
  /\ h' !! (length h + 3) = Some (CArr (HRef <$> seq 0 (length DEFAULT_TASKS)))
  /\ catalog_intact h'
  /\ (forall l, l < length h -> h' !! l = h !! l)
  /\ length h' = length h + 7.
Proof.
  intros Hint s h'. subst s h'.
  destruct (createDefaultHubState_cells v t h Hint)
    as (c0 & c1 & c2 & c4 & c5 & c6 & -> & Ht).
  cbn [fst snd]. split; [exact Ht|].
  split.
  { rewrite lookup_app_r by lia.
    replace (length h + 3 - length h) with 3 by lia. reflexivity. }
  split; [by apply catalog_intact_app|].
  split; [intros l Hl; by apply lookup_app_l|].
  rewrite length_app. reflexivity.
Qed.

End CatalogSharing.

(** C2, as stated, does not hold: the copy made for a new hub state is
    a copy of the array only.  Changing a task record through the task
    list of one visitor changes the catalog and the task list of every
    other visitor. *)
Lemma shared_task_record_counterexample :
  let h1 := snd (Heap.createDefaultHubState "web-1" (sample_clock 0) Heap.module_heap) in
  let h2 := snd (Heap.createDefaultHubState "web-2" (sample_clock 1) h1) in
  let retitle := Heap.MutRecord 0 (<["title" := Heap.HPrim (VStr "Changed")]>) in
  Heap.tasks_of h2 13 = Some 10
  /\ Heap.tasks_of h2 20 = Some 17
  /\ Heap.catalog_json (Heap.mutate 10 retitle h2) <> Heap.catalog_json h2
  /\ Heap.tasks_json (Heap.mutate 10 retitle h2) 17 <> Heap.tasks_json h2 17.
Proof.
  intros h1 h2 retitle.
  split; [reflexivity|]. split; [reflexivity|].
  split; intros H;
    apply (f_equal (fun j => match j with
                             | VArr (VObj t :: _) => t !! "title"
                             | _ => None
                             end)) in H;
    vm_compute in H; discriminate H.
Qed.

(** C2, amended.  A new hub state gets a new array that holds the same
    task records as the catalog.  Whatever is done to the array itself
    of one visitor (elements assigned, added, removed or reordered), the
    catalog, the task list of any other visitor and the task list given
    to a visitor created afterwards all still read as the default
    catalog. *)
Theorem default_tasks_array_is_copied :
  forall (h : Heap.heap) (vA tA vB tB : string) (ms : list Heap.mutation),
    catalog_intact h ->
    Forall (fun m => Heap.is_array_mutation m = true) ms ->
    let sA := fst (Heap.createDefaultHubState vA tA h) in
    let h1 := snd (Heap.createDefaultHubState vA tA h) in
    let sB := fst (Heap.createDefaultHubState vB tB h1) in
    let h2 := snd (Heap.createDefaultHubState vB tB h1) in
    exists a b : Heap.loc,
      Heap.tasks_of h2 sA = Some a /\ Heap.tasks_of h2 sB = Some b
      /\ a <> b /\ a <> Heap.DEFAULT_TASKS_loc /\ b <> Heap.DEFAULT_TASKS_loc
      /\ h2 !! a = h2 !! Heap.DEFAULT_TASKS_loc
      /\ h2 !! b = h2 !! Heap.DEFAULT_TASKS_loc
      /\ Heap.tasks_json h2 a = VArr DEFAULT_TASKS
      /\ Heap.tasks_json h2 b = VArr DEFAULT_TASKS
      /\ Heap.catalog_json (Heap.mutate_all a ms h2) = VArr DEFAULT_TASKS
      /\ Heap.tasks_json (Heap.mutate_all a ms h2) b = VArr DEFAULT_TASKS
      /\ Heap.catalog_json (Heap.mutate_all b ms h2) = VArr DEFAULT_TASKS
      /\ Heap.tasks_json (Heap.mutate_all b ms h2) a = VArr DEFAULT_TASKS
      /\ (forall vC tC : string,
            let sC := fst (Heap.createDefaultHubState vC tC (Heap.mutate_all a ms h2)) in
            let h3 := snd (Heap.createDefaultHubState vC tC (Heap.mutate_all a ms h2)) in
            exists c, Heap.tasks_of h3 sC = Some c
                      /\ Heap.tasks_json h3 c = VArr DEFAULT_TASKS).
Proof.
  intros h vA tA vB tB ms Hint Hms sA h1 sB h2.
  destruct (CatalogSharing.created_tasks vA tA h Hint) as (HtA & HcA & Hint1 & Hold1 & Hlen1).
  fold sA h1 in HtA, HcA, Hint1, Hold1, Hlen1.
  destruct (CatalogSharing.created_tasks vB tB h1 Hint1) as (HtB & HcB & Hint2 & Hold2 & Hlen2).
  fold sB h2 in HtB, HcB, Hint2, Hold2, Hlen2.
  pose proof (HeapFacts.catalog_intact_length h Hint) as Hlen.
  pose proof (HeapFacts.catalog_intact_array h2 Hint2) as Harr2.
  assert (HcA2 : h2 !! (length h + 3)
                 = Some (Heap.CArr (Heap.HRef <$> seq 0 (length DEFAULT_TASKS))))
    by (rewrite Hold2 by lia; exact HcA).
  assert (HtA2 : Heap.tasks_of h2 sA = Some (length h + 3)).
  { unfold Heap.tasks_of in *. destruct (h1 !! sA) as [c|] eqn:E; [|discriminate].
    rewrite Hold2 by (apply lookup_lt_is_Some_1; eauto). by rewrite E. }
  exists (length h + 3), (length h1 + 3).
  split; [exact HtA2|]. split; [exact HtB|].
  split; [lia|]. split; [lia|]. split; [lia|].
  split; [congruence|]. split; [congruence|].
  split; [by apply HeapFacts.tasks_json_catalog|].
  split; [by apply HeapFacts.tasks_json_catalog|].
  assert (Hafter : forall x y,
            Heap.DEFAULT_TASKS_loc < x -> x <> y ->
            h2 !! y = Some (Heap.CArr (Heap.HRef <$> seq 0 (length DEFAULT_TASKS))) ->
            catalog_intact (Heap.mutate_all x ms h2)
            /\ Heap.tasks_json (Heap.mutate_all x ms h2) y = VArr DEFAULT_TASKS).
  { intros x y Hx Hxy Hy.
    assert (Hi : catalog_intact (Heap.mutate_all x ms h2))
      by (by apply CatalogSharing.mutate_all_catalog_intact).
    split; [exact Hi|]. apply HeapFacts.tasks_json_catalog; [exact Hi|].
    rewrite CatalogSharing.mutate_all_array_frame by (done || congruence). exact Hy. }
  destruct (Hafter (length h + 3) (length h1 + 3)) as [HiA HjA]; [lia | lia | done |].
  destruct (Hafter (length h1 + 3) (length h + 3)) as [HiB HjB]; [lia | lia | done |].
  split; [apply HeapFacts.tasks_json_catalog; [exact HiA | by apply HeapFacts.catalog_intact_array]|].
  split; [exact HjA|].
  split; [apply HeapFacts.tasks_json_catalog; [exact HiB | by apply HeapFacts.catalog_intact_array]|].
  split; [exact HjB|].
  intros vC tC sC h3.
  destruct (CatalogSharing.created_tasks vC tC _ HiA) as (HtC & HcC & Hint3 & _ & _).
  fold sC h3 in HtC, HcC, Hint3.
  eexists. split; [exact HtC|]. by apply HeapFacts.tasks_json_catalog.
Qed.

Lemma default_tasks_array_is_copied_witness :
  let h1 := snd (Heap.createDefaultHubState "web-1" (sample_clock 0) Heap.module_heap) in
  let h2 := snd (Heap.createDefaultHubState "web-2" (sample_clock 1) h1) in
  let ms := [Heap.MutArray (fun _ => []); Heap.MutArray (fun es => es ++ [Heap.HPrim VNull])] in
  catalog_intact Heap.module_heap
  /\ Forall (fun m => Heap.is_array_mutation m = true) ms
  /\ exists a b : Heap.loc,
       Heap.tasks_of h2 13 = Some a /\ Heap.tasks_of h2 20 = Some b
       /\ Heap.catalog_json (Heap.mutate_all a ms h2) = VArr DEFAULT_TASKS
       /\ Heap.tasks_json (Heap.mutate_all a ms h2) b = VArr DEFAULT_TASKS.
Proof.
  intros h1 h2 ms.
  assert (Hint : catalog_intact Heap.module_heap) by (intros i _; reflexivity).
  assert (Hms : Forall (fun m => Heap.is_array_mutation m = true) ms)
    by (repeat constructor).
  split; [exact Hint | split; [exact Hms|]].
  destruct (default_tasks_array_is_copied Heap.module_heap
              "web-1" (sample_clock 0) "web-2" (sample_clock 1) ms Hint Hms)
    as (a & b & Ha & Hb & _ & _ & _ & _ & _ & _ & _ & Hc & Hd & _).
  exists a, b. split; [exact Ha | split; [exact Hb | split; [exact Hc | exact Hd]]].
Defined.

(** The heap model and the value model agree on what a new hub state
    is: read back from the heap, the state created on the module's heap
    is the JSON value [defaultHubState]. *)
Lemma heap_default_state_json (v t : string) :
  Heap.toJSON 3 (snd (Heap.createDefaultHubState v t Heap.module_heap))
    (Heap.HRef (fst (Heap.createDefaultHubState v t Heap.module_heap)))
  = VObj (defaultHubState v t).
Proof. reflexivity. Qed.

(** ** End to end

    POST /hub/state with [{userId: "web-1", state: {activeTile: "grocery",
    groceryList: ["milk"]}}], then GET /hub/state/web-1: the two fields
    are as posted, the other default fields are still there, and the
    visitor identifier is the user identifier. *)
Example post_then_get :
  let update : StateRequest :=
    {| sr_userId := Some "web-1";
       sr_state := Some (list_to_map [("activeTile", VStr "grocery");
                                      ("groceryList", VArr [VStr "milk"])]);
       sr_displayName := None |} in
  let st := snd (post_hub_state sample_clock update initial) in
  let answer := fst (get_hub_state sample_clock "web-1" st) in
  let field (key : string) : value :=
    match body answer with
    | VObj state => get state key
    | _ => VUndefined
    end in
  status answer = 200
  /\ field "activeTile" = VStr "grocery"
  /\ field "groceryList" = VArr [VStr "milk"]
  /\ field "visitorId" = VStr "web-1"
  /\ field "lastAction" = VStr "NONE"
  /\ field "tasks" = VArr DEFAULT_TASKS
  /\ field "customTasks" = VArr [].
Proof. repeat split; vm_compute; reflexivity. Qed.

(** * Further properties

    ** The recursive merge *)

Lemma vsize_lookup (props : obj) (key : string) (v : value) :
  props !! key = Some v -> vsize v < vsize (VObj props).
Proof.
  intros H. cbn [vsize].
  rewrite (map_fold_delete_L _ _ key v props); [lia | | exact H].
  intros. lia.
Qed.

Lemma deepMerge_empty (target : obj) : deepMerge target (VObj ∅) = target.
Proof. rewrite deepMerge_unfold. apply map_fold_empty. Qed.

(** Merging a record into itself changes nothing. *)
Lemma deepMerge_self (n : nat) (s : obj) :
  vsize (VObj s) <= n -> deepMerge s (VObj s) = s.
Proof.
  revert s. induction n as [|n IH]; intros s Hn.
  { cbn [vsize] in Hn. lia. }
  apply map_eq. intros k. rewrite deepMerge_lookup.
  destruct (s !! k) as [[| | | | | |s']|] eqn:E; cbn [merge_rule]; try reflexivity.
  rewrite IH; [reflexivity|]. pose proof (vsize_lookup _ _ _ E). lia.
Qed.

Lemma deepMerge_twice (n : nat) (src : obj) :
  vsize (VObj src) <= n ->
  forall target : obj,
    deepMerge (deepMerge target (VObj src)) (VObj src) = deepMerge target (VObj src).
Proof.
  revert src. induction n as [|n IH]; intros src Hn target.
  { cbn [vsize] in Hn. lia. }
  apply map_eq. intros k. rewrite !deepMerge_lookup.
  destruct (src !! k) as [[| | | | | |so]|] eqn:E; cbn [merge_rule]; try reflexivity.
  assert (Hso : vsize (VObj so) <= n) by (pose proof (vsize_lookup _ _ _ E); lia).
  destruct (target !! k) as [[| | | | | |to]|]; cbn [merge_rule];
    rewrite ?(IH so Hso), ?(deepMerge_self n so Hso); reflexivity.
Qed.

(** ** The merge on own properties and the merge with the prototype *)

Lemma no_proto_key_lookup (props : obj) (key : string) (v : value) :
  no_proto_key (VObj props) = true -> props !! key = Some v -> no_proto_key v = true.
Proof.
  cbn [no_proto_key]. intros [_ H]%andb_prop. revert H key v.
  apply (map_fold_weak_ind
           (fun r (m : obj) => r = true ->
              forall key v, m !! key = Some v -> no_proto_key v = true)).
  - intros _ key v. by rewrite lookup_empty.
  - intros i x m r Hfresh IH [Hx Hr]%andb_prop key v.
    destruct (decide (i = key)) as [->|Hne].
    + rewrite lookup_insert_eq. by intros [= <-].
    + rewrite lookup_insert_ne by exact Hne. by apply IH.
Qed.

(** With no enumerable property on [Object.prototype] and no key
    [__proto__] in the update, the merge is the merge on own
    properties. *)
Lemma Prototype_deepMerge_own (n : nat) (src : obj) :
  vsize (VObj src) <= n -> no_proto_key (VObj src) = true ->
  forall target : obj, Prototype.deepMerge ∅ target (VObj src) = deepMerge target (VObj src).
Proof.
  revert src. induction n as [|n IH]; intros src Hn Hsrc target.
  { cbn [vsize] in Hn. lia. }
  apply map_eq. intros k. rewrite Prototype_deepMerge_lookup, deepMerge_lookup.
  assert (Hin : Prototype.incoming ∅ src k = src !! k).
  { unfold Prototype.incoming. destruct (src !! k); [reflexivity|].
    rewrite lookup_empty. by destruct (inherited_name k). }
  rewrite Hin.
  destruct (Prototype.sets_prototype target k) eqn:Hp.
  - unfold Prototype.sets_prototype in Hp. apply andb_prop in Hp as [Hk Ht].
    apply bool_decide_eq_true in Hk as ->. apply bool_decide_eq_true in Ht.
    cbn [no_proto_key] in Hsrc. apply andb_prop in Hsrc as [Hnone _].
    apply bool_decide_eq_true in Hnone. rewrite Ht, Hnone. reflexivity.
  - destruct (src !! k) as [[| | | | | |so]|] eqn:E; try reflexivity.
    destruct (target !! k) as [[| | | | | |to]|]; try reflexivity.
    cbn [Prototype.merge_rule merge_rule]. rewrite IH; [reflexivity | |].
    + pose proof (vsize_lookup _ _ _ E). lia.
    + exact (no_proto_key_lookup _ _ _ Hsrc E).
Qed.

(** X1.  The merge never removes a key of the existing record, and it
    adds exactly the keys at which the update holds (as an own property
    or as an enumerable property inherited from [Object.prototype]) a
    value other than undefined; the only key it never adds is
    [__proto__], to a record that does not own that property. *)
Theorem deepMerge_keys :
  forall (inherited : gmap string string) (target src : obj) (key : string),
    (is_Some (target !! key) ->
     is_Some (Prototype.deepMerge inherited target (VObj src) !! key))
    /\ (is_Some (Prototype.deepMerge inherited target (VObj src) !! key)
        <-> is_Some (target !! key)
            \/ (Prototype.sets_prototype target key = false
                /\ exists v, Prototype.incoming inherited src key = Some v
                             /\ is_undefined v = false)).
Proof.
  intros inherited target src key. rewrite Prototype_deepMerge_lookup.
  assert (Hiff :
    is_Some (if Prototype.sets_prototype target key then None
             else Prototype.merge_rule inherited (target !! key)
                    (Prototype.incoming inherited src key))
    <-> is_Some (target !! key)
        \/ (Prototype.sets_prototype target key = false
            /\ exists v, Prototype.incoming inherited src key = Some v
                         /\ is_undefined v = false)).
  { destruct (Prototype.sets_prototype target key) eqn:Hp.
    - unfold Prototype.sets_prototype in Hp. apply andb_prop in Hp as [_ Ht].
      apply bool_decide_eq_true in Ht. rewrite Ht. split.
      + by intros [? ?].
      + intros [[? ?] | [? _]]; discriminate.
    - unfold is_Some.
      destruct (Prototype.incoming inherited src key) as [[]|];
        destruct (target !! key) as [[]|];
        cbn [Prototype.merge_rule is_undefined];
        (split;
         [ intros [x Hx];
           first [ right; split; [reflexivity|]; eexists; split; reflexivity
                 | left; eexists; exact Hx ]
         | intros [[x Hx] | (_ & v & Hv & Hu)];
           first [ discriminate Hx | discriminate Hv | discriminate Hu
                 | eexists; reflexivity | eexists; exact Hx
                 | injection Hv as <-; discriminate Hu ] ]). }
  split; [|exact Hiff]. intros H. apply Hiff. by left.
Qed.

Lemma deepMerge_keys_witness :
  let existing : obj := list_to_map [("activeTile", VStr "home")] in
  let update : obj := list_to_map [("lastAction", VStr "OPEN")] in
  is_Some (existing !! "activeTile")
  /\ is_Some (Prototype.deepMerge ∅ existing (VObj update) !! "activeTile").
Proof.
  intros existing update.
  assert (H : is_Some (existing !! "activeTile")) by (eexists; reflexivity).
  split; [exact H|].
  exact (proj1 (deepMerge_keys ∅ existing update "activeTile") H).
Defined.

(** X2.  With the prototype as it is when the module is loaded: an
    update without a key [__proto__] applied twice gives what it gives
    applied once, and the empty update changes nothing. *)
Theorem deepMerge_idempotent :
  forall target src : obj,
    (no_proto_key (VObj src) = true ->
     Prototype.deepMerge ∅ (Prototype.deepMerge ∅ target (VObj src)) (VObj src)
     = Prototype.deepMerge ∅ target (VObj src))
    /\ Prototype.deepMerge ∅ target (VObj ∅) = target.
Proof.
  intros target src. split.
  - intros Hsrc.
    rewrite !(Prototype_deepMerge_own (vsize (VObj src)) src (le_n _) Hsrc).
    by apply (deepMerge_twice (vsize (VObj src))).
  - assert (He : no_proto_key (VObj ∅) = true) by (vm_compute; reflexivity).
    rewrite (Prototype_deepMerge_own (vsize (VObj ∅)) ∅ (le_n _) He).
    apply deepMerge_empty.
Qed.

Lemma deepMerge_idempotent_witness :
  let existing : obj := list_to_map [("privacy", VObj (list_to_map [("microphoneEnabled", VBool true)]))] in
  let update : obj := list_to_map [("privacy", VObj (list_to_map [("allowVoiceHistory", VBool false)]))] in
  no_proto_key (VObj update) = true
  /\ Prototype.deepMerge ∅ (Prototype.deepMerge ∅ existing (VObj update)) (VObj update)
     = Prototype.deepMerge ∅ existing (VObj update).
Proof.
  intros existing update.
  assert (H : no_proto_key (VObj update) = true) by (vm_compute; reflexivity).
  split; [exact H|].
  exact (proj1 (deepMerge_idempotent existing update) H).
Defined.

(** ** What a request writes *)

Section Writes.

Variable clock : nat -> string.

Lemma post_hub_state_writes (req : StateRequest) (userId v : string) (st st1 : Server) :
  sr_userId req = Some userId -> truthy userId = true ->
  getVisitorId userId st = (v, st1) ->
  let st' := snd (post_hub_state clock req st) in
  writes_visitor v st st'
  /\ alexaUserToVisitor st' = alexaUserToVisitor st1
  /\ visitorCounter st' = visitorCounter st1.
Proof.
  intros Hreq Hu E1. unfold post_hub_state. rewrite Hreq, Hu. cbn [negb].
  open_M. rewrite E1.
  destruct (getOrCreateHubState clock v st1) as [s st2] eqn:E2.
  destruct (applyDisplayName clock v (sr_displayName req) _ st2) as [named st3] eqn:E3.
  rewrite newDateISO_eq. unfold storeHubState. open_M.
  match goal with |- context [touchLastSeen clock v ?x] =>
    destruct (touchLastSeen clock v x) as [u st5] eqn:E5 end.
  cbn [fst snd].
  destruct (getVisitorId_post _ _ _ _ E1) as (H1h & H1p & _).
  destruct (getOrCreateHubState_post _ _ _ _ _ E2) as (H2h & H2a & H2n & H2p & _).
  destruct (applyDisplayName_post _ _ _ _ _ _ _ E3) as (H3h & H3a & H3n & H3p).
  destruct (touchLastSeen_post _ _ _ _ _ E5) as (H5h & H5a & H5n & H5p).
  cbn in H5h, H5a, H5n, H5p.
  assert (Hp3 : registeredProfiles st3 = registeredProfiles st
                \/ exists p, registeredProfiles st3 = <[v := p]> (registeredProfiles st)).
  { destruct (sr_displayName req) as [n|]; [destruct (truthy n)|].
    - right. destruct H3p as [_ ->]. rewrite H2p, H1p. eauto.
    - left. destruct H3p as [_ ->]. congruence.
    - left. destruct H3p as [_ ->]. congruence. }
  split; [split|split].
  - eexists. rewrite H5h, H3h, H2h, H1h. apply insert_insert_eq.
  - destruct (registeredProfiles st3 !! v) as [p|].
    + destruct H5p as [-> _]. right.
      destruct Hp3 as [-> | [p' ->]]; [eauto|]. rewrite insert_insert_eq. eauto.
    + subst st5. exact Hp3.
  - congruence.
  - congruence.
Qed.

Lemma get_hub_state_writes (userId v : string) (st st1 : Server) :
  truthy userId = true ->
  getVisitorId userId st = (v, st1) ->
  let st' := snd (get_hub_state clock userId st) in
  writes_visitor v st st'
  /\ alexaUserToVisitor st' = alexaUserToVisitor st1
  /\ visitorCounter st' = visitorCounter st1.
Proof.
  intros Hu E1. unfold get_hub_state. rewrite Hu. cbn [negb]. open_M. rewrite E1.
  destruct (getOrCreateHubState clock v st1) as [s st2] eqn:E2. cbn [fst snd].
  destruct (getVisitorId_post _ _ _ _ E1) as (H1h & H1p & _).
  destruct (getOrCreateHubState_post _ _ _ _ _ E2) as (H2h & H2a & H2n & H2p & _).
  split; [split|split].
  - eexists. rewrite H2h, H1h. reflexivity.
  - left. congruence.
  - congruence.
  - congruence.
Qed.

Lemma post_hub_profile_register_writes (userId n v : string) (st st1 : Server) :
  truthy userId = true -> truthy n = true ->
  getVisitorId userId st = (v, st1) ->
  let st' := snd (post_hub_profile_register clock (Some userId) (Some n) st) in
  writes_visitor v st st'
  /\ alexaUserToVisitor st' = alexaUserToVisitor st1
  /\ visitorCounter st' = visitorCounter st1.
Proof.
  intros Hu Hn E1.
  destruct (post_hub_profile_register_post clock userId n v st st1 Hu Hn E1)
    as (Ha & Hc & Hp & (s & Hh) & _).
  split; [split|split]; eauto.
Qed.

Lemma post_hub_reset_writes (userId v : string) (st st1 : Server) :
  truthy userId = true ->
  getVisitorId userId st = (v, st1) ->
  let st' := snd (post_hub_reset clock (Some userId) st) in
  writes_visitor v st st'
  /\ alexaUserToVisitor st' = alexaUserToVisitor st1
  /\ visitorCounter st' = visitorCounter st1.
Proof.
  intros Hu E1. cbv zeta. rewrite (post_hub_reset_eq clock userId v st st1 Hu E1).
  cbn [snd]. split; [split|split]; cbn; eauto.
Qed.

(** Every request either leaves the four stores as they are or resolves
    the user identifier it carries and writes for that visitor. *)
Lemma step_effect (r : Request) (st : Server) :
  same_stores st (step clock r st)
  \/ exists u v st1,
       userId_of r = Some u /\ truthy u = true
       /\ getVisitorId u st = (v, st1)
       /\ writes_visitor v st (step clock r st)
       /\ alexaUserToVisitor (step clock r st) = alexaUserToVisitor st1
       /\ visitorCounter (step clock r st) = visitorCounter st1.
Proof.
  assert (Hsame : same_stores st st) by (repeat split).
  destruct r as [req|userId| |userId n| |userId| |]; cbn [step userId_of];
    try (left; exact Hsame).
  - destruct (sr_userId req) as [u|] eqn:Hreq;
      [destruct (truthy u) eqn:Hu|].
    + right. destruct (getVisitorId u st) as [v st1] eqn:E1.
      exists u, v, st1. repeat split; try done;
        by apply (post_hub_state_writes req u v st st1).
    + left. unfold post_hub_state. rewrite Hreq, Hu. exact Hsame.
    + left. unfold post_hub_state. rewrite Hreq. exact Hsame.
  - destruct (truthy userId) eqn:Hu.
    + right. destruct (getVisitorId userId st) as [v st1] eqn:E1.
      exists userId, v, st1. repeat split; try done;
        by apply (get_hub_state_writes userId v st st1).
    + left. unfold get_hub_state. rewrite Hu. exact Hsame.
  - destruct userId as [u|]; [|left; exact Hsame].
    destruct n as [n|]; [|left; exact Hsame].
    destruct (truthy u) eqn:Hu; [|left; unfold post_hub_profile_register; rewrite Hu;
                                   exact Hsame].
    destruct (truthy n) eqn:Hn; [|left; unfold post_hub_profile_register; rewrite Hu, Hn;
                                   exact Hsame].
    right. destruct (getVisitorId u st) as [v st1] eqn:E1.
    exists u, v, st1. repeat split; try done;
      by apply (post_hub_profile_register_writes u n v st st1).
  - destruct userId as [u|]; [|left; exact Hsame].
    destruct (truthy u) eqn:Hu; [|left; unfold post_hub_reset; rewrite Hu; exact Hsame].
    right. destruct (getVisitorId u st) as [v st1] eqn:E1.
    exists u, v, st1. repeat split; try done;
      by apply (post_hub_reset_writes u v st st1).
Qed.

End Writes.

(** X3.  After ordinary requests, an ordinary request changes the hub
    state and the profile of one visitor only, the one its user
    identifier resolves to: the entries of every other visitor are as
    they were. *)
Theorem requests_are_isolated :
  forall (clock : nat -> string) (rs : list Request) (r : Request) (other : string),
    ordinary_requests rs = true -> ordinary_request r = true ->
    let st := run clock rs initial in
    (forall u, userId_of r = Some u -> fst (getVisitorId u st) <> other) ->
    hubStateByVisitorId (step clock r st) !! other = hubStateByVisitorId st !! other
    /\ registeredProfiles (step clock r st) !! other = registeredProfiles st !! other.
Proof.
  intros clock rs r other _ _ st. clearbody st. intros Hother.
  destruct (step_effect clock r st)
    as [(Hh & _ & _ & Hp) | (u & v & st1 & Hu & _ & E1 & [[s Hh] Hp] & _)].
  - by rewrite Hh, Hp.
  - assert (Hne : v <> other) by (specialize (Hother u Hu); by rewrite E1 in Hother).
    rewrite Hh, lookup_insert_ne by done. split; [done|].
    destruct Hp as [-> | [p ->]]; [done | by rewrite lookup_insert_ne].
Qed.

Lemma requests_are_isolated_witness :
  let rs := [PostHubProfileRegister (Some "web-1") (Some "Mom");
             PostHubProfileRegister (Some "web-2") (Some "Dad")] in
  let st := run sample_clock rs initial in
  let r := PostHubReset (Some "web-2") in
  ordinary_requests rs = true /\ ordinary_request r = true
  /\ (forall u, userId_of r = Some u -> fst (getVisitorId u st) <> "web-1")
  /\ hubStateByVisitorId (step sample_clock r st) !! "web-1"
     = hubStateByVisitorId st !! "web-1".
Proof.
  intros rs st r.
  assert (Hrs : ordinary_requests rs = true) by (vm_compute; reflexivity).
  assert (Hr : ordinary_request r = true) by (vm_compute; reflexivity).
  assert (H : forall u, userId_of r = Some u -> fst (getVisitorId u st) <> "web-1")
    by (intros u [= <-]; discriminate).
  split; [exact Hrs | split; [exact Hr | split; [exact H|]]].
  exact (proj1 (requests_are_isolated sample_clock rs r "web-1" Hrs Hr H)).
Defined.

(** ** Invariants of the identifier mapping and of the store keys *)

Lemma run_app (clock : nat -> string) (rs more : list Request) (st : Server) :
  run clock (rs ++ more) st = run clock more (run clock rs st).
Proof. unfold run. apply foldl_app. Qed.

Lemma run_invariant (clock : nat -> string) (P : Server -> Prop) :
  (forall r st, P st -> P (step clock r st)) ->
  forall rs st, P st -> P (run clock rs st).
Proof.
  intros Hstep rs. induction rs as [|r rs IH]; intros st Hst; [exact Hst|].
  cbn [run foldl]. apply IH, Hstep, Hst.
Qed.

Lemma alexaVisitorId_not_alexa_id (k : nat) :
  startsWith (alexaVisitorId k) "amzn1." = false.
Proof. reflexivity. Qed.

Lemma mapping_wf_ext (st st' : Server) :
  alexaUserToVisitor st' = alexaUserToVisitor st ->
  visitorCounter st' = visitorCounter st ->
  mapping_wf st -> mapping_wf st'.
Proof. unfold mapping_wf. intros -> ->. done. Qed.

(** A resolution keeps the mapping well formed, and what it returns is
    never a raw Alexa identifier. *)
Lemma getVisitorId_wf (u : string) (st : Server) :
  mapping_wf st ->
  mapping_wf (snd (getVisitorId u st))
  /\ startsWith (fst (getVisitorId u st)) "amzn1." = false.
Proof.
  intros (Hval & Hinj & Hsize).
  destruct (startsWith u "amzn1.") eqn:Hp.
  - destruct (alexaUserToVisitor st !! u) as [w|] eqn:Hu.
    + destruct (Hval u w Hu) as (_ & k & Hk & ->).
      rewrite (getVisitorId_known u _ st Hp Hu (alexaVisitorId_truthy k)).
      split; [done | apply alexaVisitorId_not_alexa_id].
    + rewrite (getVisitorId_fresh u st Hp Hu). cbn [fst snd].
      split; [|apply alexaVisitorId_not_alexa_id].
      split; [|split]; cbn [alexaUserToVisitor visitorCounter with_mapping].
      * intros u' v'. destruct (decide (u = u')) as [<-|Hne].
        -- rewrite lookup_insert_eq. intros [= <-]. split; [done|].
           exists (S (visitorCounter st)). split; [lia | done].
        -- rewrite lookup_insert_ne by done. intros Hu'.
           destruct (Hval u' v' Hu') as (Hpre & k & Hk & ->).
           split; [done|]. exists k. split; [lia | done].
      * assert (Hnew : forall u' , alexaUserToVisitor st !! u'
                          = Some (alexaVisitorId (S (visitorCounter st))) -> False).
        { intros u' Hu'. destruct (Hval u' _ Hu') as (_ & k & Hk & Heq).
          apply alexaVisitorId_inj in Heq. lia. }
        intros u1 u2 v'.
        destruct (decide (u = u1)) as [<-|Hne1]; destruct (decide (u = u2)) as [<-|Hne2];
          rewrite ?lookup_insert_eq, ?lookup_insert_ne by done; try done.
        -- intros [= <-] H2. destruct (Hnew _ H2).
        -- intros H1 [= <-]. destruct (Hnew _ H1).
        -- apply Hinj.
      * rewrite map_size_insert_None by done. by rewrite Hsize.
  - rewrite (getVisitorId_web u st Hp). cbn [fst snd]. done.
Qed.

Lemma step_mapping_wf (clock : nat -> string) (r : Request) (st : Server) :
  mapping_wf st -> mapping_wf (step clock r st).
Proof.
  intros Hwf.
  destruct (step_effect clock r st)
    as [(_ & Ha & Hc & _) | (u & v & st1 & _ & _ & E1 & _ & Ha & Hc)].
  - by apply (mapping_wf_ext st).
  - apply (mapping_wf_ext st1); [done | done |].
    pose proof (proj1 (getVisitorId_wf u st Hwf)) as H. by rewrite E1 in H.
Qed.

Lemma initial_mapping_wf : mapping_wf initial.
Proof.
  split; [|split]; cbn.
  - intros u v. by rewrite lookup_empty.
  - intros u1 u2 v. by rewrite lookup_empty.
  - apply map_size_empty.
Qed.

Lemma step_keys_resolved (clock : nat -> string) (r : Request) (st : Server) :
  mapping_wf st -> keys_resolved st -> keys_resolved (step clock r st).
Proof.
  intros Hwf Hkeys.
  destruct (step_effect clock r st)
    as [(Hh & _ & _ & Hp) | (u & v & st1 & _ & _ & E1 & [[s Hh] Hp] & _)].
  - intros w. rewrite Hh, Hp. apply Hkeys.
  - pose proof (proj2 (getVisitorId_wf u st Hwf)) as Hv. rewrite E1 in Hv. cbn [fst] in Hv.
    intros w. destruct (decide (v = w)) as [<-|Hne]; [done|].
    rewrite Hh, lookup_insert_ne by done.
    destruct Hp as [-> | [p ->]]; rewrite ?lookup_insert_ne by done; apply Hkeys.
Qed.

(** X4.  In every state the server reaches, the identifier mapping holds
    Alexa identifiers only, each mapped to [alexa-user-k] with k between
    1 and the counter; two Alexa identifiers never share a visitor
    identifier; and the counter is the number of entries. *)
Theorem mapping_stays_well_formed :
  forall (clock : nat -> string) (rs : list Request),
    let st := run clock rs initial in
    (forall u v, alexaUserToVisitor st !! u = Some v ->
                 startsWith u "amzn1." = true
                 /\ exists k, 1 <= k <= visitorCounter st /\ v = alexaVisitorId k)
    /\ (forall u1 u2 v, alexaUserToVisitor st !! u1 = Some v ->
                        alexaUserToVisitor st !! u2 = Some v -> u1 = u2)
    /\ size (alexaUserToVisitor st) = visitorCounter st.
Proof.
  intros clock rs.
  apply (run_invariant clock mapping_wf (step_mapping_wf clock) rs initial),
    initial_mapping_wf.
Qed.

Lemma mapping_stays_well_formed_witness :
  let st := run sample_clock
              [GetHubState "amzn1.ask.account.A";
               PostHubReset (Some "amzn1.ask.account.B");
               GetHubState "amzn1.ask.account.A"] initial in
  alexaUserToVisitor st !! "amzn1.ask.account.B" = Some "alexa-user-2"
  /\ startsWith "amzn1.ask.account.B" "amzn1." = true
  /\ visitorCounter st = 2.
Proof.
  intros st.
  assert (H : alexaUserToVisitor st !! "amzn1.ask.account.B" = Some "alexa-user-2")
    by (vm_compute; reflexivity).
  destruct (mapping_stays_well_formed sample_clock
              [GetHubState "amzn1.ask.account.A";
               PostHubReset (Some "amzn1.ask.account.B");
               GetHubState "amzn1.ask.account.A"]) as (Hval & _ & Hsize).
  split; [exact H|]. split; [exact (proj1 (Hval _ _ H))|].
  reflexivity.
Defined.

(** X5.  In every state the server reaches, no hub state and no profile
    is stored under a raw Alexa identifier: the keys of the two stores
    are identifiers without the [amzn1.] prefix. *)
Theorem store_keys_are_visitor_ids :
  forall (clock : nat -> string) (rs : list Request) (v : string),
    is_Some (hubStateByVisitorId (run clock rs initial) !! v)
    \/ is_Some (registeredProfiles (run clock rs initial) !! v) ->
    startsWith v "amzn1." = false.
Proof.
  intros clock rs.
  assert (H : mapping_wf (run clock rs initial) /\ keys_resolved (run clock rs initial)).
  { apply (run_invariant clock (fun st => mapping_wf st /\ keys_resolved st)).
    - intros r st [Hwf Hk]. split; [by apply step_mapping_wf | by apply step_keys_resolved].
    - split; [apply initial_mapping_wf|].
      intros v. cbn. rewrite !lookup_empty. intros [[? ?] | [? ?]]; done. }
  exact (proj2 H).
Qed.

Lemma store_keys_are_visitor_ids_witness :
  let rs := [PostHubProfileRegister (Some "amzn1.ask.account.A") (Some "Mom")] in
  is_Some (registeredProfiles (run sample_clock rs initial) !! "alexa-user-1")
  /\ startsWith "alexa-user-1" "amzn1." = false.
Proof.
  intros rs.
  assert (H : is_Some (registeredProfiles (run sample_clock rs initial) !! "alexa-user-1"))
    by (apply (bool_decide_unpack _); vm_compute; exact I).
  split; [exact H|].
  exact (store_keys_are_visitor_ids sample_clock rs "alexa-user-1" (or_intror H)).
Defined.

(** ** Ordinary requests keep the stores ordinary *)

Lemma alexaVisitorId_ordinary (k : nat) : inherited_name (alexaVisitorId k) = false.
Proof.
  apply bool_decide_eq_false. unfold Object_prototype_names, alexaVisitorId. intros H.
  repeat (apply elem_of_cons in H as [H|H]; [discriminate H|]).
  by apply elem_of_nil in H.
Qed.

Lemma ordinary_request_userId (r : Request) (u : string) :
  ordinary_request r = true -> userId_of r = Some u -> inherited_name u = false.
Proof.
  destruct r as [req|userId| |userId n| |userId| |]; cbn [ordinary_request userId_of];
    try discriminate.
  - intros H Hu. rewrite Hu in H. cbn [ordinary_id] in H.
    repeat (apply andb_prop in H as [H ?]). by apply negb_true_iff.
  - intros H [= <-]. by apply negb_true_iff.
  - intros [H _]%andb_prop ->. by apply negb_true_iff.
  - intros H ->. by apply negb_true_iff.
Qed.

Lemma step_keys_ordinary (clock : nat -> string) (r : Request) (st : Server) :
  ordinary_request r = true ->
  mapping_wf st -> keys_ordinary st -> keys_ordinary (step clock r st).
Proof.
  intros Hr Hwf Hkeys.
  destruct (step_effect clock r st)
    as [(Hh & _ & _ & Hp) | (u & v & st1 & Hu & _ & E1 & [[s Hh] Hp] & _)].
  - intros w. rewrite Hh, Hp. apply Hkeys.
  - assert (Hv : inherited_name v = false).
    { pose proof (ordinary_request_userId r u Hr Hu) as Hord.
      destruct (startsWith u "amzn1.") eqn:Hpre.
      - destruct Hwf as (Hval & _).
        destruct (alexaUserToVisitor st !! u) as [w|] eqn:Hm.
        + destruct (Hval u w Hm) as (_ & k & _ & ->).
          rewrite (getVisitorId_known u _ st Hpre Hm (alexaVisitorId_truthy k)) in E1.
          injection E1 as <- _. apply alexaVisitorId_ordinary.
        + rewrite (getVisitorId_fresh u st Hpre Hm) in E1.
          injection E1 as <- _. apply alexaVisitorId_ordinary.
      - rewrite (getVisitorId_web u st Hpre) in E1. by injection E1 as <- _. }
    intros w. destruct (decide (v = w)) as [<-|Hne]; [done|].
    rewrite Hh, lookup_insert_ne by done.
    destruct Hp as [-> | [p ->]]; rewrite ?lookup_insert_ne by done; apply Hkeys.
Qed.

(** After ordinary requests no hub state and no profile is stored under
    the name of a property of [Object.prototype]: every lookup in the
    two stores finds an own property or nothing. *)
Lemma ordinary_requests_keys (clock : nat -> string) (rs : list Request) :
  ordinary_requests rs = true -> keys_ordinary (run clock rs initial).
Proof.
  intros Hrs.
  cut (mapping_wf (run clock rs initial) /\ keys_ordinary (run clock rs initial));
    [by intros [_ H]|].
  assert (Hinit : mapping_wf initial /\ keys_ordinary initial).
  { split; [apply initial_mapping_wf|]. intros v. cbn. rewrite !lookup_empty.
    by intros [[? ?] | [? ?]]. }
  revert Hrs Hinit. generalize initial as st.
  induction rs as [|r rs IH]; intros st Hrs Hst; [exact Hst|].
  cbn [ordinary_requests forallb] in Hrs. apply andb_prop in Hrs as [Hr Hrs].
  cbn [run foldl]. apply (IH (step clock r st) Hrs).
  destruct Hst as [Hwf Hkeys].
  split; [by apply step_mapping_wf | by apply step_keys_ordinary].
Qed.

(** ** Relations kept by every request *)

Section ByOperations.

Variable clock : nat -> string.
Variable R : relation Server.
Hypothesis R_refl : forall st, R st st.
Hypothesis R_trans : forall st1 st2 st3, R st1 st2 -> R st2 st3 -> R st1 st3.
Hypothesis R_getVisitorId : forall u st, R st (snd (getVisitorId u st)).
Hypothesis R_newDateISO : forall st, R st (snd (newDateISO clock st)).
Hypothesis R_storeHubState : forall v s st, R st (snd (storeHubState v s st)).
Hypothesis R_writeProfile : forall v n st, R st (snd (writeProfile clock v n st)).
Hypothesis R_touchLastSeen : forall v st, R st (snd (touchLastSeen clock v st)).

Lemma R_getOrCreateHubState (v : string) (st : Server) :
  R st (snd (getOrCreateHubState clock v st)).
Proof.
  unfold getOrCreateHubState. open_M.
  destruct (hubStateByVisitorId st !! v); [apply R_refl|].
  rewrite createDefaultHubState_eq.
  destruct (storeHubState v _ (snd (newDateISO clock st))) as [u st2] eqn:E. cbn [snd].
  eapply R_trans; [apply R_newDateISO|].
  pose proof (R_storeHubState v (defaultHubState v (clock (clockReads st)))
                (snd (newDateISO clock st))) as H.
  by rewrite E in H.
Qed.

Lemma R_applyDisplayName (v : string) (d : option string) (s : obj) (st : Server) :
  R st (snd (applyDisplayName clock v d s st)).
Proof.
  unfold applyDisplayName. destruct d as [n|]; [destruct (truthy n)|]; try apply R_refl.
  open_M. pose proof (R_writeProfile v n st) as H.
  destruct (writeProfile clock v n st) as [u st1]. exact H.
Qed.

(** A reflexive and transitive relation that the five store operations
    keep is kept by every request. *)
Lemma step_by_operations (r : Request) (st : Server) : R st (step clock r st).
Proof.
  destruct r as [req|userId| |userId n| |userId| |]; cbn [step]; try apply R_refl.
  - unfold post_hub_state.
    destruct (sr_userId req) as [u|]; [|apply R_refl].
    destruct (truthy u); [|apply R_refl]. cbn [negb]. open_M.
    pose proof (R_getVisitorId u st) as H1.
    destruct (getVisitorId u st) as [v st1]. cbn [snd] in H1.
    pose proof (R_getOrCreateHubState v st1) as H2.
    destruct (getOrCreateHubState clock v st1) as [s st2]. cbn [snd] in H2.
    match goal with |- context [applyDisplayName clock v ?d ?m st2] =>
      pose proof (R_applyDisplayName v d m st2) as H3;
      destruct (applyDisplayName clock v d m st2) as [named st3] end.
    cbn [snd] in H3.
    pose proof (R_newDateISO st3) as H4.
    destruct (newDateISO clock st3) as [t st4]. cbn [snd] in H4.
    match goal with |- context [storeHubState v ?x st4] =>
      pose proof (R_storeHubState v x st4) as H5;
      destruct (storeHubState v x st4) as [u5 st5] end.
    cbn [snd] in H5.
    pose proof (R_touchLastSeen v st5) as H6.
    destruct (touchLastSeen clock v st5) as [u6 st6]. cbn [snd] in H6 |- *.
    repeat (eapply R_trans; [eassumption|]); apply R_refl.
  - unfold get_hub_state. destruct (truthy userId); [|apply R_refl]. cbn [negb]. open_M.
    pose proof (R_getVisitorId userId st) as H1.
    destruct (getVisitorId userId st) as [v st1]. cbn [snd] in H1.
    pose proof (R_getOrCreateHubState v st1) as H2.
    destruct (getOrCreateHubState clock v st1) as [s st2]. cbn [snd] in H2 |- *.
    repeat (eapply R_trans; [eassumption|]); apply R_refl.
  - unfold post_hub_profile_register.
    destruct userId as [u|]; [|apply R_refl]. destruct n as [n|]; [|apply R_refl].
    destruct (truthy u); [|apply R_refl]. destruct (truthy n); [|apply R_refl].
    cbn [negb orb]. open_M.
    pose proof (R_getVisitorId u st) as H1.
    destruct (getVisitorId u st) as [v st1]. cbn [snd] in H1.
    pose proof (R_writeProfile v n st1) as H2.
    destruct (writeProfile clock v n st1) as [u2 st2]. cbn [snd] in H2.
    pose proof (R_getOrCreateHubState v st2) as H3.
    destruct (getOrCreateHubState clock v st2) as [s st3]. cbn [snd] in H3.
    match goal with |- context [storeHubState v ?x st3] =>
      pose proof (R_storeHubState v x st3) as H4;
      destruct (storeHubState v x st3) as [u4 st4] end.
    cbn [snd] in H4 |- *.
    repeat (eapply R_trans; [eassumption|]); apply R_refl.
  - unfold post_hub_reset.
    destruct userId as [u|]; [|apply R_refl].
    destruct (truthy u); [|apply R_refl]. cbn [negb]. open_M.
    pose proof (R_getVisitorId u st) as H1.
    destruct (getVisitorId u st) as [v st1]. cbn [snd] in H1.
    rewrite createDefaultHubState_eq.
    pose proof (R_newDateISO st1) as H2.
    match goal with |- context [storeHubState v ?x ?y] =>
      pose proof (R_storeHubState v x y) as H3;
      destruct (storeHubState v x y) as [u3 st3] end.
    cbn [snd] in H3 |- *.
    repeat (eapply R_trans; [eassumption|]); apply R_refl.
  - unfold get_health. open_M.
    pose proof (R_newDateISO st) as H1.
    destruct (newDateISO clock st) as [t st1]. cbn [snd] in H1 |- *. exact H1.
Qed.

End ByOperations.

Lemma run_relation (clock : nat -> string) (R : relation Server) :
  (forall st, R st st) ->
  (forall st1 st2 st3, R st1 st2 -> R st2 st3 -> R st1 st3) ->
  (forall r st, R st (step clock r st)) ->
  forall rs st, R st (run clock rs st).
Proof.
  intros Hrefl Htrans Hstep rs. induction rs as [|r rs IH]; intros st; [apply Hrefl|].
  cbn [run foldl]. eapply Htrans; [apply Hstep | apply IH].
Qed.

Section NothingForgotten.

Variable clock : nat -> string.

Lemma never_forgets_refl (st : Server) : never_forgets st st.
Proof. repeat split; auto. Qed.

Lemma never_forgets_trans (st1 st2 st3 : Server) :
  never_forgets st1 st2 -> never_forgets st2 st3 -> never_forgets st1 st3.
Proof.
  intros (H1 & H2 & H3 & H4 & H5) (K1 & K2 & K3 & K4 & K5).
  repeat split; [set_solver | set_solver | lia | lia | eauto].
Qed.

Lemma getVisitorId_counter (u : string) (st : Server) :
  visitorCounter st <= visitorCounter (snd (getVisitorId u st)).
Proof.
  unfold getVisitorId. destruct (startsWith u "amzn1."); cbn [negb]; [|done].
  open_M. destruct (alexaUserToVisitor st !! u) as [w|]; [destruct (truthy w)|];
    rewrite ?allocateVisitorId_eq; cbn; lia.
Qed.

Lemma getVisitorId_never_forgets (u : string) (st : Server) :
  never_forgets st (snd (getVisitorId u st)).
Proof.
  pose proof (getVisitorId_counter u st) as Hc.
  destruct (getVisitorId u st) as [v st1] eqn:E.
  destruct (getVisitorId_post _ _ _ _ E) as (Hh & Hp & Hr & Hkeep & _).
  cbn [snd] in *. repeat split; [by rewrite Hh | by rewrite Hp | done | lia | done].
Qed.

Lemma writeProfile_never_forgets (v n : string) (st : Server) :
  never_forgets st (snd (writeProfile clock v n st)).
Proof.
  destruct (writeProfile clock v n st) as [u st1] eqn:E.
  destruct (writeProfile_post _ _ _ _ _ _ E) as (Hh & Ha & Hn & Hp & Hr).
  cbn [snd]. repeat split;
    [by rewrite Hh | rewrite Hp, dom_insert_L; set_solver | lia | lia | by rewrite Ha].
Qed.

Lemma touchLastSeen_never_forgets (v : string) (st : Server) :
  never_forgets st (snd (touchLastSeen clock v st)).
Proof.
  destruct (touchLastSeen clock v st) as [u st1] eqn:E.
  destruct (touchLastSeen_post _ _ _ _ _ E) as (Hh & Ha & Hn & Hp).
  cbn [snd]. destruct (registeredProfiles st !! v) as [p|].
  - destruct Hp as [Hp Hr]. repeat split;
      [by rewrite Hh | rewrite Hp, dom_insert_L; set_solver | lia | lia | by rewrite Ha].
  - subst st1. apply never_forgets_refl.
Qed.

Lemma step_never_forgets (r : Request) (st : Server) :
  never_forgets st (step clock r st).
Proof.
  apply (step_by_operations clock never_forgets never_forgets_refl never_forgets_trans).
  - apply getVisitorId_never_forgets.
  - intros st0. repeat split; cbn; auto.
  - intros v s st0. repeat split; cbn; auto. rewrite dom_insert_L. set_solver.
  - apply writeProfile_never_forgets.
  - apply touchLastSeen_never_forgets.
Qed.

Lemma keeps_createdAt_refl (st : Server) : keeps_createdAt st st.
Proof. intros v p Hp _. eauto. Qed.

Lemma keeps_createdAt_trans (st1 st2 st3 : Server) :
  keeps_createdAt st1 st2 -> keeps_createdAt st2 st3 -> keeps_createdAt st1 st3.
Proof.
  intros H12 H23 v p Hp Ht.
  destruct (H12 v p Hp Ht) as (p2 & Hp2 & E2).
  destruct (H23 v p2 Hp2) as (p3 & Hp3 & E3); [by rewrite E2|].
  exists p3. split; [done | congruence].
Qed.

Lemma keeps_createdAt_same_profiles (st st' : Server) :
  registeredProfiles st' = registeredProfiles st -> keeps_createdAt st st'.
Proof. intros H v p Hp _. rewrite H. eauto. Qed.

Lemma writeProfile_keeps_createdAt (v n : string) (st : Server) :
  keeps_createdAt st (snd (writeProfile clock v n st)).
Proof.
  destruct (writeProfile clock v n st) as [u st1] eqn:E.
  destruct (writeProfile_post _ _ _ _ _ _ E) as (_ & _ & _ & Hp & _).
  cbn [snd]. intros w p Hw Ht. rewrite Hp.
  destruct (decide (v = w)) as [<-|Hne].
  - rewrite lookup_insert_eq. eexists. split; [reflexivity|].
    unfold writtenProfile. rewrite Hw, Ht. reflexivity.
  - rewrite lookup_insert_ne by done. eauto.
Qed.

Lemma touchLastSeen_keeps_createdAt (v : string) (st : Server) :
  keeps_createdAt st (snd (touchLastSeen clock v st)).
Proof.
  destruct (touchLastSeen clock v st) as [u st1] eqn:E.
  destruct (touchLastSeen_post _ _ _ _ _ E) as (_ & _ & _ & Hp).
  cbn [snd]. destruct (registeredProfiles st !! v) as [p0|] eqn:E0.
  - destruct Hp as [Hp _]. intros w p Hw Ht. rewrite Hp.
    destruct (decide (v = w)) as [<-|Hne].
    + rewrite lookup_insert_eq. eexists. split; [reflexivity|]. cbn. congruence.
    + rewrite lookup_insert_ne by done. eauto.
  - subst st1. apply keeps_createdAt_refl.
Qed.

Lemma step_keeps_createdAt (r : Request) (st : Server) :
  keeps_createdAt st (step clock r st).
Proof.
  apply (step_by_operations clock keeps_createdAt keeps_createdAt_refl
           keeps_createdAt_trans).
  - intros u st0. apply keeps_createdAt_same_profiles.
    destruct (getVisitorId u st0) as [v st1] eqn:E.
    by destruct (getVisitorId_post _ _ _ _ E) as (_ & Hp & _).
  - intros st0. by apply keeps_createdAt_same_profiles.
  - intros v s st0. by apply keeps_createdAt_same_profiles.
  - apply writeProfile_keeps_createdAt.
  - apply touchLastSeen_keeps_createdAt.
Qed.

End NothingForgotten.

(** X6.  No request deletes anything: after any sequence of requests the
    visitors that had a hub state still have one, the registered
    profiles are still registered, the counter has not decreased, and
    every entry of the identifier mapping (with a non-empty visitor
    identifier) is unchanged. *)
Theorem nothing_is_deleted :
  forall (clock : nat -> string) (rs : list Request) (st : Server),
    dom (hubStateByVisitorId st) ⊆ dom (hubStateByVisitorId (run clock rs st))
    /\ dom (registeredProfiles st) ⊆ dom (registeredProfiles (run clock rs st))
    /\ visitorCounter st <= visitorCounter (run clock rs st)
    /\ (forall u v, alexaUserToVisitor st !! u = Some v -> truthy v = true ->
                    alexaUserToVisitor (run clock rs st) !! u = Some v).
Proof.
  intros clock rs st.
  destruct (run_relation clock never_forgets never_forgets_refl never_forgets_trans
              (step_never_forgets clock) rs st) as (H1 & H2 & H3 & _ & H5).
  done.
Qed.

Lemma nothing_is_deleted_witness :
  let st := run sample_clock [GetHubState "amzn1.ask.account.A"] initial in
  let rs := [PostHubReset (Some "amzn1.ask.account.A");
             PostHubState {| sr_userId := Some "amzn1.ask.account.B";
                             sr_state := None; sr_displayName := None |}] in
  alexaUserToVisitor st !! "amzn1.ask.account.A" = Some "alexa-user-1"
  /\ truthy "alexa-user-1" = true
  /\ alexaUserToVisitor (run sample_clock rs st) !! "amzn1.ask.account.A"
     = Some "alexa-user-1".
Proof.
  intros st rs.
  assert (H : alexaUserToVisitor st !! "amzn1.ask.account.A" = Some "alexa-user-1")
    by (vm_compute; reflexivity).
  split; [exact H | split; [reflexivity|]].
  exact (proj2 (proj2 (proj2 (nothing_is_deleted sample_clock rs st))) _ _ H eq_refl).
Defined.

(** X7.  Once a profile has a (non-empty) creation time, no sequence of
    requests removes the profile or changes that time: neither another
    registration, nor a state update with or without a display name,
    nor a reset. *)
Theorem createdAt_is_fixed :
  forall (clock : nat -> string) (rs : list Request) (st : Server) (v : string) (p : Profile),
    registeredProfiles st !! v = Some p ->
    truthy (createdAt p) = true ->
    exists p', registeredProfiles (run clock rs st) !! v = Some p'
               /\ createdAt p' = createdAt p.
Proof.
  intros clock rs st.
  apply (run_relation clock keeps_createdAt keeps_createdAt_refl keeps_createdAt_trans
           (step_keeps_createdAt clock)).
Qed.

Lemma createdAt_is_fixed_witness :
  let st := run sample_clock [PostHubProfileRegister (Some "web-1") (Some "Mom")] initial in
  let rs := [PostHubState {| sr_userId := Some "web-1"; sr_state := None;
                             sr_displayName := Some "Grandpa Joe" |};
             PostHubReset (Some "web-1");
             PostHubProfileRegister (Some "web-1") (Some "Dad")] in
  let p := {| name := "Mom"; avatar := avatar_mother;
              createdAt := sample_clock 0; lastSeen := sample_clock 1 |} in
  registeredProfiles st !! "web-1" = Some p
  /\ truthy (createdAt p) = true
  /\ exists p', registeredProfiles (run sample_clock rs st) !! "web-1" = Some p'
                /\ createdAt p' = sample_clock 0.
Proof.
  intros st rs p.
  assert (H : registeredProfiles st !! "web-1" = Some p) by (vm_compute; reflexivity).
  split; [exact H | split; [reflexivity|]].
  exact (createdAt_is_fixed sample_clock rs st "web-1" p H eq_refl).
Defined.

(** ** Reading and updating a hub state *)

Section ReadAndUpdate.

Variable clock : nat -> string.

Lemma getOrCreateHubState_never_forgets (v : string) (st : Server) :
  never_forgets st (snd (getOrCreateHubState clock v st)).
Proof.
  apply (R_getOrCreateHubState clock never_forgets never_forgets_refl never_forgets_trans).
  - intros st0. repeat split; cbn; auto.
  - intros w s st0. repeat split; cbn; auto. rewrite dom_insert_L. set_solver.
Qed.

Lemma applyDisplayName_never_forgets (v : string) (d : option string) (s : obj)
    (st : Server) :
  never_forgets st (snd (applyDisplayName clock v d s st)).
Proof.
  apply (R_applyDisplayName clock never_forgets never_forgets_refl).
  apply writeProfile_never_forgets.
Qed.

(** The answer of a read, given what resolution and the accessor do. *)
Lemma get_hub_state_eq (userId v : string) (s : obj) (st st1 st2 : Server) :
  truthy userId = true ->
  getVisitorId userId st = (v, st1) ->
  getOrCreateHubState clock v st1 = (s, st2) ->
  get_hub_state clock userId st = ({| status := 200; body := VObj s |}, st2).
Proof.
  intros Hu E1 E2. unfold get_hub_state. rewrite Hu. cbn [negb]. open_M.
  rewrite E1, E2. reflexivity.
Qed.

(** Reading a visitor that is resolved and has a hub state returns that
    state and changes nothing. *)
Lemma get_hub_state_existing (userId v : string) (s : obj) (st : Server) :
  truthy userId = true ->
  getVisitorId userId st = (v, st) ->
  hubStateByVisitorId st !! v = Some s ->
  get_hub_state clock userId st = ({| status := 200; body := VObj s |}, st).
Proof.
  intros Hu E1 Hs. apply (get_hub_state_eq userId v s st st st Hu E1).
  unfold getOrCreateHubState. open_M. rewrite Hs. reflexivity.
Qed.

(** The answer and the stored state of a state update that passes
    validation. *)
Lemma post_hub_state_full (req : StateRequest) (userId v : string) (st st1 : Server) :
  sr_userId req = Some userId -> truthy userId = true ->
  getVisitorId userId st = (v, st1) ->
  let existing :=
    match hubStateByVisitorId st !! v with
    | Some s => s
    | None => defaultHubState v (clock (clockReads st))
    end in
  let merged := deepMerge existing (VObj (default ∅ (sr_state req))) in
  let named :=
    match sr_displayName req with
    | Some d => if truthy d then <["displayName" := VStr d]> merged else merged
    | None => merged
    end in
  let st' := snd (post_hub_state clock req st) in
  exists k,
    clockReads st <= k < clockReads st'
    /\ fst (post_hub_state clock req st)
       = stateResponse v (stampDebugInfo userId (clock k) named)
    /\ hubStateByVisitorId st' = <[v := stampDebugInfo userId (clock k) named]>
                                   (hubStateByVisitorId st).
Proof.
  intros Hreq Hu E1 existing merged named. unfold post_hub_state. rewrite Hreq, Hu.
  cbn [negb]. open_M. rewrite E1.
  pose proof (getVisitorId_never_forgets userId st) as N1. rewrite E1 in N1.
  pose proof (getOrCreateHubState_never_forgets v st1) as N2.
  destruct (getOrCreateHubState clock v st1) as [s st2] eqn:E2.
  match goal with |- context [applyDisplayName clock v ?d ?m st2] =>
    pose proof (applyDisplayName_never_forgets v d m st2) as N3 end.
  destruct (applyDisplayName clock v (sr_displayName req) _ st2) as [named' st3] eqn:E3.
  rewrite newDateISO_eq. unfold storeHubState. open_M.
  match goal with |- context [touchLastSeen clock v ?x] =>
    pose proof (touchLastSeen_never_forgets clock v x) as N5;
    destruct (touchLastSeen clock v x) as [u st5] eqn:E5 end.
  cbn [fst snd] in *.
  destruct (getVisitorId_post _ _ _ _ E1) as (H1h & _ & H1c & _).
  destruct (getOrCreateHubState_post _ _ _ _ _ E2) as (H2h & _ & _ & _ & H2s).
  destruct (applyDisplayName_post _ _ _ _ _ _ _ E3) as (H3h & _ & _ & H3p).
  destruct (touchLastSeen_post _ _ _ _ _ E5) as (H5h & _).
  cbn in H5h.
  assert (Hs : s = existing).
  { subst existing. rewrite H1h, H1c in H2s.
    destruct (hubStateByVisitorId st !! v); by destruct H2s as [-> _]. }
  assert (Hn : named' = named).
  { subst named merged. rewrite <- Hs.
    destruct (sr_displayName req) as [d|]; [destruct (truthy d)|]; by destruct H3p as [-> _]. }
  exists (clockReads st3). rewrite Hn.
  destruct N1 as (_ & _ & _ & C1 & _). destruct N2 as (_ & _ & _ & C2 & _).
  destruct N3 as (_ & _ & _ & C3 & _). destruct N5 as (_ & _ & _ & C5 & _).
  cbn in C5.
  split; [lia|]. split; [reflexivity|].
  rewrite H5h, H3h, H2h, H1h, Hn. apply insert_insert_eq.
Qed.

(** The profiles after a state update that passes validation and
    carries no display name. *)
Lemma post_hub_state_profiles_unnamed (req : StateRequest) (userId v : string)
    (st st1 : Server) :
  sr_userId req = Some userId -> truthy userId = true ->
  getVisitorId userId st = (v, st1) ->
  truthy (default "" (sr_displayName req)) = false ->
  let st' := snd (post_hub_state clock req st) in
  match registeredProfiles st !! v with
  | Some p =>
      exists k, clockReads st <= k < clockReads st'
                /\ registeredProfiles st' =
                   <[v := {| name := name p; avatar := avatar p;
                             createdAt := createdAt p; lastSeen := clock k |}]>
                     (registeredProfiles st)
  | None => registeredProfiles st' = registeredProfiles st
  end.
Proof.
  intros Hreq Hu E1 Hd. unfold post_hub_state. rewrite Hreq, Hu.
  cbn [negb]. open_M. rewrite E1.
  pose proof (getVisitorId_never_forgets userId st) as N1. rewrite E1 in N1.
  pose proof (getOrCreateHubState_never_forgets v st1) as N2.
  destruct (getOrCreateHubState clock v st1) as [s st2] eqn:E2.
  destruct (applyDisplayName clock v (sr_displayName req) _ st2) as [named' st3] eqn:E3.
  rewrite newDateISO_eq. unfold storeHubState. open_M.
  match goal with |- context [touchLastSeen clock v ?x] =>
    destruct (touchLastSeen clock v x) as [u st5] eqn:E5 end.
  cbn [fst snd] in *.
  destruct (getVisitorId_post _ _ _ _ E1) as (_ & H1p & _).
  destruct (getOrCreateHubState_post _ _ _ _ _ E2) as (_ & _ & _ & H2p & _).
  destruct (applyDisplayName_post _ _ _ _ _ _ _ E3) as (_ & _ & _ & H3p).
  destruct (touchLastSeen_post _ _ _ _ _ E5) as (_ & _ & _ & H5p).
  cbn in H5p.
  assert (H3 : st3 = st2).
  { destruct (sr_displayName req) as [d|]; cbn in Hd; [rewrite Hd in H3p|];
      by destruct H3p as [_ ->]. }
  subst st3. rewrite H2p, H1p in H5p.
  destruct N1 as (_ & _ & _ & C1 & _). destruct N2 as (_ & _ & _ & C2 & _).
  destruct (registeredProfiles st !! v) as [p|].
  - destruct H5p as [Hp Hc]. exists (S (clockReads st2)).
    split; [lia|]. rewrite Hp. reflexivity.
  - subst st5. cbn. congruence.
Qed.

End ReadAndUpdate.

(** X8.  Read your writes.  After ordinary requests, an ordinary state
    update stores a state that the next GET /hub/state for the same
    user returns, and that read changes nothing in the server.  The
    update answers 200 with that very state, unless the second log line
    throws because the stored [activeTile] or [lastAction] does not
    convert to a string: the update then answers 500, after the state
    has been stored. *)
Theorem post_then_get_returns_posted_state :
  forall (clock : nat -> string) (rs : list Request) (req : StateRequest) (userId : string),
    ordinary_requests rs = true -> ordinary_request (PostHubState req) = true ->
    sr_userId req = Some userId -> truthy userId = true ->
    let st := run clock rs initial in
    let st' := snd (post_hub_state clock req st) in
    exists (s : obj) (v : string),
      get_hub_state clock userId st' = ({| status := 200; body := VObj s |}, st')
      /\ (converts_to_string (get s "activeTile")
          && converts_to_string (get s "lastAction") = true ->
          fst (post_hub_state clock req st)
          = {| status := 200;
               body := VObj (list_to_map
                               [("ok", VBool true); ("state", VObj s);
                                ("visitorId", VStr v)]) |})
      /\ (converts_to_string (get s "activeTile")
          && converts_to_string (get s "lastAction") = false ->
          fst (post_hub_state clock req st)
          = {| status := 500;
               body := VObj (<["ok" := VBool false]>
                               (<["error" := VStr "Internal server error"]> ∅)) |}).
Proof.
  intros clock rs req userId _ _ Hreq Hu st. clearbody st. intros st'.
  destruct (getVisitorId userId st) as [v st1] eqn:E1.
  destruct (post_hub_state_full clock req userId v st st1 Hreq Hu E1) as (k & _ & Hr & Hh).
  destruct (post_hub_state_writes clock req userId v st st1 Hreq Hu E1) as (_ & Ha & _).
  fold st' in Hh, Ha.
  eexists _, v. split; [|split].
  - apply (get_hub_state_existing clock userId v); [done | |].
    + by apply (getVisitorId_stable userId v st st1 st').
    + rewrite Hh. apply lookup_insert_eq.
  - intros Hc. rewrite Hr. unfold stateResponse. by rewrite Hc.
  - intros Hc. rewrite Hr. unfold stateResponse. by rewrite Hc.
Qed.

Lemma post_then_get_returns_posted_state_witness :
  let req := {| sr_userId := Some "amzn1.ask.account.A";
                sr_state := Some (list_to_map [("activeTile", VStr "grocery")]);
                sr_displayName := Some "Mom" |} in
  let st' := snd (post_hub_state sample_clock req initial) in
  ordinary_requests [] = true /\ ordinary_request (PostHubState req) = true
  /\ truthy "amzn1.ask.account.A" = true
  /\ exists (s : obj) (v : string),
       get_hub_state sample_clock "amzn1.ask.account.A" st'
       = ({| status := 200; body := VObj s |}, st').
Proof.
  intros req st'.
  assert (Hr : ordinary_request (PostHubState req) = true) by (vm_compute; reflexivity).
  split; [reflexivity | split; [exact Hr | split; [reflexivity|]]].
  destruct (post_then_get_returns_posted_state sample_clock [] req
              "amzn1.ask.account.A" eq_refl Hr eq_refl eq_refl) as (s & v & H & _).
  exists s, v. exact H.
Defined.

(** X20.  After ordinary requests, an ordinary state update that passes
    validation always stores a state for the visitor.  It answers 500
    with the generic error exactly when the stored [activeTile] or
    [lastAction] does not convert to a string (a record with a property
    [toString], or an array that holds one): the second log line throws
    after the stores have been written.  Otherwise it answers 200. *)
Theorem state_update_fails_after_storing :
  forall (clock : nat -> string) (rs : list Request) (req : StateRequest) (userId : string),
    ordinary_requests rs = true -> ordinary_request (PostHubState req) = true ->
    sr_userId req = Some userId -> truthy userId = true ->
    let st := run clock rs initial in
    let v := fst (getVisitorId userId st) in
    let answer := fst (post_hub_state clock req st) in
    let st' := snd (post_hub_state clock req st) in
    exists s : obj,
      hubStateByVisitorId st' !! v = Some s
      /\ (status answer = 200 \/ status answer = 500)
      /\ (status answer = 500
          <-> converts_to_string (get s "activeTile")
              && converts_to_string (get s "lastAction") = false)
      /\ (status answer = 500 ->
          body answer = VObj (<["ok" := VBool false]>
                               (<["error" := VStr "Internal server error"]> ∅))).
Proof.
  intros clock rs req userId _ _ Hreq Hu st. clearbody st. intros v answer st'.
  destruct (getVisitorId userId st) as [v' st1] eqn:E1. cbn [fst] in v. subst v.
  destruct (post_hub_state_full clock req userId v' st st1 Hreq Hu E1) as (k & _ & Hr & Hh).
  fold st' in Hh. fold answer in Hr.
  eexists. split; [rewrite Hh; apply lookup_insert_eq|].
  rewrite Hr. unfold stateResponse.
  destruct (converts_to_string _ && converts_to_string _); cbn [status body].
  - split; [by left|]. split; [split; discriminate | discriminate].
  - split; [by right|]. split; [split; reflexivity | reflexivity].
Qed.

Lemma state_update_fails_after_storing_witness :
  let tile : value := VObj (list_to_map [("toString", VNum 1)]) in
  let req := {| sr_userId := Some "web-1";
                sr_state := Some (list_to_map [("activeTile", tile)]);
                sr_displayName := None |} in
  ordinary_requests [] = true /\ ordinary_request (PostHubState req) = true
  /\ truthy "web-1" = true
  /\ status (fst (post_hub_state sample_clock req initial)) = 500
  /\ exists s : obj,
       hubStateByVisitorId (snd (post_hub_state sample_clock req initial)) !! "web-1" = Some s
       /\ get s "activeTile" = tile.
Proof.
  intros tile req.
  assert (Hr : ordinary_request (PostHubState req) = true) by (vm_compute; reflexivity).
  split; [reflexivity | split; [exact Hr | split; [reflexivity|]]].
  destruct (state_update_fails_after_storing sample_clock [] req "web-1"
              eq_refl Hr eq_refl eq_refl) as (s & Hs & _ & Hfail & _).
  assert (Htile : get s "activeTile" = tile).
  { assert (E : (hubStateByVisitorId (snd (post_hub_state sample_clock req initial))
                   !! "web-1" ≫= (.!! "activeTile")) = Some tile)
      by (vm_compute; reflexivity).
    assert (Hs' : hubStateByVisitorId (snd (post_hub_state sample_clock req initial))
                    !! "web-1" = Some s) by exact Hs.
    rewrite Hs' in E. cbn [mbind option_bind] in E.
    unfold get. by rewrite E. }
  split; [|exists s; split; [exact Hs | exact Htile]].
  apply Hfail. rewrite Htile. reflexivity.
Defined.

(** X9.  A read is repeatable: after a GET /hub/state for a user, a
    second one returns the same answer and changes nothing. *)
Theorem get_hub_state_twice :
  forall (clock : nat -> string) (st : Server) (userId : string),
    let first := get_hub_state clock userId st in
    get_hub_state clock userId (snd first) = (fst first, snd first).
Proof.
  intros clock st userId first. subst first.
  destruct (truthy userId) eqn:Hu.
  - destruct (getVisitorId userId st) as [v st1] eqn:E1.
    destruct (getOrCreateHubState clock v st1) as [s st2] eqn:E2.
    rewrite (get_hub_state_eq clock userId v s st st1 st2 Hu E1 E2). cbn [fst snd].
    destruct (getOrCreateHubState_post _ _ _ _ _ E2) as (Hh & Ha & _).
    apply (get_hub_state_existing clock userId v); [done | |].
    + by apply (getVisitorId_stable userId v st st1 st2).
    + rewrite Hh. apply lookup_insert_eq.
  - unfold get_hub_state. rewrite Hu. reflexivity.
Qed.

(** X10.  After ordinary requests, an ordinary state update without a
    display name never registers a profile; when the visitor has one,
    the update only refreshes its [lastSeen] with a clock reading of
    this request and keeps name, avatar and creation time. *)
Theorem state_update_without_name_keeps_profile :
  forall (clock : nat -> string) (rs : list Request) (req : StateRequest) (userId : string),
    ordinary_requests rs = true -> ordinary_request (PostHubState req) = true ->
    sr_userId req = Some userId -> truthy userId = true ->
    sr_displayName req = None \/ sr_displayName req = Some "" ->
    let st := run clock rs initial in
    let v := fst (getVisitorId userId st) in
    let st' := snd (post_hub_state clock req st) in
    match registeredProfiles st !! v with
    | Some p =>
        exists k, clockReads st <= k < clockReads st'
                  /\ registeredProfiles st' =
                     <[v := {| name := name p; avatar := avatar p;
                               createdAt := createdAt p; lastSeen := clock k |}]>
                       (registeredProfiles st)
    | None => registeredProfiles st' = registeredProfiles st
    end.
Proof.
  intros clock rs req userId _ _ Hreq Hu Hd st. clearbody st. intros v st'.
  destruct (getVisitorId userId st) as [v' st1] eqn:E1. cbn [fst] in v. subst v.
  apply (post_hub_state_profiles_unnamed clock req userId v' st st1 Hreq Hu E1).
  by destruct Hd as [-> | ->].
Qed.

Lemma state_update_without_name_keeps_profile_witness :
  let req := {| sr_userId := Some "web-1";
                sr_state := Some (list_to_map [("activeTile", VStr "lights")]);
                sr_displayName := None |} in
  ordinary_requests [] = true /\ ordinary_request (PostHubState req) = true
  /\ sr_userId req = Some "web-1" /\ truthy "web-1" = true
  /\ registeredProfiles (snd (post_hub_state sample_clock req initial))
     = registeredProfiles initial.
Proof.
  intros req.
  assert (Hr : ordinary_request (PostHubState req) = true) by (vm_compute; reflexivity).
  split; [reflexivity | split; [exact Hr | split; [reflexivity | split; [reflexivity|]]]].
  exact (state_update_without_name_keeps_profile sample_clock [] req "web-1"
           eq_refl Hr eq_refl eq_refl (or_introl eq_refl)).
Defined.

(** ** Validation, registration and the debug record *)

(** X11.  The other handlers that validate their request body behave
    as POST /hub/state does: a registration without a user identifier
    or without a name and a reset without a user identifier answer 400
    with [{ok: false, error}] and leave the server exactly as it was. *)
Theorem invalid_requests_change_nothing :
  forall (clock : nat -> string) (st : Server),
    (forall userId name : option string,
        (userId = None \/ userId = Some "") \/ (name = None \/ name = Some "") ->
        post_hub_profile_register clock userId name st
        = ({| status := 400;
              body := VObj (<["ok" := VBool false]>
                              (<["error" := VStr "userId and name are required"]> ∅)) |},
           st))
    /\ (forall userId : option string,
          userId = None \/ userId = Some "" ->
          post_hub_reset clock userId st
          = ({| status := 400;
                body := VObj (<["ok" := VBool false]>
                                (<["error" := VStr "userId is required"]> ∅)) |},
             st)).
Proof.
  intros clock st. split.
  - intros userId name [[-> | ->] | [-> | ->]]; try reflexivity.
    + by destruct name.
    + by destruct userId.
    + destruct userId as [u|]; [|reflexivity].
      unfold post_hub_profile_register. by destruct (truthy u).
  - intros userId [-> | ->]; reflexivity.
Qed.

Lemma invalid_requests_change_nothing_witness :
  ((Some "web-1" = None \/ Some "web-1" = Some "") \/ (@None string = None \/ None = Some ""))
  /\ snd (post_hub_profile_register sample_clock (Some "web-1") None initial) = initial.
Proof.
  assert (H : (Some "web-1" = None \/ Some "web-1" = Some "")
              \/ (@None string = None \/ None = Some ""))
    by (right; left; reflexivity).
  split; [exact H|].
  exact (f_equal snd (proj1 (invalid_requests_change_nothing sample_clock initial)
                        (Some "web-1") None H)).
Defined.

Section RegistrationState.

Variable clock : nat -> string.

(** The hub state that a registration stores. *)
Lemma post_hub_profile_register_hub (userId n v : string) (st st1 : Server) :
  truthy userId = true -> truthy n = true ->
  getVisitorId userId st = (v, st1) ->
  let st' := snd (post_hub_profile_register clock (Some userId) (Some n) st) in
  exists existing,
    match hubStateByVisitorId st !! v with
    | Some s => existing = s
    | None => exists k, clockReads st <= k < clockReads st'
                        /\ existing = defaultHubState v (clock k)
    end
    /\ hubStateByVisitorId st' =
       <[v := <["profile" := VStr (toLowerCase n)]>
                (<["displayName" := VStr n]> existing)]> (hubStateByVisitorId st)
    /\ fst (post_hub_profile_register clock (Some userId) (Some n) st)
       = {| status := 200;
            body := VObj (list_to_map
                            [("ok", VBool true);
                             ("profile", profile_json (writtenProfile clock v n st));
                             ("visitorId", VStr v)]) |}.
Proof.
  intros Hu Hn E1. unfold post_hub_profile_register. rewrite Hu, Hn. cbn [negb orb].
  open_M. rewrite E1.
  pose proof (getVisitorId_never_forgets userId st) as N1. rewrite E1 in N1.
  pose proof (writeProfile_never_forgets clock v n st1) as N2.
  destruct (writeProfile clock v n st1) as [u st2] eqn:E2.
  destruct (getOrCreateHubState clock v st2) as [s st3] eqn:E3.
  unfold storeHubState. open_M. cbn [fst snd] in *.
  destruct (getVisitorId_post _ _ _ _ E1) as (H1h & H1p & H1c & _).
  destruct (writeProfile_post _ _ _ _ _ _ E2) as (H2h & _ & _ & H2p & _).
  destruct (getOrCreateHubState_post _ _ _ _ _ E3) as (H3h & _ & _ & H3p & H3s).
  destruct N1 as (_ & _ & _ & C1 & _). destruct N2 as (_ & _ & _ & C2 & _).
  exists s. rewrite H2h, H1h in H3s.
  split; [|split].
  - destruct (hubStateByVisitorId st !! v); destruct H3s as [-> H3c]; [done|].
    exists (clockReads st2). split; [cbn; lia | done].
  - cbn [hubStateByVisitorId with_hubStates]. rewrite H3h, H2h, H1h.
    apply insert_insert_eq.
  - cbn [registeredProfiles with_hubStates]. rewrite H3p, H2p, lookup_insert_eq.
    cbn [from_option]. rewrite (writtenProfile_ext clock v n st st1 H1p H1c). reflexivity.
Qed.

End RegistrationState.

(** X12.  After ordinary requests, an ordinary registration (the name
    is ASCII text) writes the display name and its lower-cased form into
    the hub state of the visitor and keeps every other field the
    visitor's hub state had; its answer carries the profile that it
    stored. *)
Theorem registration_updates_hub_state :
  forall (clock : nat -> string) (rs : list Request) (userId n : string) (s : obj),
    ordinary_requests rs = true ->
    ordinary_request (PostHubProfileRegister (Some userId) (Some n)) = true ->
    truthy userId = true -> truthy n = true ->
    let st := run clock rs initial in
    let v := fst (getVisitorId userId st) in
    hubStateByVisitorId st !! v = Some s ->
    let answer := fst (post_hub_profile_register clock (Some userId) (Some n) st) in
    let st' := snd (post_hub_profile_register clock (Some userId) (Some n) st) in
    exists s' p,
      hubStateByVisitorId st' !! v = Some s'
      /\ s' !! "displayName" = Some (VStr n)
      /\ s' !! "profile" = Some (VStr (toLowerCase n))
      /\ (forall key, key <> "displayName" -> key <> "profile" -> s' !! key = s !! key)
      /\ registeredProfiles st' !! v = Some p
      /\ answer = {| status := 200;
                     body := VObj (list_to_map
                                     [("ok", VBool true); ("profile", profile_json p);
                                      ("visitorId", VStr v)]) |}.
Proof.
  intros clock rs userId n s _ _ Hu Hn st. clearbody st. intros v Hs answer st'.
  destruct (getVisitorId userId st) as [v' st1] eqn:E1. cbn [fst] in v. subst v.
  destruct (post_hub_profile_register_hub clock userId n v' st st1 Hu Hn E1)
    as (existing & Hex & Hh & Hr).
  destruct (post_hub_profile_register_post clock userId n v' st st1 Hu Hn E1)
    as (_ & _ & Hp & _).
  rewrite Hs in Hex. subst existing. fold st' in Hh, Hp. fold answer in Hr.
  eexists _, _. split; [rewrite Hh; apply lookup_insert_eq|].
  split; [by rewrite lookup_insert_ne, lookup_insert_eq|].
  split; [by rewrite lookup_insert_eq|].
  split; [intros key H1 H2; by rewrite !lookup_insert_ne|].
  split; [rewrite Hp; apply lookup_insert_eq | exact Hr].
Qed.

Lemma registration_updates_hub_state_witness :
  let rs := [PostHubState
               {| sr_userId := Some "web-1";
                  sr_state := Some (list_to_map [("groceryList", VArr [VStr "milk"])]);
                  sr_displayName := None |}] in
  let st := run sample_clock rs initial in
  let st' := snd (post_hub_profile_register sample_clock (Some "web-1") (Some "Mom") st) in
  ordinary_requests rs = true
  /\ ordinary_request (PostHubProfileRegister (Some "web-1") (Some "Mom")) = true
  /\ truthy "web-1" = true /\ truthy "Mom" = true
  /\ exists s s',
       hubStateByVisitorId st !! "web-1" = Some s
       /\ hubStateByVisitorId st' !! "web-1" = Some s'
       /\ s' !! "groceryList" = s !! "groceryList".
Proof.
  intros rs st st'.
  assert (Hrs : ordinary_requests rs = true) by (vm_compute; reflexivity).
  assert (Hr : ordinary_request (PostHubProfileRegister (Some "web-1") (Some "Mom")) = true)
    by (vm_compute; reflexivity).
  split; [exact Hrs | split; [exact Hr |]].
  split; [reflexivity | split; [reflexivity|]].
  assert (Hs : is_Some (hubStateByVisitorId st !! "web-1"))
    by (apply (bool_decide_unpack _); vm_compute; exact I).
  destruct Hs as [s Hs].
  destruct (registration_updates_hub_state sample_clock rs "web-1" "Mom" s
              Hrs Hr eq_refl eq_refl Hs) as (s' & p & H1 & _ & _ & Hkeep & _).
  exists s, s'. split; [exact Hs | split; [exact H1|]].
  apply Hkeep; discriminate.
Defined.

(** ** The fields of an updated state *)

Lemma substring0_length (n : nat) (s : string) :
  String.length (substring0 n s) <= n.
Proof.
  unfold substring0. revert s. induction n as [|n IH]; intros [|c s]; cbn; try lia.
  specialize (IH s). lia.
Qed.

Lemma substring0_prefix (n : nat) (s : string) :
  String.prefix (substring0 n s) s = true.
Proof.
  unfold substring0. revert s. induction n as [|n IH]; intros [|c s]; cbn; try reflexivity.
  destruct (Ascii.ascii_dec c c); [apply IH | congruence].
Qed.

Lemma stampDebugInfo_debugInfo (userId t : string) (s : obj) :
  stampDebugInfo userId t s !! "debugInfo"
  = Some (set_prop
            (set_prop
               (set_prop (if truthy_value (get s "debugInfo")
                          then get s "debugInfo" else VObj ∅)
                  "lastUpdated" (VStr t))
               "isAlexaUser" (VBool (startsWith userId "amzn1.")))
            "originalAlexaId"
            (if startsWith userId "amzn1."
             then VStr (substring0 30 userId +:+ "...") else VNull)).
Proof. unfold stampDebugInfo. apply lookup_insert_eq. Qed.

(** X13.  After ordinary requests, a successful ordinary state update
    stores, for every field other than [debugInfo] and [displayName],
    what the merge rule gives for the stored (or default) state and the
    update: a field the update does not mention keeps its stored
    value. *)
Theorem state_update_merges_fields :
  forall (clock : nat -> string) (rs : list Request) (req : StateRequest)
         (userId key : string),
    ordinary_requests rs = true -> ordinary_request (PostHubState req) = true ->
    sr_userId req = Some userId -> truthy userId = true ->
    key <> "debugInfo" -> key <> "displayName" ->
    let st := run clock rs initial in
    let v := fst (getVisitorId userId st) in
    let existing :=
      match hubStateByVisitorId st !! v with
      | Some s => s
      | None => defaultHubState v (clock (clockReads st))
      end in
    let stored := hubStateByVisitorId (snd (post_hub_state clock req st)) !! v in
    (stored ≫= (.!! key))
    = merge_rule (existing !! key) (default ∅ (sr_state req) !! key)
    /\ (default ∅ (sr_state req) !! key = None -> (stored ≫= (.!! key)) = existing !! key).
Proof.
  intros clock rs req userId key _ _ Hreq Hu Hk1 Hk2 st. clearbody st.
  intros v existing stored.
  destruct (getVisitorId userId st) as [v' st1] eqn:E1. cbn [fst] in v. subst v.
  destruct (post_hub_state_stored clock req userId v' st st1 Hreq Hu E1) as [t Ht].
  fold existing in Ht.
  assert (H : (stored ≫= (.!! key))
              = merge_rule (existing !! key) (default ∅ (sr_state req) !! key)).
  { subst stored. rewrite Ht. cbn [mbind option_bind].
    rewrite stampDebugInfo_lookup_ne by done.
    rewrite <- deepMerge_lookup.
    destruct (sr_displayName req) as [d|]; [destruct (truthy d)|]; try reflexivity.
    by rewrite lookup_insert_ne. }
  split; [exact H|]. intros Hnone. rewrite Hnone in H. exact H.
Qed.

Lemma state_update_merges_fields_witness :
  let req := {| sr_userId := Some "web-1";
                sr_state := Some (list_to_map [("activeTile", VStr "grocery")]);
                sr_displayName := None |} in
  let stored := hubStateByVisitorId (snd (post_hub_state sample_clock req initial))
                  !! "web-1" in
  ordinary_requests [] = true /\ ordinary_request (PostHubState req) = true
  /\ truthy "web-1" = true
  /\ "privacy" <> "debugInfo" /\ "privacy" <> "displayName"
  /\ (stored ≫= (.!! "privacy")) = defaultHubState "web-1" (sample_clock 0) !! "privacy".
Proof.
  intros req stored.
  assert (Hr : ordinary_request (PostHubState req) = true) by (vm_compute; reflexivity).
  assert (H1 : "privacy" <> "debugInfo") by discriminate.
  assert (H2 : "privacy" <> "displayName") by discriminate.
  split; [reflexivity | split; [exact Hr |]].
  split; [reflexivity | split; [exact H1 | split; [exact H2|]]].
  exact (proj2 (state_update_merges_fields sample_clock [] req "web-1" "privacy"
                  eq_refl Hr eq_refl eq_refl H1 H2) eq_refl).
Defined.

(** The three assignments of lines 202-204 on the value that line 201
    leaves in [debugInfo]. *)
Lemma stamp_fields (m : value) (t : string) (a : bool) (oid : value) :
  let d := set_prop
             (set_prop
                (set_prop (if truthy_value m then m else VObj ∅) "lastUpdated" (VStr t))
                "isAlexaUser" (VBool a))
             "originalAlexaId" oid in
  (is_plain_object m = true \/ truthy_value m = false ->
   getv d "lastUpdated" = VStr t
   /\ getv d "isAlexaUser" = VBool a
   /\ getv d "originalAlexaId" = oid
   /\ (forall key, key <> "lastUpdated" -> key <> "isAlexaUser" ->
                   key <> "originalAlexaId" -> is_plain_object m = true ->
                   getv d key = getv m key))
  /\ (is_plain_object m = false -> truthy_value m = true -> d = m).
Proof.
  intros d. subst d. split.
  - intros Hcase.
    assert (Ho : exists o, (if truthy_value m then m else VObj ∅) = VObj o
                           /\ (is_plain_object m = true -> m = VObj o)).
    { destruct m as [| |b|n|s|l|o]; cbn in Hcase |- *.
      - exists ∅. split; [reflexivity | discriminate].
      - exists ∅. split; [reflexivity | discriminate].
      - destruct Hcase as [Hcase | ->]; [discriminate Hcase|].
        exists ∅. split; [reflexivity | discriminate].
      - destruct Hcase as [Hcase | ->]; [discriminate Hcase|].
        exists ∅. split; [reflexivity | discriminate].
      - destruct Hcase as [Hcase | ->]; [discriminate Hcase|].
        exists ∅. split; [reflexivity | discriminate].
      - destruct Hcase as [Hcase | Hcase]; discriminate Hcase.
      - exists o. split; reflexivity. }
    destruct Ho as (o & -> & Hm). cbn [set_prop getv]. unfold get.
    split; [do 2 (rewrite lookup_insert_ne by done); by rewrite lookup_insert_eq|].
    split; [rewrite lookup_insert_ne by done; by rewrite lookup_insert_eq|].
    split; [by rewrite lookup_insert_eq|].
    intros key H1 H2 H3 Hobj. rewrite (Hm Hobj). cbn [getv]. unfold get.
    by do 3 (rewrite lookup_insert_ne by done).
  - intros Hobj Htruthy. rewrite Htruthy.
    destruct m; cbn in Hobj |- *; (reflexivity || discriminate).
Qed.

(** X14.  After ordinary requests, a successful ordinary state update
    stamps the debug record of the stored state.  When the merged state
    holds a record there, or nothing truthy, the stored debug record has
    [lastUpdated] set to a clock reading of this request, [isAlexaUser]
    telling whether the user identifier has the [amzn1.] prefix, and
    [originalAlexaId] null or, for an Alexa identifier (ASCII text), its
    first thirty characters followed by ["..."].  When the update has
    put a truthy value that is not a record there, that value is stored
    as it is and the stamp is lost. *)
Theorem debug_record_is_stamped :
  forall (clock : nat -> string) (rs : list Request) (req : StateRequest) (userId : string),
    ordinary_requests rs = true -> ordinary_request (PostHubState req) = true ->
    sr_userId req = Some userId -> truthy userId = true ->
    let st := run clock rs initial in
    let v := fst (getVisitorId userId st) in
    let existing :=
      match hubStateByVisitorId st !! v with
      | Some s => s
      | None => defaultHubState v (clock (clockReads st))
      end in
    let merged := get (deepMerge existing (VObj (default ∅ (sr_state req)))) "debugInfo" in
    let st' := snd (post_hub_state clock req st) in
    exists (k : nat) (debugInfo : value),
      clockReads st <= k < clockReads st'
      /\ (hubStateByVisitorId st' !! v ≫= (.!! "debugInfo")) = Some debugInfo
      /\ (is_plain_object merged = true \/ truthy_value merged = false ->
          getv debugInfo "lastUpdated" = VStr (clock k)
          /\ getv debugInfo "isAlexaUser" = VBool (startsWith userId "amzn1.")
          /\ getv debugInfo "originalAlexaId"
             = (if startsWith userId "amzn1."
                then VStr (substring0 30 userId +:+ "...") else VNull)
          /\ (forall key, key <> "lastUpdated" -> key <> "isAlexaUser" ->
                          key <> "originalAlexaId" -> is_plain_object merged = true ->
                          getv debugInfo key = getv merged key))
      /\ (is_plain_object merged = false -> truthy_value merged = true ->
          debugInfo = merged)
      /\ (startsWith userId "amzn1." = true ->
          String.length (substring0 30 userId) <= 30
          /\ String.prefix (substring0 30 userId) userId = true).
Proof.
  intros clock rs req userId _ _ Hreq Hu st. clearbody st.
  intros v existing merged st'.
  destruct (getVisitorId userId st) as [v' st1] eqn:E1. cbn [fst] in v. subst v.
  destruct (post_hub_state_full clock req userId v' st st1 Hreq Hu E1) as (k & Hk & _ & Hh).
  fold existing st' in Hh, Hk.
  set (named := match sr_displayName req with
                | Some d => if truthy d
                            then <["displayName" := VStr d]>
                                   (deepMerge existing (VObj (default ∅ (sr_state req))))
                            else deepMerge existing (VObj (default ∅ (sr_state req)))
                | None => deepMerge existing (VObj (default ∅ (sr_state req)))
                end) in *.
  assert (Hnamed : get named "debugInfo" = merged).
  { subst named merged. unfold get.
    destruct (sr_displayName req) as [d|]; [destruct (truthy d)|]; try reflexivity.
    by rewrite lookup_insert_ne. }
  eexists k, _. split; [exact Hk|]. split.
  { rewrite Hh, lookup_insert_eq. cbn [mbind option_bind].
    rewrite stampDebugInfo_debugInfo, Hnamed. reflexivity. }
  pose proof (stamp_fields merged (clock k) (startsWith userId "amzn1.")
                (if startsWith userId "amzn1."
                 then VStr (substring0 30 userId +:+ "...") else VNull)) as [Hs1 Hs2].
  split; [exact Hs1|]. split; [exact Hs2|].
  intros _. split; [apply substring0_length | apply substring0_prefix].
Qed.

Lemma debug_record_is_stamped_witness :
  let userId := "amzn1.ask.account.AAAAAAAAAAAAAAAAAAAAAAAAAAAAAAAAAAAAAAAA" in
  let req := {| sr_userId := Some userId; sr_state := None; sr_displayName := None |} in
  let st' := snd (post_hub_state sample_clock req initial) in
  ordinary_requests [] = true /\ ordinary_request (PostHubState req) = true
  /\ truthy userId = true
  /\ exists (k : nat) (debugInfo : value),
       (hubStateByVisitorId st' !! "alexa-user-1" ≫= (.!! "debugInfo")) = Some debugInfo
       /\ getv debugInfo "isAlexaUser" = VBool true
       /\ getv debugInfo "originalAlexaId" = VStr "amzn1.ask.account.AAAAAAAAAAAA...".
Proof.
  intros userId req st'.
  assert (Hr : ordinary_request (PostHubState req) = true) by (vm_compute; reflexivity).
  split; [reflexivity | split; [exact Hr | split; [reflexivity|]]].
  destruct (debug_record_is_stamped sample_clock [] req userId eq_refl Hr eq_refl eq_refl)
    as (k & d & _ & Hd & Hstamp & _).
  destruct (Hstamp (or_introl eq_refl)) as (_ & Ha & Ho & _).
  exists k, d. split; [exact Hd | split; [exact Ha | exact Ho]].
Defined.

(** ** Health and the list of profiles *)


Lemma registered_profile_state (clock : nat -> string) (rs : list Request) (v : string) :
  is_Some (registeredProfiles (run clock rs initial) !! v) ->
  is_Some (hubStateByVisitorId (run clock rs initial) !! v).
Proof.
  apply run_preserves. intros w. cbn. rewrite lookup_empty. by intros [? ?].
Qed.

(** X16.  In every state the server reaches through ordinary requests,
    the entry that GET /hub/profiles builds for a registered profile
    carries the hub state of that visitor: its [state] field is a
    record, never null. *)
Theorem profile_entries_have_state :
  forall (clock : nat -> string) (rs : list Request) (v : string) (p : Profile),
    ordinary_requests rs = true ->
    let st := run clock rs initial in
    registeredProfiles st !! v = Some p ->
    exists s, hubStateByVisitorId st !! v = Some s
              /\ getv (profilesEntry st v p) "state" = VObj s
              /\ getv (profilesEntry st v p) "visitorId" = VStr v
              /\ getv (profilesEntry st v p) "name" = VStr (name p)
              /\ getv (profilesEntry st v p) "avatar" = VStr (avatar p).
Proof.
  intros clock rs v p _ st Hp. subst st.
  destruct (registered_profile_state clock rs v) as [s Hs]; [by rewrite Hp|].
  exists s. split; [exact Hs|].
  unfold profilesEntry. rewrite Hs. repeat split.
Qed.

Lemma profile_entries_have_state_witness :
  let rs := [PostHubState {| sr_userId := Some "amzn1.ask.account.A"; sr_state := None;
                             sr_displayName := Some "Papa" |}] in
  let st := run sample_clock rs initial in
  let p := {| name := "Papa"; avatar := avatar_father;
              createdAt := sample_clock 1; lastSeen := sample_clock 4 |} in
  ordinary_requests rs = true
  /\ registeredProfiles st !! "alexa-user-1" = Some p
  /\ exists s, getv (profilesEntry st "alexa-user-1" p) "state" = VObj s.
Proof.
  intros rs st p.
  assert (Hrs : ordinary_requests rs = true) by (vm_compute; reflexivity).
  assert (H : registeredProfiles st !! "alexa-user-1" = Some p) by (vm_compute; reflexivity).
  split; [exact Hrs | split; [exact H|]].
  destruct (profile_entries_have_state sample_clock rs "alexa-user-1" p Hrs H)
    as (s & _ & Hs & _).
  exists s. exact Hs.
Defined.

(** ** A new hub state on the heap *)

Module NewState.
Import Heap HeapFacts.

Lemma flat_holds_no_reference (o : obj) : holds_no_reference (flat o).
Proof.
  intros key l. cbn. rewrite lookup_fmap. by destruct (o !! key).
Qed.

(** The cells that the creation of a default state appends. *)
Lemma createDefaultHubState_concrete (v t : string) (h : heap) :
  catalog_intact h ->
  createDefaultHubState v t h =
  (length h + 6,
   h ++ [ flat (list_to_map [("lights", VNull); ("thermostat", VNull); ("reminder", VNull)]);
          CArr [];
          flat (list_to_map [("microphoneEnabled", VBool true);
                             ("allowVoiceHistory", VBool true);
                             ("lastHistoryDelete", VNull)]);
          CArr (HRef <$> seq 0 (length DEFAULT_TASKS));
          CArr [];
          flat (list_to_map [("lastUpdated", VStr t); ("lastAlexaRequest", VNull);
                             ("isAlexaUser", VBool (startsWith v "alexa-user-"))]);
          CObj (list_to_map
                  [ ("visitorId", HPrim (VStr v));
                    ("odisplayName", HPrim VNull);
                    ("activeTile", HPrim (VStr "home"));
                    ("lastAction", HPrim (VStr "NONE"));
                    ("profile", HPrim (VStr "default"));
                    ("routineResult", HRef (length h));
                    ("groceryList", HRef (length h + 1));
                    ("pendingItem", HPrim VNull);
                    ("privacy", HRef (length h + 2));
                    ("tasks", HRef (length h + 3));
                    ("customTasks", HRef (length h + 4));
                    ("debugInfo", HRef (length h + 5)) ]) ]).
Proof.
  intros Hint. pose proof (catalog_intact_length h Hint) as Hlen.
  pose proof (catalog_intact_array h Hint) as Harr.
  unfold createDefaultHubState, spread, alloc.
  unfold mbind, H_bind, mret, H_ret. cbv beta iota.
  rewrite !lookup_app_l by (rewrite ?length_app; cbn [length]; lia).
  rewrite Harr. cbv beta iota.
  rewrite !length_app. cbn [length]. rewrite <- !(assoc_L (++)). cbn [app].
  replace (length h + 1 + 1 + 1 + 1 + 1 + 1) with (length h + 6) by lia.
  replace (length h + 1 + 1 + 1 + 1 + 1) with (length h + 5) by lia.
  replace (length h + 1 + 1 + 1 + 1) with (length h + 4) by lia.
  replace (length h + 1 + 1 + 1) with (length h + 3) by lia.
  replace (length h + 1 + 1) with (length h + 2) by lia.
  reflexivity.
Qed.

Lemma lookup_appended (h more : heap) (i : nat) :
  (h ++ more) !! (length h + i) = more !! i.
Proof. rewrite lookup_app_r by lia. f_equal. lia. Qed.

Lemma toJSON_flat_ref (d : nat) (h : heap) (l : loc) (o : obj) :
  h !! l = Some (flat o) -> toJSON (S d) h (HRef l) = VObj o.
Proof. intros H. cbn [toJSON]. rewrite H. unfold flat. by rewrite toJSON_flat. Qed.

Lemma toJSON_empty_array (d : nat) (h : heap) (l : loc) :
  h !! l = Some (CArr []) -> toJSON (S d) h (HRef l) = VArr [].
Proof. intros H. cbn [toJSON]. by rewrite H. Qed.

End NewState.

(** X17.  On any heap on which the catalog is intact, creating a default
    hub state writes no existing cell; the new state serialises to the
    default JSON value; every record and list the state refers to is
    allocated by the call; and of these only the task list holds
    references, which are those of the catalog array.  So two hub states
    share the six task records and nothing else. *)
Theorem new_state_shares_only_task_records :
  forall (h : Heap.heap) (v t : string),
    catalog_intact h ->
    let s := fst (Heap.createDefaultHubState v t h) in
    let h' := snd (Heap.createDefaultHubState v t h) in
    Heap.toJSON 3 h' (Heap.HRef s) = VObj (defaultHubState v t)
    /\ (forall l, l < length h -> h' !! l = h !! l)
    /\ (exists props, h' !! s = Some (Heap.CObj props)
                      /\ forall key l, props !! key = Some (Heap.HRef l) ->
                                       length h <= l < s)
    /\ (forall l c, length h <= l < s -> l <> length h + 3 -> h' !! l = Some c ->
                    holds_no_reference c)
    /\ h' !! (length h + 3) = h' !! Heap.DEFAULT_TASKS_loc.
Proof.
  intros h v t Hint s h'. subst s h'.
  pose proof (HeapFacts.catalog_intact_length h Hint) as Hlen.
  pose proof (CatalogSharing.created_tasks v t h Hint) as (_ & Htasks & Hint' & Hold & _).
  pose proof (HeapFacts.tasks_json_catalog _ _ Hint' Htasks) as Hjson.
  pose proof (HeapFacts.catalog_intact_array _ Hint') as Hcat.
  rewrite (NewState.createDefaultHubState_concrete v t h Hint) in *.
  cbn [fst snd] in *.
  set (cells := [_; _; _; _; _; _; _]) in *.
  assert (Hc : forall i, (h ++ cells) !! (length h + i) = cells !! i)
    by (intros i; apply NewState.lookup_appended).
  split.
  { change (Heap.toJSON 3 (h ++ cells) (Heap.HRef (length h + 6)))
      with (match (h ++ cells) !! (length h + 6) with
            | Some (Heap.CObj props) => VObj (Heap.toJSON 2 (h ++ cells) <$> props)
            | Some (Heap.CArr elems) => VArr (Heap.toJSON 2 (h ++ cells) <$> elems)
            | None => VUndefined
            end).
    rewrite Hc. cbn [cells lookup list_lookup]. f_equal.
    rewrite <- list_to_map_fmap. cbn [fmap list_fmap prod_map fst snd id].
    pose proof (Hc 0) as Hc0. rewrite Nat.add_0_r in Hc0.
    rewrite (NewState.toJSON_flat_ref 1 _ (length h) _ Hc0).
    rewrite (NewState.toJSON_empty_array 1 _ (length h + 1) (Hc 1)).
    rewrite (NewState.toJSON_flat_ref 1 _ (length h + 2) _ (Hc 2)).
    change (Heap.toJSON 2 (h ++ cells) (Heap.HRef (length h + 3)))
      with (Heap.tasks_json (h ++ cells) (length h + 3)).
    rewrite Hjson.
    rewrite (NewState.toJSON_empty_array 1 _ (length h + 4) (Hc 4)).
    rewrite (NewState.toJSON_flat_ref 1 _ (length h + 5) _ (Hc 5)).
    reflexivity. }
  split; [exact Hold|].
  split.
  { eexists. split; [rewrite Hc; reflexivity|].
    intros key l Hl. apply elem_of_list_to_map_2 in Hl.
    repeat (apply elem_of_cons in Hl as [Hl|Hl]; [simplify_eq; lia|]).
    by apply elem_of_nil in Hl. }
  split; [|congruence].
  intros l c Hl Hne Hcell.
  assert (Hi : exists i, l = length h + i /\ i < 6 /\ i <> 3) by (exists (l - length h); lia).
  destruct Hi as (i & -> & Hi & Hi3). rewrite Hc in Hcell.
  do 6 (destruct i as [|i]; [cbn in Hcell; injection Hcell as <-;
          first [apply NewState.flat_holds_no_reference
                | (intros x Hx; by apply elem_of_nil in Hx) | lia]|]).
  lia.
Qed.

Lemma new_state_shares_only_task_records_witness :
  let h' := snd (Heap.createDefaultHubState "web-1" (sample_clock 0) Heap.module_heap) in
  catalog_intact Heap.module_heap
  /\ Heap.toJSON 3 h' (Heap.HRef 13) = VObj (defaultHubState "web-1" (sample_clock 0))
  /\ h' !! 10 = h' !! Heap.DEFAULT_TASKS_loc.
Proof.
  intros h'.
  assert (Hint : catalog_intact Heap.module_heap) by (intros i _; reflexivity).
  destruct (new_state_shares_only_task_records Heap.module_heap "web-1" (sample_clock 0) Hint)
    as (H1 & _ & _ & _ & H2).
  split; [exact Hint | split; [exact H1 | exact H2]].
Defined.

(** ** Keywords that never decide *)

Lemma string_app_assoc (a b c : string) : (a +:+ b) +:+ c = a +:+ b +:+ c.
Proof.
  induction a as [|x a IH]; [reflexivity|].
  change ((String x a +:+ b) +:+ c) with (String x ((a +:+ b) +:+ c)).
  change (String x a +:+ b +:+ c) with (String x (a +:+ b +:+ c)). by rewrite IH.
Qed.

(** A text that contains [a +:+ b] contains [b]. *)
Lemma includes_suffix (s a b : string) :
  includes s (a +:+ b) = true -> includes s b = true.
Proof.
  rewrite !includes_spec. intros (l & r & ->).
  exists (l +:+ a), r. by rewrite !string_app_assoc.
Qed.

(** X18.  The keywords "grandmother" and "grandfather" never decide the
    avatar: a name that contains one of them contains "mother" or
    "father", groups that are tested before.  So a name that contains
    "grandfather" gets the mother or the father avatar, and the
    grandmother and grandfather avatars are given only to names that
    contain "grandma" and "grandpa". *)
Theorem grandparent_keywords_are_shadowed :
  forall name : string,
    (includes (toLowerCase name) "grandfather" = true ->
     getAvatarForName name = avatar_mother \/ getAvatarForName name = avatar_father)
    /\ (getAvatarForName name = avatar_grandfather ->
        includes (toLowerCase name) "grandpa" = true)
    /\ (getAvatarForName name = avatar_grandmother ->
        includes (toLowerCase name) "grandma" = true).
Proof.
  intros name.
  pose proof (includes_suffix (toLowerCase name) "grand" "father") as Hf.
  pose proof (includes_suffix (toLowerCase name) "grand" "mother") as Hm.
  change ("grand" +:+ "father") with "grandfather" in Hf.
  change ("grand" +:+ "mother") with "grandmother" in Hm.
  unfold getAvatarForName.
  destruct (includes (toLowerCase name) "mom"), (includes (toLowerCase name) "mother"),
    (includes (toLowerCase name) "mama"); cbn [orb];
    try (split; [auto | split; discriminate]).
  all: destruct (includes (toLowerCase name) "dad"), (includes (toLowerCase name) "father"),
    (includes (toLowerCase name) "papa"); cbn [orb];
    try (split; [auto | split; discriminate]).
  all: destruct (includes (toLowerCase name) "kid" || includes (toLowerCase name) "child"
                 || includes (toLowerCase name) "son");
    [split; [intros H; specialize (Hf H); discriminate | split; discriminate]|].
  all: destruct (includes (toLowerCase name) "daughter" || includes (toLowerCase name) "girl");
    [split; [intros H; specialize (Hf H); discriminate | split; discriminate]|].
  all: destruct (includes (toLowerCase name) "grandma") eqn:Egm,
         (includes (toLowerCase name) "grandmother") eqn:Egmo; cbn [orb];
    try (specialize (Hm eq_refl); discriminate);
    try (split; [intros H; specialize (Hf H); discriminate | split; [discriminate | done]]).
  all: destruct (includes (toLowerCase name) "grandpa") eqn:Egp,
         (includes (toLowerCase name) "grandfather") eqn:Egf; cbn [orb];
    try (specialize (Hf eq_refl); discriminate);
    try (split; [discriminate | split; [done | discriminate]]).
  all: destruct (includes (toLowerCase name) "student");
    (split; [discriminate | split; discriminate]).
Qed.

Lemma grandparent_keywords_are_shadowed_witness :
  includes (toLowerCase "Grandfather Bill") "grandfather" = true
  /\ (getAvatarForName "Grandfather Bill" = avatar_mother
      \/ getAvatarForName "Grandfather Bill" = avatar_father).
Proof.
  split; [reflexivity|].
  apply (proj1 (grandparent_keywords_are_shadowed "Grandfather Bill")). reflexivity.
Defined.

(** ** Fields are never dropped *)

Lemma default_has_default_fields (v t : string) : has_default_fields (defaultHubState v t).
Proof.
  intros key Hkey. unfold default_field_names in Hkey.
  repeat (apply elem_of_cons in Hkey as [->|Hkey]; [by eexists|]).
  by apply elem_of_nil in Hkey.
Qed.

Lemma has_default_fields_insert (s : obj) (key : string) (x : value) :
  has_default_fields s -> has_default_fields (<[key := x]> s).
Proof.
  intros H k Hk. destruct (decide (key = k)) as [->|Hne].
  - rewrite lookup_insert_eq. eauto.
  - rewrite lookup_insert_ne by done. by apply H.
Qed.

Lemma has_default_fields_merge (s : obj) (update : value) :
  has_default_fields s -> has_default_fields (deepMerge s update).
Proof.
  intros H k Hk. destruct update; try by apply H.
  rewrite deepMerge_lookup. destruct (H k Hk) as [x Hx]. rewrite Hx.
  destruct (props !! k) as [[]|]; cbn [merge_rule]; try by eexists.
  destruct x; by eexists.
Qed.

Section DefaultFields.

Variable clock : nat -> string.

Lemma states_have_default_fields_store (v : string) (s : obj) (st st' : Server) :
  states_have_default_fields st -> has_default_fields s ->
  hubStateByVisitorId st' = <[v := s]> (hubStateByVisitorId st) ->
  states_have_default_fields st'.
Proof.
  intros Hst Hs Hh w s' Hw. rewrite Hh in Hw.
  destruct (decide (v = w)) as [<-|Hne].
  - rewrite lookup_insert_eq in Hw. by injection Hw as <-.
  - rewrite lookup_insert_ne in Hw by done. by apply (Hst w).
Qed.

Lemma step_default_fields (r : Request) (st : Server) :
  states_have_default_fields st -> states_have_default_fields (step clock r st).
Proof.
  intros Hst.
  assert (Hexisting : forall v k,
            has_default_fields
              (match hubStateByVisitorId st !! v with
               | Some s => s
               | None => defaultHubState v (clock k)
               end)).
  { intros v k. destruct (hubStateByVisitorId st !! v) as [s|] eqn:E;
      [by apply (Hst v) | apply default_has_default_fields]. }
  destruct r as [req|userId| |userId n| |userId| |]; cbn [step]; try exact Hst.
  - destruct (sr_userId req) as [u|] eqn:Hreq; [destruct (truthy u) eqn:Hu|];
      try (unfold post_hub_state; rewrite Hreq, ?Hu; exact Hst).
    destruct (getVisitorId u st) as [v st1] eqn:E1.
    destruct (post_hub_state_full clock req u v st st1 Hreq Hu E1) as (k & _ & _ & Hh).
    eapply (states_have_default_fields_store v _ st); [exact Hst | | exact Hh].
    unfold stampDebugInfo. apply has_default_fields_insert.
    destruct (sr_displayName req) as [d|]; [destruct (truthy d)|];
      try apply has_default_fields_insert; apply has_default_fields_merge, Hexisting.
  - destruct (truthy userId) eqn:Hu; [|unfold get_hub_state; rewrite Hu; exact Hst].
    destruct (getVisitorId userId st) as [v st1] eqn:E1.
    destruct (getOrCreateHubState clock v st1) as [s st2] eqn:E2.
    rewrite (get_hub_state_eq clock userId v s st st1 st2 Hu E1 E2). cbn [snd].
    destruct (getVisitorId_post _ _ _ _ E1) as (H1h & _).
    destruct (getOrCreateHubState_post _ _ _ _ _ E2) as (H2h & _ & _ & _ & H2s).
    eapply (states_have_default_fields_store v s st); [exact Hst | | by rewrite H2h, H1h].
    rewrite H1h in H2s. destruct (hubStateByVisitorId st !! v) as [s0|] eqn:E.
    + destruct H2s as [-> _]. by apply (Hst v).
    + destruct H2s as [-> _]. apply default_has_default_fields.
  - destruct userId as [u|]; [|exact Hst]. destruct n as [n|]; [|exact Hst].
    destruct (truthy u) eqn:Hu;
      [|unfold post_hub_profile_register; rewrite Hu; exact Hst].
    destruct (truthy n) eqn:Hn;
      [|unfold post_hub_profile_register; rewrite Hu, Hn; exact Hst].
    destruct (getVisitorId u st) as [v st1] eqn:E1.
    destruct (post_hub_profile_register_hub clock u n v st st1 Hu Hn E1)
      as (existing & Hex & Hh & _).
    eapply (states_have_default_fields_store v _ st); [exact Hst | | exact Hh].
    do 2 apply has_default_fields_insert.
    destruct (hubStateByVisitorId st !! v) as [s0|] eqn:E.
    + subst existing. by apply (Hst v).
    + destruct Hex as (k & _ & ->). apply default_has_default_fields.
  - destruct userId as [u|]; [|exact Hst].
    destruct (truthy u) eqn:Hu; [|unfold post_hub_reset; rewrite Hu; exact Hst].
    destruct (getVisitorId u st) as [v st1] eqn:E1.
    rewrite (post_hub_reset_eq clock u v st st1 Hu E1). cbn [snd].
    eapply (states_have_default_fields_store v _ st);
      [exact Hst | apply default_has_default_fields | reflexivity].
Qed.

End DefaultFields.

(** X19.  No stored hub state ever loses a field of the default state:
    in every state the server reaches through ordinary requests, every
    hub state has the twelve properties that [createDefaultHubState]
    sets (their values may have been replaced by updates). *)
Theorem default_fields_are_never_dropped :
  forall (clock : nat -> string) (rs : list Request) (v : string) (s : obj) (key : string),
    ordinary_requests rs = true ->
    hubStateByVisitorId (run clock rs initial) !! v = Some s ->
    key ∈ default_field_names ->
    is_Some (s !! key).
Proof.
  intros clock rs v s key _ Hs. revert key.
  change (has_default_fields s).
  apply (run_invariant clock (states_have_default_fields)
           (step_default_fields clock) rs initial) with v; [|exact Hs].
  intros w s'. cbn. by rewrite lookup_empty.
Qed.

Lemma default_fields_are_never_dropped_witness :
  let rs := [PostHubState {| sr_userId := Some "web-1";
                             sr_state := Some (list_to_map [("privacy", VNull);
                                                            ("extra", VNum 1)]);
                             sr_displayName := Some "Mom" |};
             PostHubProfileRegister (Some "web-1") (Some "Mom")] in
  ordinary_requests rs = true
  /\ exists s, hubStateByVisitorId (run sample_clock rs initial) !! "web-1" = Some s
               /\ "privacy" ∈ default_field_names
               /\ is_Some (s !! "privacy").
Proof.
  intros rs.
  assert (Hrs : ordinary_requests rs = true) by (vm_compute; reflexivity).
  split; [exact Hrs|].
  assert (Hs : is_Some (hubStateByVisitorId (run sample_clock rs initial) !! "web-1"))
    by (apply (bool_decide_unpack _); vm_compute; exact I).
  destruct Hs as [s Hs].
  assert (Hk : "privacy" ∈ default_field_names)
    by (apply (bool_decide_unpack _); vm_compute; exact I).
  exists s. split; [exact Hs | split; [exact Hk|]].
  exact (default_fields_are_never_dropped sample_clock rs "web-1" s "privacy" Hrs Hs Hk).
Defined.
